(** * The training-loop driver [engine/fitter.py]

    A shallow embedding of the [Fitter] class: the epoch loop [fit], the
    training and validation passes, checkpointing ([save], [save_model],
    [save_predictions], [load]), logging and early stopping.

    - Python [float] is IEEE-754 binary64: Rocq's primitive [float].
    - Python [int] is [Z].
    - [self] is the record [Fitter]; the file system, the log, the standard
      output and the calls made to the deep-learning framework are the
      record [World].  Both are threaded through a state-and-exception
      monad: an exception leaves the mutations made before it in place.
    - The framework (model, optimizer, scheduler, [torch.stack]) and the
      modules of the repository that [fitter.py] imports but that are not
      part of it ([evaluate], [inference], [make_optimizer],
      [make_scheduler], [AverageMeter]) are the interface [Collaborators]. *)

From Stdlib Require Import ZArith Floats Lia Bool.
From stdpp Require Import base option list gmap strings.

Local Open Scope Z_scope.

(** ** Python floats *)

Module PyFloat.

(** [a < b] and [a > b] on floats; both are [False] when a side is NaN. *)
Definition lt (a b : float) : bool := PrimFloat.ltb a b.
Definition gt (a b : float) : bool := PrimFloat.ltb b a.
Definition le (a b : float) : bool := PrimFloat.leb a b.
(** [a == b] on floats: [0.0 == -0.0] is [True], NaN equals nothing. *)
Definition eq (a b : float) : bool := PrimFloat.eqb a b.

(** The builtin [min(a, b)]: the first argument is kept unless the second
    is strictly smaller. *)
Definition min (a b : float) : float := if lt b a then b else a.

(** [float(n)] for an [int]: round to nearest, ties to even;
    [OverflowError] (here [None]) when the result is not finite. *)
Definition of_int (n : Z) : option float :=
  let f := SF2Prim (binary_normalize prec emax n 0 false) in
  if PrimFloat.is_infinity f then None else Some f.

(** [a / b] on floats: [ZeroDivisionError] (here [None]) when [b] is a
    zero of either sign. *)
Definition div (a b : float) : option float :=
  if PrimFloat.is_zero b then None else Some (PrimFloat.div a b).

(** "[a] is not above [b]", the order in which the best score only moves
    up: [b] is [a] itself or strictly greater. *)
Definition nondecr (a b : float) : Prop := a = b \/ lt a b = true.

End PyFloat.

Set Warnings "-inexact-float".
Local Open Scope float_scope.
Local Open Scope Z_scope.

(** ** Data model *)

(** [torch.device]: the CPU or a CUDA device with its index. *)
Inductive Device : Type :=
| cpu
| cuda (index : nat).

Inductive DType : Type := float32 | float64 | int64 | uint8.

(** [model.training]: [model.train()] and [model.eval()] switch it. *)
Inductive Mode : Type := TrainMode | EvalMode.

(** A tensor: its contents, which stay abstract, the device that holds it
    and its element type. *)
Record Tensor (D : Type) : Type := mkTensor {
  t_data : D;
  t_device : Device;
  t_dtype : DType;
}.
Arguments mkTensor {D} _ _ _.
Arguments t_data {D} _.
Arguments t_device {D} _.
Arguments t_dtype {D} _.

(** The configuration node [cfg]; [SOLVER_X] is [cfg.SOLVER.X]. *)
Record Config : Type := mkConfig {
  OUTPUT_DIR : string;
  VERBOSE : bool;
  SOLVER_MAX_EPOCHS : Z;
  SOLVER_WARMUP_EPOCHS : Z;
  SOLVER_BASE_LR : float;
  SOLVER_EARLY_STOP_PATIENCE : Z;
  SOLVER_CLEAR_OUTPUT : Z;
}.

(** One entry of [optimizer.param_groups]: its learning rate ['lr'] and the
    other hyper-parameters of the group. *)
Record ParamGroup (H : Type) : Type := mkParamGroup {
  lr : float;
  pg_hyper : H;
}.
Arguments mkParamGroup {H} _ _.
Arguments lr {H} _.
Arguments pg_hyper {H} _.

(** The optimizer: its parameter groups and its internal state. *)
Record Optimizer (H O : Type) : Type := mkOptimizer {
  param_groups : list (ParamGroup H);
  opt_state : O;
}.
Arguments mkOptimizer {H O} _ _.
Arguments param_groups {H O} _.
Arguments opt_state {H O} _.

(** The model: its parameters ([state_dict()]), its mode and its device. *)
Record Model (P : Type) : Type := mkModel {
  m_params : P;
  m_mode : Mode;
  m_device : Device;
}.
Arguments mkModel {P} _ _ _.
Arguments m_params {P} _.
Arguments m_mode {P} _.
Arguments m_device {P} _.

(** What a data loader yields: [(images, targets, image_ids)]; a target is
    a dictionary of named tensors. *)
Record Batch (D I : Type) : Type := mkBatch {
  b_images : list (Tensor D);
  b_targets : list (gmap string (Tensor D));
  b_image_ids : list I;
}.
Arguments mkBatch {D I} _ _ _.
Arguments b_images {D I} _.
Arguments b_targets {D I} _.
Arguments b_image_ids {D I} _.

(** The exceptions the embedded code can raise. *)
Inductive exn : Type :=
| ZeroDivisionError
| OverflowError
| IndexError
| KeyError
| AttributeError
| RuntimeError
| FileNotFoundError
| IsADirectoryError
| NotADirectoryError
| UnpicklingError.

(** The framework and the sibling modules of the repository, as far as
    [fitter.py] uses them. *)
Class Collaborators : Type := {
  Data : Type;         (* the contents of a tensor *)
  Params : Type;       (* model.state_dict() *)
  Hyper : Type;        (* a parameter group without its learning rate *)
  OptState : Type;     (* the optimizer's internal state *)
  SchedState : Type;   (* scheduler.state_dict() *)
  Loss : Type;         (* a scalar loss tensor *)
  Grads : Type;        (* what loss.backward() leaves on the parameters *)
  Outputs : Type;      (* model(images) in evaluation mode *)
  Pred : Type;         (* one record of all_predictions *)
  ImageId : Type;
  Meter : Type;        (* AverageMeter, from engine/average.py *)

  (* torch *)
  cuda_current_device : nat;             (* torch.cuda.current_device() *)
  stack_data : list Data -> Data;        (* torch.stack *)
  float_data : DType -> Data -> Data;    (* Tensor.float() *)
  forward_eval : Params -> list (Tensor Data) -> Outputs;
  forward_train : Params -> Tensor Data -> list (gmap string (Tensor Data)) ->
                  Params * list (string * Loss);
  loss_radd_zero : Loss -> Loss;         (* 0 + loss *)
  loss_add : Loss -> Loss -> Loss;
  loss_item : Loss -> float;
  backward : Params -> Loss -> Grads;
  optimizer_step : Optimizer Hyper OptState -> Params -> Grads ->
                   Optimizer Hyper OptState * Params;
  scheduler_step : SchedState -> Optimizer Hyper OptState ->
                   SchedState * Optimizer Hyper OptState;

  (* engine.average *)
  meter_new : Meter;                          (* AverageMeter() *)
  meter_update : Meter -> float -> Z -> Meter; (* update(val, n) *)
  meter_avg : Meter -> float;                 (* .avg *)

  (* solver.build, solver.lr_scheduler *)
  make_optimizer : Config -> Model Params -> Optimizer Hyper OptState;
  make_scheduler : Config -> Optimizer Hyper OptState ->
                   list (Batch Data ImageId) -> SchedState;

  (* evaluate.inference, evaluate.evaluate *)
  inference : list Pred -> list (Tensor Data) -> Outputs ->
              list (gmap string (Tensor Data)) -> list ImageId -> list Pred;
  evaluate : list Pred -> float * float;
}.

Section Fitter.
Context `{Collaborators}.

Definition tensor : Type := Tensor Data.
(** A target is a dictionary of named tensors. *)
Definition Target : Type := gmap string tensor.

Definition batch : Type := Batch Data ImageId.

Definition optimizer_t : Type := Optimizer Hyper OptState.

(** [Tensor.to(device)], [Tensor.cuda()] and [Tensor.float()]. *)
Definition tensor_to (d : Device) (t : tensor) : tensor :=
  mkTensor (t_data t) d (t_dtype t).
Definition tensor_cuda (t : tensor) : tensor :=
  mkTensor (t_data t) (cuda cuda_current_device) (t_dtype t).
Definition tensor_float (t : tensor) : tensor :=
  mkTensor (float_data (t_dtype t) (t_data t)) (t_device t) float32.

(** The dictionary [save] hands to [torch.save]. *)
Record Checkpoint : Type := mkCheckpoint {
  ck_model_state_dict : Params;
  ck_optimizer_state_dict : optimizer_t;
  ck_scheduler_state_dict : SchedState;
  ck_best_score_threshold : float;
  ck_best_final_score : float;
  ck_epoch : Z;
}.

(** The dictionary [save_model] hands to [torch.save]. *)
Record Snapshot : Type := mkSnapshot {
  sn_model_state_dict : Params;
  sn_best_score_threshold : float;
  sn_best_final_score : float;
}.

(** What the class puts on disk. *)
Inductive File : Type :=
| FCheckpoint (c : Checkpoint)
| FSnapshot (m : Snapshot)
| FCsv (rows : list Pred).

(** The messages [log] is called with; the wall-clock parts of the
    source's messages (timestamp, elapsed time) are left out. *)
Inductive LogMsg : Type :=
| MsgPrepared (d : Device)
| MsgLR (rate : float)
| MsgTrain (ep : Z) (avg : float)
| MsgVal (ep : Z) (threshold score : float)
| MsgEarlyStopping.

(** The calls into the framework that leave no mark on [self]. *)
Inductive Call : Type :=
| CForwardEval (images : list tensor)
| CForwardTrain (images : tensor) (targets : list Target)
| CZeroGrad
| COptimizerStep
| CSchedulerStep
| CEmptyCache
| COutputClear
| CLoggerInfo.

(** Everything outside [self].  The file system is kept by kind of entry:
    the directories [dirs]; the files that [torch.save] and [to_csv] write,
    by path, in [disk], with the journal [writes] of these writes, oldest
    first; the text files that [log] appends to, by path, in [logs].  A
    path stands for one entry: where a path is looked up the three are
    consulted, [disk] first.  Then the standard output and the framework
    calls, oldest first. *)
Record World : Type := mkWorld {
  dirs : gset string;
  disk : gmap string File;
  writes : list (string * File);
  logs : gmap string (list LogMsg);
  stdout : list LogMsg;
  calls : list Call;
}.

(** The attributes of [self]. *)
Record Fitter : Type := mkFitter {
  config : Config;
  epoch : Z;
  train_loader : list batch;
  val_loader : list batch;
  base_dir : string;
  log_path : string;
  best_final_score : float;
  best_score_threshold : float;
  model : Model Params;
  device : Device;
  optimizer : optimizer_t;
  scheduler : SchedState;
  all_predictions : list Pred;
  early_stop_epochs : Z;
  early_stop_patience : Z;
  do_scheduler : bool;
}.

Record St : Type := mkSt { self : Fitter; world : World }.

(** *** Attribute assignment *)

Definition set_epoch (v : Z) (f : Fitter) : Fitter :=
  mkFitter (config f) v (train_loader f) (val_loader f) (base_dir f)
    (log_path f) (best_final_score f) (best_score_threshold f) (model f)
    (device f) (optimizer f) (scheduler f) (all_predictions f)
    (early_stop_epochs f) (early_stop_patience f) (do_scheduler f).
Definition set_best_final_score (v : float) (f : Fitter) : Fitter :=
  mkFitter (config f) (epoch f) (train_loader f) (val_loader f) (base_dir f)
    (log_path f) v (best_score_threshold f) (model f)
    (device f) (optimizer f) (scheduler f) (all_predictions f)
    (early_stop_epochs f) (early_stop_patience f) (do_scheduler f).
Definition set_best_score_threshold (v : float) (f : Fitter) : Fitter :=
  mkFitter (config f) (epoch f) (train_loader f) (val_loader f) (base_dir f)
    (log_path f) (best_final_score f) v (model f)
    (device f) (optimizer f) (scheduler f) (all_predictions f)
    (early_stop_epochs f) (early_stop_patience f) (do_scheduler f).
Definition set_model (v : Model Params) (f : Fitter) : Fitter :=
  mkFitter (config f) (epoch f) (train_loader f) (val_loader f) (base_dir f)
    (log_path f) (best_final_score f) (best_score_threshold f) v
    (device f) (optimizer f) (scheduler f) (all_predictions f)
    (early_stop_epochs f) (early_stop_patience f) (do_scheduler f).
Definition set_optimizer (v : optimizer_t) (f : Fitter) : Fitter :=
  mkFitter (config f) (epoch f) (train_loader f) (val_loader f) (base_dir f)
    (log_path f) (best_final_score f) (best_score_threshold f) (model f)
    (device f) v (scheduler f) (all_predictions f)
    (early_stop_epochs f) (early_stop_patience f) (do_scheduler f).
Definition set_scheduler (v : SchedState) (f : Fitter) : Fitter :=
  mkFitter (config f) (epoch f) (train_loader f) (val_loader f) (base_dir f)
    (log_path f) (best_final_score f) (best_score_threshold f) (model f)
    (device f) (optimizer f) v (all_predictions f)
    (early_stop_epochs f) (early_stop_patience f) (do_scheduler f).
Definition set_all_predictions (v : list Pred) (f : Fitter) : Fitter :=
  mkFitter (config f) (epoch f) (train_loader f) (val_loader f) (base_dir f)
    (log_path f) (best_final_score f) (best_score_threshold f) (model f)
    (device f) (optimizer f) (scheduler f) v
    (early_stop_epochs f) (early_stop_patience f) (do_scheduler f).
Definition set_early_stop_epochs (v : Z) (f : Fitter) : Fitter :=
  mkFitter (config f) (epoch f) (train_loader f) (val_loader f) (base_dir f)
    (log_path f) (best_final_score f) (best_score_threshold f) (model f)
    (device f) (optimizer f) (scheduler f) (all_predictions f)
    v (early_stop_patience f) (do_scheduler f).
Definition set_do_scheduler (v : bool) (f : Fitter) : Fitter :=
  mkFitter (config f) (epoch f) (train_loader f) (val_loader f) (base_dir f)
    (log_path f) (best_final_score f) (best_score_threshold f) (model f)
    (device f) (optimizer f) (scheduler f) (all_predictions f)
    (early_stop_epochs f) (early_stop_patience f) v.

(** [model.eval()], [model.train()], [model.load_state_dict(p)]. *)
Definition model_set_mode (md : Mode) (m : Model Params) : Model Params :=
  mkModel (m_params m) md (m_device m).
Definition model_set_params (p : Params) (m : Model Params) : Model Params :=
  mkModel p (m_mode m) (m_device m).
Definition model_to (d : Device) (m : Model Params) : Model Params :=
  mkModel (m_params m) (m_mode m) d.

(** *** The world's primitives *)

Definition emit_call (c : Call) (w : World) : World :=
  mkWorld (dirs w) (disk w) (writes w) (logs w) (stdout w) (calls w ++ [c]).
Definition print (m : LogMsg) (w : World) : World :=
  mkWorld (dirs w) (disk w) (writes w) (logs w) (stdout w ++ [m]) (calls w).
(** [open(path, 'a+')] followed by a write: the file is created if it is
    not there.  The text files live in [logs], apart from what
    [torch.save] and [to_csv] write: a statement about the files a method
    changes has to speak of [logs] as well as of [disk]. *)
Definition append_line (path : string) (m : LogMsg) (w : World) : World :=
  mkWorld (dirs w) (disk w) (writes w)
    (<[path := default [] (logs w !! path) ++ [m]]> (logs w))
    (stdout w) (calls w).
(** [torch.save(obj, path)] and [df.to_csv(path)]. *)
Definition write_file (path : string) (f : File) (w : World) : World :=
  mkWorld (dirs w) (<[path := f]> (disk w)) (writes w ++ [(path, f)])
    (logs w) (stdout w) (calls w).
Definition makedirs (path : string) (w : World) : World :=
  mkWorld (dirs w ∪ {[path]}) (disk w) (writes w) (logs w) (stdout w)
    (calls w).

(** *** The state-and-exception monad *)

Inductive res (A : Type) : Type :=
| Ok (a : A)
| Raise (e : exn).
#[global] Arguments Ok {A} _.
#[global] Arguments Raise {A} _.

Definition M (A : Type) : Type := St -> St * res A.

Definition ret {A} (a : A) : M A := fun s => (s, Ok a).
Definition bind {A B} (m : M A) (k : A -> M B) : M B :=
  fun s => match m s with
           | (s', Ok a) => k a s'
           | (s', Raise e) => (s', Raise e)
           end.
Definition raise {A} (e : exn) : M A := fun s => (s, Raise e).
Definition get_self : M Fitter := fun s => (s, Ok (self s)).
Definition get_world : M World := fun s => (s, Ok (world s)).
Definition modify_self (g : Fitter -> Fitter) : M unit :=
  fun s => (mkSt (g (self s)) (world s), Ok tt).
Definition modify_world (g : World -> World) : M unit :=
  fun s => (mkSt (self s) (g (world s)), Ok tt).
(** A partial operation, with the exception it raises when undefined. *)
Definition or_raise {A} (e : exn) (o : option A) : M A :=
  match o with Some a => ret a | None => raise e end.

#[global] Instance M_ret : MRet M := @ret.
#[global] Instance M_bind : MBind M := fun A B k m => bind m k.

(** [for x in xs: body(x)] *)
Fixpoint for_each {A} (body : A -> M unit) (xs : list A) : M unit :=
  match xs with
  | [] => ret tt
  | x :: rest => body x ;; for_each body rest
  end.

(** ** The methods of [Fitter] *)

(** [log], lines 177-181. *)
Definition log (message : LogMsg) : M unit :=
  f ← get_self;
  (if VERBOSE (config f) then modify_world (print message) else ret tt) ;;
  modify_world (append_line (log_path f) message).

(** [early_stop], lines 183-187. *)
Definition early_stop (score : float) : M unit :=
  f ← get_self;
  if PyFloat.lt score (best_final_score f)
  then modify_self (set_early_stop_epochs (early_stop_epochs f + 1))
  else modify_self (set_early_stop_epochs 0).

Definition checkpoint_of (f : Fitter) : Checkpoint :=
  mkCheckpoint (m_params (model f)) (optimizer f) (scheduler f)
    (best_score_threshold f) (best_final_score f) (epoch f).

Definition snapshot_of (f : Fitter) : Snapshot :=
  mkSnapshot (m_params (model f)) (best_score_threshold f)
    (best_final_score f).

Definition model_eval : M unit :=
  modify_self (fun f => set_model (model_set_mode EvalMode (model f)) f).
Definition model_train : M unit :=
  modify_self (fun f => set_model (model_set_mode TrainMode (model f)) f).

(** [save], lines 145-154. *)
Definition save (path : string) : M unit :=
  model_eval ;;
  f ← get_self;
  modify_world (write_file path (FCheckpoint (checkpoint_of f))).

(** [save_model], lines 156-162. *)
Definition save_model (path : string) : M unit :=
  model_eval ;;
  f ← get_self;
  modify_world (write_file path (FSnapshot (snapshot_of f))).

(** [save_predictions], lines 164-166. *)
Definition save_predictions (path : string) : M unit :=
  f ← get_self;
  modify_world (write_file path (FCsv (all_predictions f))).

(** [torch.load(path)]: the dictionary stored at [path].  A file that
    holds no pickle -- the predictions, a log -- is [UnpicklingError], a
    directory [IsADirectoryError], nothing at all [FileNotFoundError]. *)
Definition torch_load (path : string) : M File :=
  w ← get_world;
  match disk w !! path with
  | Some (FCsv _) => raise UnpicklingError
  | Some file => ret file
  | None =>
      if bool_decide (is_Some (logs w !! path)) then raise UnpicklingError
      else if bool_decide (path ∈ dirs w) then raise IsADirectoryError
      else raise FileNotFoundError
  end.

(** [load], lines 168-175.  A dictionary written by [save_model] has no
    ['optimizer_state_dict']: the model is loaded, then [KeyError]. *)
Definition load (path : string) : M unit :=
  checkpoint ← torch_load path;
  match checkpoint with
  | FCheckpoint c =>
      modify_self (fun f =>
        set_model (model_set_params (ck_model_state_dict c) (model f)) f) ;;
      modify_self (set_optimizer (ck_optimizer_state_dict c)) ;;
      modify_self (set_scheduler (ck_scheduler_state_dict c)) ;;
      modify_self (set_best_score_threshold (ck_best_score_threshold c)) ;;
      modify_self (set_best_final_score (ck_best_final_score c)) ;;
      modify_self (set_epoch (ck_epoch c + 1))
  | FSnapshot m =>
      modify_self (fun f =>
        set_model (model_set_params (sn_model_state_dict m) (model f)) f) ;;
      raise KeyError
  | FCsv _ => raise UnpicklingError
  end.

(** [validation], lines 98-113.  The images go through [image.cuda()]. *)
Definition validation_step (b : batch) : M unit :=
  let images := map tensor_cuda (b_images b) in
  f ← get_self;
  let outputs := forward_eval (m_params (model f)) images in
  modify_world (emit_call (CForwardEval images)) ;;
  modify_self (set_all_predictions
    (inference (all_predictions f) images outputs (b_targets b)
       (b_image_ids b))).

Definition validation : M (float * float) :=
  model_eval ;;
  modify_self (set_all_predictions []) ;;
  modify_world (emit_call CEmptyCache) ;;
  f ← get_self;
  for_each validation_step (val_loader f) ;;
  f ← get_self;
  ret (evaluate (all_predictions f)).

(** [torch.stack(images)]: [RuntimeError] (here [None]) on an empty
    list. *)
Definition torch_stack (images : list tensor) : option tensor :=
  match images with
  | [] => None
  | t :: _ =>
      Some (mkTensor (stack_data (map t_data images)) (t_device t)
              (t_dtype t))
  end.

(** [targets[i]['boxes'] = targets[i]['boxes'].float()] for every [i]:
    [KeyError] (here [None]) when a target has no ['boxes']. *)
Fixpoint boxes_to_float (targets : list Target) : option (list Target) :=
  match targets with
  | [] => Some []
  | t :: rest =>
      match t !! "boxes"%string with
      | None => None
      | Some boxes =>
          match boxes_to_float rest with
          | None => None
          | Some rest' =>
              Some (<["boxes"%string := tensor_float boxes]> t :: rest')
          end
      end
  end.

(** The builtin [sum] over the loss terms: [0 + l1 + l2 + ...]; on no
    term at all it is the integer [0] (here [None]), which has no
    [backward]. *)
Definition py_sum (losses : list Loss) : option Loss :=
  match losses with
  | [] => None
  | l :: rest => Some (fold_left loss_add rest (loss_radd_zero l))
  end.

(** One turn of the loop of [train_one_epoch], lines 120-141. *)
Definition train_step (b : batch) (summary_loss : Meter) : M Meter :=
  f ← get_self;
  stacked ← or_raise RuntimeError (torch_stack (b_images b));
  let images := tensor_float (tensor_to (device f) stacked) in
  let batch_size := Z.of_nat (length (b_images b)) in
  targets ← or_raise KeyError
    (boxes_to_float (map (fmap (tensor_to (device f))) (b_targets b)));
  modify_world (emit_call CZeroGrad) ;;
  let '(params, loss_dict) :=
    forward_train (m_params (model f)) images targets in
  modify_world (emit_call (CForwardTrain images targets)) ;;
  modify_self (fun f => set_model (model_set_params params (model f)) f) ;;
  loss ← or_raise AttributeError (py_sum (map snd loss_dict));
  let grads := backward params loss in
  let summary_loss := meter_update summary_loss (loss_item loss) batch_size in
  let '(opt, params') := optimizer_step (optimizer f) params grads in
  modify_self (set_optimizer opt) ;;
  modify_self (fun f => set_model (model_set_params params' (model f)) f) ;;
  modify_world (emit_call COptimizerStep) ;;
  (if do_scheduler f
   then let '(sch, opt') := scheduler_step (scheduler f) opt in
        modify_self (set_scheduler sch) ;;
        modify_self (set_optimizer opt') ;;
        modify_world (emit_call CSchedulerStep)
   else ret tt) ;;
  f ← get_self;
  (* the progress line reads param_groups[0]["lr"] *)
  or_raise IndexError (head (param_groups (optimizer f))) ;;
  ret summary_loss.

Fixpoint train_loop (batches : list batch) (summary_loss : Meter) : M Meter :=
  match batches with
  | [] => ret summary_loss
  | b :: rest =>
      summary_loss ← train_step b summary_loss;
      train_loop rest summary_loss
  end.

(** [train_one_epoch], lines 115-143. *)
Definition train_one_epoch : M Meter :=
  model_train ;;
  f ← get_self;
  train_loop (train_loader f) meter_new.

(** ** The epoch loop *)

(** [for pg in self.optimizer.param_groups: pg['lr'] = v] *)
Definition set_lrs (v : float) (o : optimizer_t) : optimizer_t :=
  mkOptimizer (map (fun pg => mkParamGroup v (pg_hyper pg)) (param_groups o))
    (opt_state o).

(** [a % b] on integers: the sign follows the divisor;
    [ZeroDivisionError] (here [None]) when [b] is zero. *)
Definition py_mod (a b : Z) : option Z :=
  if b =? 0 then None else Some (a `mod` b).

(** [range(a, b)] *)
Definition py_range (a b : Z) : list Z :=
  map (fun i => a + Z.of_nat i) (seq 0 (Z.to_nat (b - a))).

(** How a turn of the loop ends: on [self.epoch += 1], or on [break]. *)
Inductive ctl : Type := Continue | Break.

(** Lines 56-62: the warm-up of the learning rate; [ep] is the loop
    variable [epoch]. *)
Definition fit_warmup (ep : Z) : M unit :=
  f ← get_self;
  let cfg := config f in
  if ep <? SOLVER_WARMUP_EPOCHS cfg then
    a ← or_raise OverflowError (PyFloat.of_int (ep + 1));
    b ← or_raise OverflowError (PyFloat.of_int (SOLVER_WARMUP_EPOCHS cfg));
    q ← or_raise ZeroDivisionError (PyFloat.div a b);
    let lr_scale := PyFloat.min 1 q in
    modify_self (fun f =>
      set_optimizer
        (set_lrs (lr_scale * SOLVER_BASE_LR cfg)%float (optimizer f)) f) ;;
    modify_self (set_do_scheduler false)
  else modify_self (set_do_scheduler true).

(** Lines 63-66. *)
Definition fit_log_lr : M unit :=
  f ← get_self;
  if VERBOSE (config f) then
    pg ← or_raise IndexError (head (param_groups (optimizer f)));
    log (MsgLR (lr pg))
  else ret tt.

(** Lines 56-72: warm-up, training pass and its log line. *)
Definition fit_train (ep : Z) : M unit :=
  fit_warmup ep ;;
  fit_log_lr ;;
  summary_loss ← train_one_epoch;
  f ← get_self;
  log (MsgTrain (epoch f) (meter_avg summary_loss)).

Definition last_checkpoint (f : Fitter) : string :=
  base_dir f +:+ "/last-checkpoint.bin".
Definition best_checkpoint (f : Fitter) : string :=
  base_dir f +:+ "/best-checkpoint.bin".
Definition best_model (f : Fitter) : string :=
  base_dir f +:+ "/best-model.bin".
Definition predictions_csv (f : Fitter) : string :=
  base_dir f +:+ "/all_predictions.csv".

(** Lines 73-79: the last checkpoint, the validation pass and its log
    line. *)
Definition fit_validate : M (float * float) :=
  f ← get_self;
  save (last_checkpoint f) ;;
  r ← validation;
  f ← get_self;
  log (MsgVal (epoch f) (fst r) (snd r)) ;;
  ret r.

(** Lines 80-86: what an improving epoch triggers. *)
Definition fit_select (r : float * float) : M unit :=
  f ← get_self;
  if PyFloat.gt (snd r) (best_final_score f) then
    modify_self (set_best_final_score (snd r)) ;;
    modify_self (set_best_score_threshold (fst r)) ;;
    model_eval ;;
    save (best_checkpoint f) ;;
    save_model (best_model f) ;;
    save_predictions (predictions_csv f)
  else ret tt.

(** Lines 89-96: [break], or clear the display and advance. *)
Definition fit_advance : M ctl :=
  f ← get_self;
  if early_stop_patience f <? early_stop_epochs f then
    log MsgEarlyStopping ;;
    ret Break
  else
    r ← or_raise ZeroDivisionError
          (py_mod (epoch f) (SOLVER_CLEAR_OUTPUT (config f)));
    (if r =? 0 then modify_world (emit_call COutputClear) else ret tt) ;;
    modify_self (fun f => set_epoch (epoch f + 1) f) ;;
    ret Continue.

(** Lines 80-96. *)
Definition fit_decide (r : float * float) : M ctl :=
  fit_select r ;;
  early_stop (snd r) ;;
  fit_advance.

(** The body of the loop of [fit], lines 56-96. *)
Definition fit_iteration (ep : Z) : M ctl :=
  fit_train ep ;;
  r ← fit_validate;
  fit_decide r.

Fixpoint fit_loop (epochs : list Z) : M unit :=
  match epochs with
  | [] => ret tt
  | ep :: rest =>
      c ← fit_iteration ep;
      match c with
      | Break => ret tt
      | Continue => fit_loop rest
      end
  end.

(** [fit], lines 54-96. *)
Definition fit : M unit :=
  f ← get_self;
  fit_loop (py_range (epoch f) (SOLVER_MAX_EPOCHS (config f))).

(** The turns the loop takes over [epochs] from the state [s]: the loop
    variable and the state at the top of each turn, in order. *)
Fixpoint fit_history (epochs : list Z) (s : St) : list (Z * St) :=
  match epochs with
  | [] => []
  | ep :: rest =>
      (ep, s) ::
      match fit_iteration ep s with
      | (s', Ok Continue) => fit_history rest s'
      | _ => []
      end
  end.

Definition fit_turns (s : St) : list (Z * St) :=
  fit_history (py_range (epoch (self s))
                 (SOLVER_MAX_EPOCHS (config (self s)))) s.

(** [__init__], lines 24-52, in the world [w]: the fitter it returns, in
    the world it leaves.  Where the constructor raises, see [init_result]
    below, there is no such fitter. *)
Definition init (mdl : Model Params) (dev : Device) (cfg : Config)
    (train val : list batch) (w : World) : St :=
  let base := OUTPUT_DIR cfg in
  let w :=
    if bool_decide (base ∈ dirs w) || bool_decide (is_Some (disk w !! base))
       || bool_decide (is_Some (logs w !! base))
    then w else makedirs base w in
  let mdl := model_to dev mdl in
  let opt := make_optimizer cfg mdl in
  let sch := make_scheduler cfg opt train in
  let f :=
    mkFitter cfg 0 train val base (base +:+ "/log.txt") 0.0%float 0.5%float
      mdl dev opt sch [] 0 (SOLVER_EARLY_STOP_PATIENCE cfg) true in
  let s := fst (log (MsgPrepared dev) (mkSt f w)) in
  mkSt (self s) (emit_call CLoggerInfo (world s)).

(** [os.path.exists(path)]; the empty path never exists. *)
Definition path_exists (path : string) (w : World) : bool :=
  negb (bool_decide (path = ""%string)) &&
  (bool_decide (path ∈ dirs w) || bool_decide (is_Some (disk w !! path))
   || bool_decide (is_Some (logs w !! path))).

(** [Fitter(model, device, cfg, train_loader, val_loader)] with its
    failures, and the world it leaves.  Line 32, [os.makedirs('')], raises
    [FileNotFoundError].  With a file at [OUTPUT_DIR] line 31 skips
    [os.makedirs] and line 180, reached from line 46, cannot open the log
    file under it: [NotADirectoryError].  With a directory at the path of
    the log file line 180 raises [IsADirectoryError].  Otherwise the
    constructor returns [init]. *)
Definition init_result (mdl : Model Params) (dev : Device) (cfg : Config)
    (train val : list batch) (w : World) : World * res St :=
  let base := OUTPUT_DIR cfg in
  if bool_decide (base = ""%string) then (w, Raise FileNotFoundError)
  else
    let w1 := if path_exists base w then w else makedirs base w in
    if negb (bool_decide (base ∈ dirs w1)) then (w1, Raise NotADirectoryError)
    else if bool_decide (base +:+ "/log.txt" ∈ dirs w1)
    then (w1, Raise IsADirectoryError)
    else (world (init mdl dev cfg train val w),
          Ok (init mdl dev cfg train val w)).

(** ** What the proofs speak of *)

(** [m] only takes the state to states related by [R]. *)
Definition stable {A} (R : St -> St -> Prop) (m : M A) : Prop :=
  forall s, R s (m s).1.

(** The attributes that only [fit_select], [early_stop], [fit_advance]
    and [load] assign. *)
Definition bookkeeping (f : Fitter) :
    Config * Z * list batch * list batch * string * string * float * float
    * Device * Z * Z :=
  (config f, epoch f, train_loader f, val_loader f, base_dir f, log_path f,
   best_final_score f, best_score_threshold f, device f,
   early_stop_epochs f, early_stop_patience f).

(** Same bookkeeping, same files. *)
Definition quiet (s s' : St) : Prop :=
  bookkeeping (self s') = bookkeeping (self s) /\
  writes (world s') = writes (world s) /\
  disk (world s') = disk (world s).

(** The attributes no line of [fit] assigns. *)
Definition fixed (f : Fitter) :
    Config * list batch * list batch * string * string * Device * Z :=
  (config f, train_loader f, val_loader f, base_dir f, log_path f, device f,
   early_stop_patience f).

(** Lines 81-82. *)
Definition best_updated (r : float * float) (f : Fitter) : Fitter :=
  set_best_score_threshold r.1 (set_best_final_score r.2 f).

(** The three files of lines 84-86, in the order they are written. *)
Definition best_artifacts (r : float * float) (f : Fitter) :
    list (string * File) :=
  [ (best_checkpoint f, FCheckpoint (checkpoint_of (best_updated r f)));
    (best_model f, FSnapshot (snapshot_of (best_updated r f)));
    (predictions_csv f, FCsv (all_predictions f)) ].

(** What lines 80-96 do to the bookkeeping [f] on the validation result
    [r]: the attributes afterwards are those of [fe], the turn ends on
    [c]. *)
Definition decided (f : Fitter) (r : float * float) (fe : Fitter)
    (c : res ctl) : Prop :=
  let imp := PyFloat.gt r.2 (best_final_score f) in
  fixed fe = fixed f /\
  best_final_score fe = (if imp then r.2 else best_final_score f) /\
  best_score_threshold fe = (if imp then r.1 else best_score_threshold f) /\
  early_stop_epochs fe =
    (if PyFloat.lt r.2 (best_final_score fe)
     then early_stop_epochs f + 1 else 0) /\
  c = (if early_stop_patience f <? early_stop_epochs fe
       then Ok Break
       else if SOLVER_CLEAR_OUTPUT (config f) =? 0
            then Raise ZeroDivisionError else Ok Continue) /\
  epoch fe = (match c with Ok Continue => epoch f + 1 | _ => epoch f end).

(** A turn either stops in the training phase on an exception, with no
    file written, or goes through validation and the decision. *)
Inductive turn_outcome (ep : Z) (s : St) : Prop :=
| turn_raised (st : St) (e : exn)
    (Htrain : fit_train ep s = (st, Raise e))
    (Hiter : fit_iteration ep s = (st, Raise e))
    (Hquiet : quiet s st)
| turn_decided (st sv se : St) (r : float * float) (c : res ctl)
    (Htrain : fit_train ep s = (st, Ok tt))
    (Hquiet : quiet s st)
    (Hval : fit_validate st = (sv, Ok r))
    (Hr : r = evaluate (all_predictions (self sv)))
    (Hbook : bookkeeping (self sv) = bookkeeping (self s))
    (Hlast : writes (world sv) =
             writes (world s) ++
             [(last_checkpoint (self s), FCheckpoint (checkpoint_of (self st)))])
    (Hdec : fit_decide r sv = (se, c))
    (Hiter : fit_iteration ep s = (se, c))
    (Hfacts : decided (self s) r (self se) c)
    (Hbest : writes (world se) =
             writes (world sv) ++
             (if PyFloat.gt r.2 (best_final_score (self s))
              then best_artifacts r (self sv) else [])).


(** A run in which no epoch improved on the constructor's best score: the
    best score and threshold are the initial ones and every file written on
    top of the journal [ws] is a last checkpoint under [dir]. *)
Definition unimproved (dir : string) (ws : list (string * File)) (s : St) :
    Prop :=
  best_final_score (self s) = 0%float /\
  best_score_threshold (self s) = 0.5%float /\
  base_dir (self s) = dir /\
  exists cks : list Checkpoint,
    writes (world s) =
    ws ++ map (fun c => (dir +:+ "/last-checkpoint.bin", FCheckpoint c)) cks.

(** The calls to [scheduler.step()] made so far. *)
Definition is_scheduler_step (c : Call) : bool :=
  match c with CSchedulerStep => true | _ => false end.
Definition scheduler_steps (s : St) : nat :=
  length (List.filter is_scheduler_step (calls (world s))).




(** The scheduler flag, the calls, the optimizer and the training loader
    are as before. *)
Definition same_schedule (s s' : St) : Prop :=
  do_scheduler (self s') = do_scheduler (self s) /\
  calls (world s') = calls (world s) /\
  optimizer (self s') = optimizer (self s) /\
  train_loader (self s') = train_loader (self s).

(** The flag and the loader are as before, and with the flag off no call
    to [scheduler.step()] was added. *)
Definition no_step_when_off (s s' : St) : Prop :=
  do_scheduler (self s') = do_scheduler (self s) /\
  train_loader (self s') = train_loader (self s) /\
  (do_scheduler (self s) = false -> scheduler_steps s' = scheduler_steps s).


(** *** Files and log lines *)

(** The disk [d] after the writes [new], oldest first. *)
Definition replay (new : list (string * File)) (d : gmap string File) :
    gmap string File :=
  foldl (fun d pf => <[pf.1 := pf.2]> d) d new.

(** No directory was made; the journal has grown by some writes and the
    disk is the old disk with these writes replayed. *)
Definition journaled (s s' : St) : Prop :=
  dirs (world s') = dirs (world s) /\
  exists new,
    writes (world s') = writes (world s) ++ new /\
    disk (world s') = replay new (disk (world s)).

(** The four files [fit] writes, lines 73 and 84-86. *)
Definition artifacts (f : Fitter) : list string :=
  [last_checkpoint f; best_checkpoint f; best_model f; predictions_csv f].

(** The lines of the file at [self.log_path]; none when it is not there. *)
Definition log_file (s : St) : list LogMsg :=
  default [] (logs (world s) !! log_path (self s)).

(** The log file has grown by some lines, which are also what was printed
    when [VERBOSE] is on, and nothing was printed when it is off; the other
    log files are as they were. *)
Definition logged (s s' : St) : Prop :=
  config (self s') = config (self s) /\
  log_path (self s') = log_path (self s) /\
  exists more,
    log_file s' = log_file s ++ more /\
    stdout (world s') =
      stdout (world s) ++ (if VERBOSE (config (self s)) then more else []) /\
    forall p, p <> log_path (self s) ->
              logs (world s') !! p = logs (world s) !! p.


(** Nothing was logged or printed. *)
Definition silent (s s' : St) : Prop :=
  logs (world s') = logs (world s) /\ stdout (world s') = stdout (world s).


(** The model's parameters, the optimizer and the scheduler are as they
    were. *)
Definition same_training (s s' : St) : Prop :=
  m_params (model (self s')) = m_params (model (self s)) /\
  optimizer (self s') = optimizer (self s) /\
  scheduler (self s') = scheduler (self s).


(** The model is in the mode it was in. *)
Definition keeps_mode (s s' : St) : Prop :=
  m_mode (model (self s')) = m_mode (model (self s)).

(** A model in evaluation mode is still in evaluation mode. *)
Definition stays_eval (s s' : St) : Prop :=
  m_mode (model (self s)) = EvalMode -> m_mode (model (self s')) = EvalMode.


(** *** The validation pass, in closed form *)

(** The predictions the loop of lines 105-108 accumulates on top of [acc]
    over the batches, with the model's parameters [params]. *)
Definition predictions_of (params : Params) (batches : list batch)
    (acc : list Pred) : list Pred :=
  foldl (fun acc b =>
           let images := map tensor_cuda (b_images b) in
           inference acc images (forward_eval params images) (b_targets b)
             (b_image_ids b))
    acc batches.

(** The framework calls of [validation]: line 102, then one forward pass
    per batch, line 107. *)
Definition validation_calls (batches : list batch) : list Call :=
  CEmptyCache ::
  map (fun b => CForwardEval (map tensor_cuda (b_images b))) batches.


(** *** The training pass *)

(** A batch the loop of [train_one_epoch] can process: it has an image to
    stack and every target has its ['boxes']. *)
Definition well_formed (b : batch) : Prop :=
  b_images b <> [] /\
  Forall (fun t : Target => is_Some (t !! "boxes"%string)) (b_targets b).

Definition is_zero_grad (c : Call) : bool :=
  match c with CZeroGrad => true | _ => false end.
Definition is_forward_train (c : Call) : bool :=
  match c with CForwardTrain _ _ => true | _ => false end.
Definition is_optimizer_step (c : Call) : bool :=
  match c with COptimizerStep => true | _ => false end.

(** How many of the framework calls made so far are of the kind [k]. *)
Definition count_calls (k : Call -> bool) (s : St) : nat :=
  length (List.filter k (calls (world s))).


Definition is_output_clear (c : Call) : bool :=
  match c with COutputClear => true | _ => false end.

(** No call to [output.clear()] was added. *)
Definition same_clears (s s' : St) : Prop :=
  count_calls is_output_clear s' = count_calls is_output_clear s.


(** The three files of lines 84-86 are on disk and belong to the current
    best: the best checkpoint and the best model record
    [self.best_final_score] and [self.best_score_threshold] and hold the
    same parameters, and the predictions file holds predictions that
    [evaluate] gives this threshold and score for. *)
Definition best_files_in_step (s : St) : Prop :=
  exists (c : Checkpoint) (m : Snapshot) (preds : list Pred),
    disk (world s) !! best_checkpoint (self s) = Some (FCheckpoint c) /\
    disk (world s) !! best_model (self s) = Some (FSnapshot m) /\
    disk (world s) !! predictions_csv (self s) = Some (FCsv preds) /\
    ck_best_final_score c = best_final_score (self s) /\
    ck_best_score_threshold c = best_score_threshold (self s) /\
    sn_best_final_score m = best_final_score (self s) /\
    sn_best_score_threshold m = best_score_threshold (self s) /\
    sn_model_state_dict m = ck_model_state_dict c /\
    evaluate preds = (best_score_threshold (self s), best_final_score (self s)).

End Fitter.


(** ** A small instance of the collaborators

    The "model" is the number of optimizer steps taken so far; its output
    in evaluation mode is that number, which [inference] appends to the
    predictions; [evaluate] reads the score of the epoch off a table. *)

Module Toy.

Definition read_score (scores : list float) (preds : list nat) :
    float * float :=
  (0.25%float, nth (Nat.pred (List.last preds 0%nat)) scores 0%float).

Definition collaborators (scores : list float) : Collaborators := {|
  Data := unit;
  Params := nat;
  Hyper := unit;
  OptState := unit;
  SchedState := nat;
  Loss := float;
  Grads := unit;
  Outputs := nat;
  Pred := nat;
  ImageId := nat;
  Meter := float * Z;
  cuda_current_device := 0%nat;
  stack_data := fun _ => tt;
  float_data := fun _ d => d;
  forward_eval := fun p _ => p;
  forward_train := fun p _ _ =>
    (p, [("loss_classifier"%string, 0.5%float);
         ("loss_box_reg"%string, 0.25%float)]);
  loss_radd_zero := fun l => (0 + l)%float;
  loss_add := PrimFloat.add;
  loss_item := fun l => l;
  backward := fun _ _ => tt;
  optimizer_step := fun o p _ => (o, S p);
  scheduler_step := fun s o => (S s, o);
  meter_new := (0%float, 0);
  meter_update := fun m v n => ((m.1 + v)%float, m.2 + n);
  meter_avg := fun m => m.1;
  make_optimizer := fun cfg _ =>
    mkOptimizer [mkParamGroup (SOLVER_BASE_LR cfg) tt;
                 mkParamGroup (SOLVER_BASE_LR cfg) tt] tt;
  make_scheduler := fun _ _ _ => 0%nat;
  inference := fun acc _ out _ _ => acc ++ [out];
  evaluate := read_score scores;
|}.

(** One image with its boxes, on the CPU. *)
Definition image : Tensor unit := mkTensor tt cpu uint8.
Definition target : gmap string (Tensor unit) :=
  {[ "boxes"%string := mkTensor tt cpu float64 ]}.
Definition a_batch : Batch unit nat := mkBatch [image] [target] [7%nat].

Definition cfg (patience : Z) : Config := {|
  OUTPUT_DIR := "out";
  VERBOSE := true;
  SOLVER_MAX_EPOCHS := 10;
  SOLVER_WARMUP_EPOCHS := 5;
  SOLVER_BASE_LR := 0.01%float;
  SOLVER_EARLY_STOP_PATIENCE := patience;
  SOLVER_CLEAR_OUTPUT := 2;
|}.

Definition empty_world (scores : list float) : @World (collaborators scores) :=
  mkWorld ∅ ∅ [] ∅ [] [].

(** A fitter fresh from [__init__], on the device [dev]. *)
Definition fresh (scores : list float) (dev : Device) (patience : Z) :
    @St (collaborators scores) :=
  init (H := collaborators scores) (mkModel 0%nat TrainMode cpu) dev
    (cfg patience) [a_batch] [a_batch]
    (empty_world scores).

(** The sequence of the specification's example. *)
Definition example_scores : list float :=
  [0.1; 0.3; 0.2; 0.25]%float.


(** The fresh fitter of the example, patience 1, and its first turn: the
    state after the training phase and the state after the validation. *)
Definition s0 : @St (collaborators example_scores) :=
  fresh example_scores (cuda 0) 1.
Definition st0 : @St (collaborators example_scores) := (fit_train 0 s0).1.
Definition sv0 : @St (collaborators example_scores) := (fit_validate st0).1.

(** A fitter on the CPU whose every validation score is 0.0. *)
Definition flat : @St (collaborators []) := fresh [] cpu 1.


(** A second fitter, fresh from [__init__] in a later process that finds
    the files the first turn of [s0] left on disk. *)
Definition flat_like : @St (collaborators example_scores) :=
  init (H := collaborators example_scores) (mkModel 0%nat TrainMode cpu)
    (cuda 0) (cfg 1) [a_batch] [a_batch]
    (mkWorld (dirs (world sv0)) (disk (world sv0)) [] (logs (world sv0)) [] []).


(** The states at the top of the second, third and fourth turn of the
    example run. *)
Definition s1 : @St (collaborators example_scores) := (fit_iteration 0 s0).1.
Definition s2 : @St (collaborators example_scores) := (fit_iteration 1 s1).1.
Definition s3 : @St (collaborators example_scores) := (fit_iteration 2 s2).1.


(** The state in which the example run ends. *)
Definition sf : @St (collaborators example_scores) := (fit s0).1.

(** The example with [CLEAR_OUTPUT = 0]: a fresh fitter and the state after
    the training phase of its first turn. *)
Definition cfg_no_clear : Config := {|
  OUTPUT_DIR := "out";
  VERBOSE := true;
  SOLVER_MAX_EPOCHS := 10;
  SOLVER_WARMUP_EPOCHS := 5;
  SOLVER_BASE_LR := 0.01%float;
  SOLVER_EARLY_STOP_PATIENCE := 1;
  SOLVER_CLEAR_OUTPUT := 0;
|}.
Definition stuck : @St (collaborators example_scores) :=
  init (H := collaborators example_scores) (mkModel 0%nat TrainMode cpu)
    (cuda 0) cfg_no_clear [a_batch] [a_batch] (empty_world example_scores).
Definition stuck_t : @St (collaborators example_scores) :=
  (fit_train (epoch (self stuck)) stuck).1.

(** A fitter whose first validation score is -0.0, and its first turn. *)
Definition neg_zero_scores : list float := [PrimFloat.neg_zero].
Definition z0 : @St (collaborators neg_zero_scores) :=
  fresh neg_zero_scores (cuda 0) 1.
Definition zt0 : @St (collaborators neg_zero_scores) := (fit_train 0 z0).1.
Definition zv0 : @St (collaborators neg_zero_scores) := (fit_validate zt0).1.


(** A fitter whose training loader yields a batch without images. *)
Definition no_images : Batch unit nat := mkBatch [] [] [].
Definition broken : @St (collaborators example_scores) :=
  init (H := collaborators example_scores) (mkModel 0%nat TrainMode cpu)
    (cuda 0) (cfg 1) [no_images] [a_batch] (empty_world example_scores).
Definition broken_t : @St (collaborators example_scores) :=
  (fit_train 0 broken).1.

(** The example fitter with an optimizer without parameter groups. *)
Definition bare : @St (collaborators example_scores) :=
  mkSt (set_optimizer (H := collaborators example_scores)
          (mkOptimizer [] tt) (self s0))
    (world s0).
Definition bare_t : @St (collaborators example_scores) :=
  (fit_train 7 bare).1.

End Toy.

(** * Facts *)

(** ** The order of Python floats *)

Module PyOrder.
Import PyFloat.

(** *** The order of the specification floats *)

Lemma SFcompare_Lt_irrefl (x : spec_float) : SFcompare x x <> Some Lt.
Proof.
  destruct x as [s|s| |s m e]; simpl; try destruct s; try discriminate.
  - rewrite Z.compare_refl.
    change (Pos.compare_cont Eq m m) with (Pos.compare m m).
    rewrite Pos.compare_refl. discriminate.
  - rewrite Z.compare_refl.
    change (Pos.compare_cont Eq m m) with (Pos.compare m m).
    rewrite Pos.compare_refl. discriminate.
Qed.

Lemma SFcompare_antisym (x y : spec_float) :
  SFcompare x y = Some Lt -> SFcompare y x = Some Gt.
Proof.
  destruct x as [s1|s1| |s1 m1 e1], y as [s2|s2| |s2 m2 e2]; simpl;
    try destruct s1; try destruct s2; try discriminate; try reflexivity;
    change (Pos.compare_cont Eq m1 m2) with (Pos.compare m1 m2);
    change (Pos.compare_cont Eq m2 m1) with (Pos.compare m2 m1);
    rewrite (Z.compare_antisym e1 e2), (Pos.compare_antisym m1 m2);
    destruct (e1 ?= e2); simpl; try discriminate; try reflexivity;
    destruct (m1 ?= m2)%positive; simpl; try discriminate; reflexivity.
Qed.

Lemma SFcompare_Lt_trans (x y z : spec_float) :
  SFcompare x y = Some Lt -> SFcompare y z = Some Lt ->
  SFcompare x z = Some Lt.
Proof.
  destruct x as [s1|s1| |s1 m1 e1], y as [s2|s2| |s2 m2 e2],
           z as [s3|s3| |s3 m3 e3]; simpl;
    try destruct s1; try destruct s2; try destruct s3;
    try discriminate; try reflexivity;
    change (Pos.compare_cont Eq m1 m2) with (Pos.compare m1 m2);
    change (Pos.compare_cont Eq m2 m3) with (Pos.compare m2 m3);
    change (Pos.compare_cont Eq m1 m3) with (Pos.compare m1 m3);
    destruct (Z.compare_spec e1 e2), (Z.compare_spec e2 e3);
    try discriminate;
    destruct (Pos.compare_spec m1 m2), (Pos.compare_spec m2 m3);
    simpl; try discriminate; intros _ _; subst;
    repeat match goal with
           | |- context [Z.compare ?a ?b] =>
               destruct (Z.compare_spec a b); try lia
           | |- context [Pos.compare ?a ?b] =>
               destruct (Pos.compare_spec a b); try lia
           end; reflexivity.
Qed.

(** *** The order of Python floats *)

Lemma lt_irrefl (x : float) : lt x x = false.
Proof.
  unfold lt. rewrite ltb_spec. unfold SFltb.
  pose proof (SFcompare_Lt_irrefl (Prim2SF x)) as H.
  destruct (SFcompare (Prim2SF x) (Prim2SF x)) as [[]|]; congruence.
Qed.

Lemma lt_asym (x y : float) : lt x y = true -> lt y x = false.
Proof.
  unfold lt. rewrite !ltb_spec. unfold SFltb. intros H.
  destruct (SFcompare (Prim2SF x) (Prim2SF y)) as [[]|] eqn:E;
    try discriminate.
  now rewrite (SFcompare_antisym _ _ E).
Qed.

Lemma lt_trans (x y z : float) :
  lt x y = true -> lt y z = true -> lt x z = true.
Proof.
  unfold lt. rewrite !ltb_spec. unfold SFltb. intros H1 H2.
  destruct (SFcompare (Prim2SF x) (Prim2SF y)) as [[]|] eqn:E1;
    try discriminate.
  destruct (SFcompare (Prim2SF y) (Prim2SF z)) as [[]|] eqn:E2;
    try discriminate.
  now rewrite (SFcompare_Lt_trans _ _ _ E1 E2).
Qed.

Lemma le_not_gt (x y : float) : le x y = true -> gt x y = false.
Proof.
  unfold le, gt. rewrite leb_spec, ltb_spec. unfold SFleb, SFltb.
  intros H.
  destruct (SFcompare (Prim2SF y) (Prim2SF x)) as [[]|] eqn:E; try reflexivity.
  apply SFcompare_antisym in E. rewrite E in H. discriminate.
Qed.

Lemma gt_lt (x y : float) : gt x y = lt y x.
Proof. reflexivity. Qed.
Lemma nondecr_refl (a : float) : nondecr a a.
Proof. now left. Qed.

Lemma nondecr_trans (a b c : float) :
  nondecr a b -> nondecr b c -> nondecr a c.
Proof.
  intros [->|H1] [->|H2]; unfold nondecr; eauto using lt_trans.
Qed.

Lemma nondecr_not_lt (a b : float) : nondecr a b -> lt b a = false.
Proof. intros [->|H]; [apply lt_irrefl | now apply lt_asym]. Qed.


(** *** NaN compares with nothing *)

Lemma SFcompare_refl (x : spec_float) :
  x <> S754_nan -> SFcompare x x = Some Eq.
Proof.
  destruct x as [s|s| |s m e]; simpl; try destruct s; try congruence;
    intros _; rewrite Z.compare_refl;
    change (Pos.compare_cont Eq m m) with (Pos.compare m m);
    rewrite Pos.compare_refl; reflexivity.
Qed.

Lemma is_nan_Prim2SF (x : float) :
  PrimFloat.is_nan x = true -> Prim2SF x = S754_nan.
Proof.
  unfold PrimFloat.is_nan. rewrite FloatAxioms.eqb_spec. unfold SFeqb.
  intros Hn.
  destruct (Prim2SF x) as [s|s| |s m e] eqn:E; try reflexivity;
    rewrite SFcompare_refl in Hn by discriminate; discriminate.
Qed.

Lemma eq_not_lt (x y : float) :
  eq x y = true -> lt x y = false /\ lt y x = false.
Proof.
  unfold eq, lt. rewrite FloatAxioms.eqb_spec, !ltb_spec.
  unfold SFeqb, SFltb.
  destruct (SFcompare (Prim2SF x) (Prim2SF y)) as [[]|] eqn:E;
    try discriminate.
  intros _. split; [reflexivity|].
  destruct (SFcompare (Prim2SF y) (Prim2SF x)) as [[]|] eqn:E2;
    try reflexivity.
  apply SFcompare_antisym in E2. congruence.
Qed.

Lemma lt_nan_l (x y : float) : PrimFloat.is_nan x = true -> lt x y = false.
Proof.
  intros Hn. unfold lt. rewrite ltb_spec, (is_nan_Prim2SF _ Hn).
  reflexivity.
Qed.

Lemma lt_nan_r (x y : float) : PrimFloat.is_nan y = true -> lt x y = false.
Proof.
  intros Hn. unfold lt. rewrite ltb_spec, (is_nan_Prim2SF _ Hn).
  unfold SFltb. destruct (Prim2SF x) as [s|s| |s m e]; reflexivity.
Qed.

End PyOrder.

Section FitterFacts.
Context `{Collaborators}.

(** ** Reasoning about the monad *)

Ltac run :=
  cbv beta iota zeta delta
    [mbind M_bind mret M_ret bind ret raise get_self get_world modify_self
     modify_world or_raise model_eval model_train].

Section Stable.
Context (R : St -> St -> Prop) `{!Reflexive R} `{!Transitive R}.

Lemma stable_ret {A} (a : A) : stable R (ret a).
Proof. intros s. reflexivity. Qed.

Lemma stable_raise {A} (e : exn) : stable R (raise (A:=A) e).
Proof. intros s. reflexivity. Qed.

Lemma stable_or_raise {A} (e : exn) (o : option A) :
  stable R (or_raise e o).
Proof. destruct o; [apply stable_ret | apply stable_raise]. Qed.

Lemma stable_get_self : stable R get_self.
Proof. intros s. reflexivity. Qed.

Lemma stable_get_world : stable R get_world.
Proof. intros s. reflexivity. Qed.

Lemma stable_bind {A B} (m : M A) (k : A -> M B) :
  stable R m -> (forall a, stable R (k a)) -> stable R (m ≫= k).
Proof.
  intros Hm Hk s. run. specialize (Hm s).
  destruct (m s) as [s1 [a|e]]; simpl in *; [|exact Hm].
  etransitivity; [exact Hm | apply Hk].
Qed.

Lemma stable_modify_self (g : Fitter -> Fitter) :
  (forall f w, R (mkSt f w) (mkSt (g f) w)) -> stable R (modify_self g).
Proof. intros Hg [f w]. apply Hg. Qed.

Lemma stable_modify_world (g : World -> World) :
  (forall f w, R (mkSt f w) (mkSt f (g w))) -> stable R (modify_world g).
Proof. intros Hg [f w]. apply Hg. Qed.

Lemma stable_for_each {A} (body : A -> M unit) (xs : list A) :
  (forall x, stable R (body x)) -> stable R (for_each body xs).
Proof.
  intros Hb. induction xs as [|x xs IH]; simpl.
  - apply stable_ret.
  - apply stable_bind; auto.
Qed.
End Stable.

(** *** What the passes leave alone *)

#[local] Instance quiet_refl : Reflexive quiet.
Proof. intros s. repeat split. Qed.

#[local] Instance quiet_trans : Transitive quiet.
Proof.
  intros a b c (H1 & H2 & H3) (H4 & H5 & H6).
  repeat split; congruence.
Qed.

Ltac stable_step :=
  first
    [ apply stable_bind; [apply _ | | intros ?]
    | apply stable_ret; apply _
    | apply stable_raise; apply _
    | apply stable_or_raise; apply _
    | apply stable_get_self; apply _
    | apply stable_get_world; apply _
    | apply stable_modify_self; intros ? ?; repeat split
    | apply stable_modify_world; intros ? ?; repeat split
    | match goal with
      | |- stable _ (if ?b then _ else _) => destruct b
      | |- stable _ (let '(_, _) := ?p in _) => destruct p
      | |- stable _ (match ?p with _ => _ end) => destruct p
      end ].

Lemma log_quiet (m : LogMsg) : stable quiet (log m).
Proof. unfold log. repeat stable_step. Qed.

Lemma train_step_quiet (b : batch) (sl : Meter) : stable quiet (train_step b sl).
Proof. unfold train_step, model_train. repeat stable_step. Qed.

Lemma train_loop_quiet (bs : list batch) (sl : Meter) :
  stable quiet (train_loop bs sl).
Proof.
  revert sl. induction bs as [|b bs IH]; intros sl; simpl.
  - apply stable_ret; apply _.
  - apply stable_bind; [apply _ | apply train_step_quiet | auto].
Qed.

Lemma train_one_epoch_quiet : stable quiet train_one_epoch.
Proof.
  unfold train_one_epoch, model_train.
  repeat stable_step. apply train_loop_quiet.
Qed.

Lemma fit_train_quiet (ep : Z) : stable quiet (fit_train ep).
Proof.
  unfold fit_train, fit_warmup, fit_log_lr.
  repeat first [apply train_one_epoch_quiet | apply log_quiet | stable_step].
Qed.

(** *** The passes that cannot raise *)

Lemma for_each_ok {A} (body : A -> M unit) (xs : list A) (s : St) :
  (forall x s, exists s', body x s = (s', Ok tt)) ->
  exists s', for_each body xs s = (s', Ok tt).
Proof.
  intros Hb. revert s. induction xs as [|x xs IH]; intros s; simpl.
  - now exists s.
  - run. destruct (Hb x s) as [s1 ->]. apply IH.
Qed.

Lemma validation_step_ok (b : batch) (s : St) :
  exists s', validation_step b s = (s', Ok tt).
Proof. unfold validation_step. run. eexists. reflexivity. Qed.

Lemma validation_step_quiet (b : batch) : stable quiet (validation_step b).
Proof. unfold validation_step. repeat stable_step. Qed.

Lemma validation_quiet : stable quiet validation.
Proof.
  unfold validation, model_eval.
  repeat first
    [ apply stable_for_each; [apply _ | apply _ | apply validation_step_quiet]
    | stable_step ].
Qed.

Lemma validation_ok (s : St) :
  exists s', validation s = (s', Ok (evaluate (all_predictions (self s')))).
Proof.
  unfold validation. run.
  match goal with
  | |- context [for_each validation_step ?bs ?s0] =>
      destruct (for_each_ok validation_step bs s0 validation_step_ok)
        as [s1 ->]
  end.
  now exists s1.
Qed.

Lemma log_ok (m : LogMsg) (s : St) : exists s', log m s = (s', Ok tt).
Proof. unfold log. run. destruct (VERBOSE _); eexists; reflexivity. Qed.

Lemma save_run (path : string) (s : St) :
  save path s =
  (mkSt (set_model (model_set_mode EvalMode (model (self s))) (self s))
     (write_file path (FCheckpoint (checkpoint_of (self s))) (world s)),
   Ok tt).
Proof. reflexivity. Qed.

Lemma save_model_run (path : string) (s : St) :
  save_model path s =
  (mkSt (set_model (model_set_mode EvalMode (model (self s))) (self s))
     (write_file path (FSnapshot (snapshot_of (self s))) (world s)),
   Ok tt).
Proof. reflexivity. Qed.

(** Lines 73-79 never raise: they write the last checkpoint, with the
    bookkeeping as it stands, and return what [evaluate] gives. *)
Lemma fit_validate_spec (s : St) :
  exists sv r,
    fit_validate s = (sv, Ok r) /\
    r = evaluate (all_predictions (self sv)) /\
    bookkeeping (self sv) = bookkeeping (self s) /\
    writes (world sv) =
      writes (world s) ++
      [(last_checkpoint (self s), FCheckpoint (checkpoint_of (self s)))] /\
    disk (world sv) =
      <[last_checkpoint (self s) := FCheckpoint (checkpoint_of (self s))]>
        (disk (world s)).
Proof.
  unfold fit_validate. run. rewrite save_run.
  set (s1 := mkSt _ _).
  destruct (validation_ok s1) as [s2 E2].
  pose proof (validation_quiet s1) as Q2. rewrite E2 in *. simpl in Q2.
  set (r := evaluate _) in *.
  destruct (log_ok (MsgVal (epoch (self s2)) r.1 r.2) s2) as [s3 E3].
  pose proof (log_quiet (MsgVal (epoch (self s2)) r.1 r.2) s2) as Q3.
  rewrite E3 in *. simpl in Q3.
  exists s3, r. split; [reflexivity|].
  destruct Q2 as (B2 & W2 & D2), Q3 as (B3 & W3 & D3).
  assert (all_predictions (self s3) = all_predictions (self s2)) as HP.
  { revert E3. unfold log. run. destruct (VERBOSE _); intros [= <-];
      reflexivity. }
  repeat split.
  - subst r. now rewrite HP.
  - now rewrite B3, B2.
  - now rewrite W3, W2.
  - now rewrite D3, D2.
Qed.

(** *** Lines 80-96, in closed form *)

Lemma fit_decide_spec (r : float * float) (s : St) :
  let f := self s in
  let imp := PyFloat.gt r.2 (best_final_score f) in
  exists se c,
    fit_decide r s = (se, c) /\
    fixed (self se) = fixed f /\
    best_final_score (self se) = (if imp then r.2 else best_final_score f) /\
    best_score_threshold (self se) =
      (if imp then r.1 else best_score_threshold f) /\
    early_stop_epochs (self se) =
      (if PyFloat.lt r.2 (best_final_score (self se))
       then early_stop_epochs f + 1 else 0) /\
    writes (world se) =
      writes (world s) ++ (if imp then best_artifacts r f else []) /\
    c = (if early_stop_patience f <? early_stop_epochs (self se)
         then Ok Break
         else if SOLVER_CLEAR_OUTPUT (config f) =? 0
              then Raise ZeroDivisionError else Ok Continue) /\
    epoch (self se) =
      (match c with Ok Continue => epoch f + 1 | _ => epoch f end).
Proof.
  destruct s as [f w]. simpl.
  unfold fit_decide, fit_select, early_stop, fit_advance, save, save_model,
    save_predictions, log, py_mod.
  run. simpl.
  destruct (PyFloat.gt r.2 (best_final_score f)) eqn:Eimp; simpl.
  - destruct (PyFloat.lt r.2 r.2) eqn:Elt; simpl;
      [rewrite PyOrder.lt_irrefl in Elt; discriminate|].
    destruct (early_stop_patience f <? 0) eqn:Ep; simpl.
    + destruct (VERBOSE (config f)); simpl;
        eexists _, _; (split; [reflexivity|]);
        simpl; rewrite ?Elt, ?Ep; repeat split;
          rewrite <- ?app_assoc; reflexivity.
    + destruct (SOLVER_CLEAR_OUTPUT (config f) =? 0) eqn:Ec; simpl.
      * eexists _, _; (split; [reflexivity|]);
          simpl; rewrite ?Elt, ?Ep; repeat split;
          rewrite <- ?app_assoc; reflexivity.
      * destruct (epoch f `mod` SOLVER_CLEAR_OUTPUT (config f) =? 0);
          simpl; eexists _, _; (split; [reflexivity|]);
          simpl; rewrite ?Elt, ?Ep; repeat split;
          rewrite <- ?app_assoc; reflexivity.
  - destruct (PyFloat.lt r.2 (best_final_score f)) eqn:Elt; simpl.
    + destruct (early_stop_patience f <? early_stop_epochs f + 1) eqn:Ep;
        simpl.
      * destruct (VERBOSE (config f)); simpl;
          eexists _, _; (split; [reflexivity|]);
          simpl; rewrite ?Elt, ?Ep, ?app_nil_r; repeat split.
      * destruct (SOLVER_CLEAR_OUTPUT (config f) =? 0) eqn:Ec; simpl.
        -- eexists _, _; (split; [reflexivity|]);
             simpl; rewrite ?Elt, ?Ep, ?app_nil_r; repeat split.
        -- destruct (epoch f `mod` SOLVER_CLEAR_OUTPUT (config f) =? 0);
             simpl; eexists _, _; (split; [reflexivity|]);
             simpl; rewrite ?Elt, ?Ep, ?app_nil_r; repeat split.
    + destruct (early_stop_patience f <? 0) eqn:Ep; simpl.
      * destruct (VERBOSE (config f)); simpl;
          eexists _, _; (split; [reflexivity|]);
          simpl; rewrite ?Elt, ?Ep, ?app_nil_r; repeat split.
      * destruct (SOLVER_CLEAR_OUTPUT (config f) =? 0) eqn:Ec; simpl.
        -- eexists _, _; (split; [reflexivity|]);
             simpl; rewrite ?Elt, ?Ep, ?app_nil_r; repeat split.
        -- destruct (epoch f `mod` SOLVER_CLEAR_OUTPUT (config f) =? 0);
             simpl; eexists _, _; (split; [reflexivity|]);
             simpl; rewrite ?Elt, ?Ep, ?app_nil_r; repeat split.
Qed.

(** *** One turn of the loop, phase by phase *)

Lemma fit_iteration_run (ep : Z) (s : St) :
  fit_iteration ep s =
  match fit_train ep s with
  | (st, Raise e) => (st, Raise e)
  | (st, Ok _) =>
      match fit_validate st with
      | (sv, Raise e) => (sv, Raise e)
      | (sv, Ok r) => fit_decide r sv
      end
  end.
Proof.
  unfold fit_iteration. run.
  destruct (fit_train ep s) as [st [[]|e]]; reflexivity.
Qed.

Lemma bookkeeping_fixed (f f' : Fitter) :
  bookkeeping f' = bookkeeping f -> fixed f' = fixed f.
Proof.
  unfold bookkeeping, fixed.
  intros [= E1 E2 E3 E4 E5 E6 E7 E8 E9 E10 E11]. congruence.
Qed.

Lemma decided_bookkeeping (f f' : Fitter) r fe c :
  bookkeeping f' = bookkeeping f -> decided f' r fe c -> decided f r fe c.
Proof.
  unfold bookkeeping, decided, fixed.
  intros [= E1 E2 E3 E4 E5 E6 E7 E8 E9 E10 E11] D.
  rewrite ?E1, ?E2, ?E3, ?E4, ?E5, ?E6, ?E7, ?E8, ?E9, ?E10, ?E11 in D.
  exact D.
Qed.

(** The paths of the artifacts only depend on [base_dir]. *)
Lemma best_artifacts_paths (f f' : Fitter) r :
  base_dir f' = base_dir f ->
  (best_artifacts r f').*1 = (best_artifacts r f).*1.
Proof.
  intros E. unfold best_artifacts, best_checkpoint, best_model,
    predictions_csv. simpl. now rewrite E.
Qed.

Lemma fit_iteration_outcome (ep : Z) (s : St) : turn_outcome ep s.
Proof.
  pose proof (fit_train_quiet ep s) as Q.
  destruct (fit_train ep s) as [st [[]|e]] eqn:Et; simpl in Q.
  - destruct (fit_validate_spec st) as (sv & r & Ev & Hr & Bv & Wv & _).
    destruct (fit_decide_spec r sv) as (se & c & Ed & F1 & F2 & F3 & F4 & F5
                                        & F6 & F7).
    destruct Q as (B & W & D).
    assert (bookkeeping (self sv) = bookkeeping (self s)) as Bs
      by now rewrite Bv.
    eapply turn_decided; eauto.
    + repeat split; assumption.
    + rewrite Wv, W. do 3 f_equal. unfold last_checkpoint.
      apply bookkeeping_fixed in B. unfold fixed in B. congruence.
    + rewrite fit_iteration_run, Et, Ev. exact Ed.
    + apply (decided_bookkeeping _ _ _ _ _ Bs). repeat split; assumption.
    + rewrite F5.
      assert (best_final_score (self sv) = best_final_score (self s)) as ->
        by (unfold bookkeeping in Bs; congruence).
      reflexivity.
  - eapply turn_raised; eauto.
    rewrite fit_iteration_run, Et. reflexivity.
Qed.

(** *** The turns of the loop *)

Lemma py_range_lookup (a b : Z) (i : nat) :
  py_range a b !! i =
  if bool_decide (a + Z.of_nat i < b) then Some (a + Z.of_nat i) else None.
Proof.
  unfold py_range. rewrite list_lookup_fmap.
  case_bool_decide as Hlt.
  - rewrite lookup_seq_lt by lia. reflexivity.
  - rewrite lookup_seq_ge by lia. reflexivity.
Qed.

Lemma fit_history_lookup_0 (epochs : list Z) (s : St) :
  fit_history epochs s !! 0%nat = (fun e => (e, s)) <$> epochs !! 0%nat.
Proof. destruct epochs; reflexivity. Qed.

Lemma fit_history_epoch (epochs : list Z) (s0 : St) (i : nat) ep s :
  fit_history epochs s0 !! i = Some (ep, s) -> epochs !! i = Some ep.
Proof.
  revert s0 i. induction epochs as [|e es IH]; intros s0 [|i]; simpl;
    try discriminate.
  - now intros [= -> _].
  - destruct (fit_iteration e s0) as [s' [[]|]]; try discriminate.
    apply IH.
Qed.

Lemma fit_history_step (epochs : list Z) (s0 : St) (i : nat) ep s :
  fit_history epochs s0 !! i = Some (ep, s) ->
  fit_history epochs s0 !! S i =
  match fit_iteration ep s with
  | (s', Ok Continue) => (fun e => (e, s')) <$> epochs !! S i
  | _ => None
  end.
Proof.
  revert s0 i. induction epochs as [|e es IH]; intros s0 [|i]; simpl;
    try discriminate.
  - intros [= -> ->].
    destruct (fit_iteration ep s) as [s' [[]|]]; try reflexivity.
    apply fit_history_lookup_0.
  - destruct (fit_iteration e s0) as [s' [[]|]]; try discriminate.
    apply IH.
Qed.

(** Where [fit_loop] ends: after the last turn taken. *)
Lemma fit_loop_last (epochs : list Z) (s0 : St) :
  fit_loop epochs s0 =
  match last (fit_history epochs s0) with
  | None => (s0, Ok tt)
  | Some (ep, s) =>
      match fit_iteration ep s with
      | (se, Ok _) => (se, Ok tt)
      | (se, Raise e) => (se, Raise e)
      end
  end.
Proof.
  revert s0. induction epochs as [|e es IH]; intros s0; simpl;
    [reflexivity|].
  run. destruct (fit_iteration e s0) as [s' [[]|x]] eqn:E; simpl;
    rewrite ?E; try reflexivity.
  fold (fit_loop es). rewrite IH.
  destruct (fit_history es s') as [|p l] eqn:Eh; simpl.
  - now rewrite E.
  - change (last ((e, s0) :: p :: l)) with (last (p :: l)).
    destruct (last (p :: l)) as [[ep s]|] eqn:El; [reflexivity|].
    apply last_None in El. discriminate.
Qed.

Lemma fit_run (s0 : St) :
  fit s0 =
  match last (fit_turns s0) with
  | None => (s0, Ok tt)
  | Some (ep, s) =>
      match fit_iteration ep s with
      | (se, Ok _) => (se, Ok tt)
      | (se, Raise e) => (se, Raise e)
      end
  end.
Proof. unfold fit, fit_turns. run. apply fit_loop_last. Qed.

Lemma fit_turns_0 (s0 : St) :
  fit_turns s0 !! 0%nat =
  if bool_decide (epoch (self s0) < SOLVER_MAX_EPOCHS (config (self s0)))
  then Some (epoch (self s0), s0) else None.
Proof.
  unfold fit_turns. rewrite fit_history_lookup_0, py_range_lookup.
  rewrite Z.add_0_r. case_bool_decide; reflexivity.
Qed.

Lemma fit_turns_ep (s0 : St) (i : nat) ep s :
  fit_turns s0 !! i = Some (ep, s) ->
  ep = epoch (self s0) + Z.of_nat i /\
  ep < SOLVER_MAX_EPOCHS (config (self s0)).
Proof.
  intros Ht. apply fit_history_epoch in Ht.
  rewrite py_range_lookup in Ht.
  case_bool_decide; [|discriminate]. injection Ht as <-. auto.
Qed.

Lemma fit_turns_S (s0 : St) (i : nat) ep s :
  fit_turns s0 !! i = Some (ep, s) ->
  fit_turns s0 !! S i =
  match fit_iteration ep s with
  | (se, Ok Continue) =>
      if bool_decide (ep + 1 < SOLVER_MAX_EPOCHS (config (self s0)))
      then Some (ep + 1, se) else None
  | _ => None
  end.
Proof.
  intros Ht. pose proof (fit_turns_ep _ _ _ _ Ht) as [-> _].
  unfold fit_turns in *. rewrite (fit_history_step _ _ _ _ _ Ht).
  destruct (fit_iteration _ s) as [se [[]|]]; try reflexivity.
  rewrite py_range_lookup.
  replace (epoch (self s0) + Z.of_nat (S i))
    with (epoch (self s0) + Z.of_nat i + 1) by lia.
  case_bool_decide; reflexivity.
Qed.

(** Every turn but the first starts where a turn that went on to
    [self.epoch += 1] ended. *)
Lemma fit_turns_pred (s0 : St) (i : nat) ep s :
  fit_turns s0 !! S i = Some (ep, s) ->
  exists ep' s', fit_turns s0 !! i = Some (ep', s') /\
                 fit_iteration ep' s' = (s, Ok Continue) /\ ep = ep' + 1.
Proof.
  intros Ht.
  destruct (fit_turns s0 !! i) as [[ep' s']|] eqn:Ei.
  - rewrite (fit_turns_S _ _ _ _ Ei) in Ht.
    destruct (fit_iteration ep' s') as [se [[]|]] eqn:Eit; try discriminate.
    case_bool_decide; [|discriminate]. injection Ht as <- <-.
    now exists ep', s'.
  - apply lookup_ge_None in Ei. apply lookup_lt_Some in Ht. lia.
Qed.

(** Induction over the turns of a run. *)
Lemma fit_turns_ind (P : nat -> St -> Prop) (s0 : St) :
  P 0%nat s0 ->
  (forall i ep s se, fit_turns s0 !! i = Some (ep, s) -> P i s ->
     fit_iteration ep s = (se, Ok Continue) -> P (S i) se) ->
  forall i ep s, fit_turns s0 !! i = Some (ep, s) -> P i s.
Proof.
  intros H0 HS. induction i as [|i IH]; intros ep s Ht.
  - rewrite fit_turns_0 in Ht. case_bool_decide; [|discriminate].
    now injection Ht as _ <-.
  - destruct (fit_turns_pred _ _ _ _ Ht) as (ep' & s' & Ht' & Hit & _).
    eapply HS; eauto.
Qed.

(** *** The three steps of lines 80-96 *)

Lemma early_stop_run (score : float) (s : St) :
  early_stop score s =
  (mkSt (set_early_stop_epochs
           (if PyFloat.lt score (best_final_score (self s))
            then early_stop_epochs (self s) + 1 else 0) (self s))
     (world s), Ok tt).
Proof.
  unfold early_stop. run.
  destruct (PyFloat.lt score (best_final_score (self s))); reflexivity.
Qed.

Lemma fit_select_run (r : float * float) (s : St) :
  exists ss,
    fit_select r s = (ss, Ok tt) /\
    bookkeeping (self ss) =
      bookkeeping (if PyFloat.gt r.2 (best_final_score (self s))
                   then best_updated r (self s) else self s) /\
    writes (world ss) =
      writes (world s) ++
      (if PyFloat.gt r.2 (best_final_score (self s))
       then best_artifacts r (self s) else []).
Proof.
  destruct s as [f w]. unfold fit_select, save, save_model, save_predictions.
  run. simpl.
  destruct (PyFloat.gt r.2 (best_final_score f)); simpl;
    eexists; (split; [reflexivity|]); simpl; split; try reflexivity.
  - unfold best_artifacts. rewrite <- !app_assoc. reflexivity.
  - now rewrite app_nil_r.
Qed.

Lemma fit_advance_run (s : St) :
  exists se c,
    fit_advance s = (se, c) /\
    c = (if early_stop_patience (self s) <? early_stop_epochs (self s)
         then Ok Break
         else if SOLVER_CLEAR_OUTPUT (config (self s)) =? 0
              then Raise ZeroDivisionError else Ok Continue) /\
    bookkeeping (self se) =
      bookkeeping (match c with
                   | Ok Continue => set_epoch (epoch (self s) + 1) (self s)
                   | _ => self s
                   end) /\
    writes (world se) = writes (world s).
Proof.
  destruct s as [f w]. unfold fit_advance, log, py_mod. run. simpl.
  destruct (early_stop_patience f <? early_stop_epochs f); simpl.
  - destruct (VERBOSE (config f)); simpl; eexists _, _; repeat split.
  - destruct (SOLVER_CLEAR_OUTPUT (config f) =? 0); simpl.
    + eexists _, _; repeat split.
    + destruct (epoch f `mod` SOLVER_CLEAR_OUTPUT (config f) =? 0); simpl;
        eexists _, _; repeat split.
Qed.

Lemma fit_decide_run (r : float * float) (s : St) :
  fit_decide r s =
  match fit_select r s with
  | (ss, Ok _) =>
      match early_stop r.2 ss with
      | (sc, Ok _) => fit_advance sc
      | (sc, Raise e) => (sc, Raise e)
      end
  | (ss, Raise e) => (ss, Raise e)
  end.
Proof.
  unfold fit_decide. run.
  destruct (fit_select r s) as [ss [[]|e]]; [|reflexivity].
  destruct (early_stop r.2 ss) as [sc [[]|e]]; reflexivity.
Qed.

(** *** What holds at the top of every turn *)

Lemma fit_iteration_continue (ep : Z) (s se : St) :
  fit_iteration ep s = (se, Ok Continue) ->
  exists r, decided (self s) r (self se) (Ok Continue).
Proof.
  intros E. destruct (fit_iteration_outcome ep s); [congruence|].
  exists r. congruence.
Qed.

Lemma fit_turns_fixed (s0 : St) (i : nat) ep s :
  fit_turns s0 !! i = Some (ep, s) ->
  fixed (self s) = fixed (self s0) /\ epoch (self s) = ep.
Proof.
  intros Ht. destruct (fit_turns_ep _ _ _ _ Ht) as [Hep _].
  rewrite Hep. clear Hep. revert i ep s Ht.
  apply (fit_turns_ind
           (fun i s => fixed (self s) = fixed (self s0) /\
                       epoch (self s) = epoch (self s0) + Z.of_nat i)).
  - split; [reflexivity | lia].
  - intros i ep s se _ [F E] Hit.
    destruct (fit_iteration_continue _ _ _ Hit) as (r & F' & _ & _ & _ & _ & E').
    split; [congruence | lia].
Qed.

Lemma lookup_last_here {A} (l : list A) (i : nat) (x : A) :
  l !! i = Some x -> l !! S i = None -> last l = Some x.
Proof.
  intros H1 H2. rewrite last_lookup.
  apply lookup_lt_Some in H1 as L1. apply lookup_ge_None in H2.
  replace (Nat.pred (length l)) with i by lia. exact H1.
Qed.

(** ** Early stopping *)

Lemma bookkeeping_if (b : bool) (f g h : Fitter) :
  bookkeeping h = bookkeeping (if b then f else g) ->
  early_stop_epochs h = early_stop_epochs (if b then f else g) /\
  early_stop_patience h = early_stop_patience (if b then f else g) /\
  epoch h = epoch (if b then f else g) /\
  config h = config (if b then f else g) /\
  best_final_score h = best_final_score (if b then f else g) /\
  best_score_threshold h = best_score_threshold (if b then f else g).
Proof.
  unfold bookkeeping. intros [= E1 E2 E3 E4 E5 E6 E7 E8 E9 E10 E11].
  repeat split; assumption.
Qed.

Lemma bookkeeping_fields (f h : Fitter) :
  bookkeeping h = bookkeeping f ->
  early_stop_epochs h = early_stop_epochs f /\
  early_stop_patience h = early_stop_patience f /\
  epoch h = epoch f /\
  config h = config f /\
  best_final_score h = best_final_score f /\
  best_score_threshold h = best_score_threshold f.
Proof. apply (bookkeeping_if true f f h). Qed.

(** The turn [i] of a run, once its training phase and its validation have
    returned: the state [ss] after lines 80-86, the state [sc] after
    [early_stop], the state [se] and the outcome [c] after lines 89-96. *)
Lemma turn_phases (s0 : St) (i : nat) (ep : Z) (s st sv : St)
    (r : float * float) :
  fit_turns s0 !! i = Some (ep, s) ->
  fit_train ep s = (st, Ok tt) ->
  fit_validate st = (sv, Ok r) ->
  exists ss sc se c,
    fit_select r sv = (ss, Ok tt) /\
    early_stop r.2 ss = (sc, Ok tt) /\
    fit_advance sc = (se, c) /\
    fit_iteration ep s = (se, c) /\
    bookkeeping (self sv) = bookkeeping (self s) /\
    bookkeeping (self ss) =
      bookkeeping (if PyFloat.gt r.2 (best_final_score (self s))
                   then best_updated r (self sv) else self sv) /\
    early_stop_epochs (self sc) =
      (if PyFloat.lt r.2 (best_final_score (self ss))
       then early_stop_epochs (self s) + 1 else 0) /\
    best_final_score (self se) = best_final_score (self ss) /\
    best_score_threshold (self se) = best_score_threshold (self ss) /\
    early_stop_epochs (self se) = early_stop_epochs (self sc) /\
    c = (if early_stop_patience (self s0) <? early_stop_epochs (self sc)
         then Ok Break
         else if SOLVER_CLEAR_OUTPUT (config (self s0)) =? 0
              then Raise ZeroDivisionError else Ok Continue) /\
    epoch (self se) = (match c with Ok Continue => ep + 1 | _ => ep end).
Proof.
  intros Ht Htr Hv.
  destruct (fit_turns_fixed _ _ _ _ Ht) as [Fx Hep].
  pose proof (fit_train_quiet ep s) as (Bt & _ & _).
  rewrite Htr in Bt. simpl in Bt.
  destruct (fit_validate_spec st) as (sv' & r' & Ev & _ & Bv & _ & _).
  rewrite Hv in Ev. injection Ev as <- <-.
  assert (bookkeeping (self sv) = bookkeeping (self s)) as Bs
    by now rewrite Bv.
  destruct (bookkeeping_fields _ _ Bs) as (K1 & K2 & K3 & K4 & K5 & K6).
  destruct (fit_select_run r sv) as (ss & Es & Bss & _).
  rewrite K5 in Bss.
  destruct (bookkeeping_if _ _ _ _ Bss) as (S1 & S2 & S3 & S4 & S5 & S6).
  pose proof (early_stop_run r.2 ss) as Ec.
  set (sc := mkSt _ _) in Ec.
  destruct (fit_advance_run sc) as (se & c & Ea & Hc & Ba & _).
  exists ss, sc, se, c.
  assert (early_stop_patience (self s) = early_stop_patience (self s0)
          /\ config (self s) = config (self s0)) as [P0 C0]
    by (unfold fixed in Fx; split; congruence).
  assert (early_stop_epochs (self ss) = early_stop_epochs (self s)) as Kss.
  { rewrite S1.
    destruct (PyFloat.gt r.2 (best_final_score (self s))); simpl; congruence. }
  assert (early_stop_patience (self ss) = early_stop_patience (self s0)) as Pss.
  { rewrite S2.
    destruct (PyFloat.gt r.2 (best_final_score (self s))); simpl; congruence. }
  assert (config (self ss) = config (self s0)) as Css.
  { rewrite S4.
    destruct (PyFloat.gt r.2 (best_final_score (self s))); simpl; congruence. }
  assert (epoch (self ss) = ep) as Ess.
  { rewrite S3.
    destruct (PyFloat.gt r.2 (best_final_score (self s))); simpl; congruence. }
  assert (bookkeeping (self se) =
          bookkeeping (if match c with Ok Continue => true | _ => false end
                       then set_epoch (epoch (self sc) + 1) (self sc)
                       else self sc)) as Ba'.
  { rewrite Ba. destruct c as [[]|]; reflexivity. }
  destruct (bookkeeping_if _ _ _ _ Ba') as (A1 & A2 & A3 & A4 & A5 & A6).
  repeat split; try assumption.
  - rewrite fit_iteration_run, Htr, Hv, fit_decide_run, Es, Ec. exact Ea.
  - subst sc. simpl. now rewrite Kss.
  - rewrite A5. destruct c as [[]|]; reflexivity.
  - rewrite A6. destruct c as [[]|]; reflexivity.
  - rewrite A1. destruct c as [[]|]; reflexivity.
  - rewrite Hc. subst sc. simpl. now rewrite Pss, Css.
  - rewrite A3. subst sc. destruct c as [[]|]; simpl; congruence.
Qed.

Ltac settle B K N hb hk hp :=
  repeat (progress (simpl in B, K, N;
                    rewrite ?hb, ?hk, ?hp in B;
                    rewrite ?hb, ?hk, ?hp in K;
                    rewrite ?hb, ?hk, ?hp in N)).

(** The bookkeeping after a turn whose validation returned [r], from the
    bookkeeping before it, and where the loop goes from there. *)
Lemma turn_next (s0 : St) (i : nat) (ep : Z) (s st sv : St)
    (r : float * float) :
  fit_turns s0 !! i = Some (ep, s) ->
  fit_train ep s = (st, Ok tt) ->
  fit_validate st = (sv, Ok r) ->
  SOLVER_CLEAR_OUTPUT (config (self s0)) <> 0 ->
  let b' := if PyFloat.gt r.2 (best_final_score (self s))
            then r.2 else best_final_score (self s) in
  let k' := if PyFloat.lt r.2 b' then early_stop_epochs (self s) + 1 else 0 in
  exists se,
    best_final_score (self se) = b' /\
    early_stop_epochs (self se) = k' /\
    if early_stop_patience (self s0) <? k'
    then fit_iteration ep s = (se, Ok Break) /\
         fit_turns s0 !! S i = None /\
         fit s0 = (se, Ok tt)
    else fit_iteration ep s = (se, Ok Continue) /\
         fit_turns s0 !! S i =
           if bool_decide (ep + 1 < SOLVER_MAX_EPOCHS (config (self s0)))
           then Some (ep + 1, se) else None.
Proof.
  intros Ht Htr Hv Hclear b' k'.
  destruct (turn_phases _ _ _ _ _ _ _ Ht Htr Hv)
    as (ss & sc & se & c & _ & _ & _ & Hit & Bs & Bss & Hk & Hb & _ & Hke
        & Hc & _).
  destruct (bookkeeping_fields _ _ Bs) as (_ & _ & _ & _ & K5 & _).
  destruct (bookkeeping_if _ _ _ _ Bss) as (_ & _ & _ & _ & S5 & _).
  assert (best_final_score (self ss) = b') as Hb'.
  { rewrite S5. subst b'.
    destruct (PyFloat.gt r.2 (best_final_score (self s))); simpl; congruence. }
  assert (early_stop_epochs (self sc) = k') as Hk'
    by (rewrite Hk, Hb'; reflexivity).
  exists se. rewrite Hb, Hke, Hb', Hk'. repeat split.
  rewrite Hk' in Hc. apply Z.eqb_neq in Hclear. rewrite Hclear in Hc.
  rewrite (fit_turns_S _ _ _ _ Ht), Hit.
  destruct (early_stop_patience (self s0) <? k'); subst c.
  - repeat split. rewrite fit_run.
    erewrite lookup_last_here; eauto.
    + simpl. now rewrite Hit.
    + now rewrite (fit_turns_S _ _ _ _ Ht), Hit.
  - split; reflexivity.
Qed.

(** C1.  [early_stop(score)] adds one to the counter when [score] is
    strictly below the current [best_final_score] and resets it to zero
    otherwise.  In every turn of [fit] whose training and validation
    returned, the counter is updated in this way against the best score as
    lines 80-82 left it, and the turn ends on [break], with [self.epoch]
    not advanced and no further turn taken, exactly when the counter is
    then strictly above the patience.  With the scores 0.1, 0.3, 0.2, 0.25
    and patience 1, a fresh run that is free to take four turns takes
    exactly four and breaks in the fourth. *)
Theorem early_stop_counter_and_break :
  (forall (score : float) (s : St),
     early_stop score s =
     (mkSt (set_early_stop_epochs
              (if PyFloat.lt score (best_final_score (self s))
               then early_stop_epochs (self s) + 1 else 0) (self s))
        (world s), Ok tt)) /\
  (forall (s0 : St) (i : nat) (ep : Z) (s st sv : St) (r : float * float),
     fit_turns s0 !! i = Some (ep, s) ->
     fit_train ep s = (st, Ok tt) ->
     fit_validate st = (sv, Ok r) ->
     exists ss sc se c,
       fit_select r sv = (ss, Ok tt) /\
       early_stop r.2 ss = (sc, Ok tt) /\
       fit_advance sc = (se, c) /\
       fit_iteration ep s = (se, c) /\
       early_stop_epochs (self sc) =
         (if PyFloat.lt r.2 (best_final_score (self ss))
          then early_stop_epochs (self s) + 1 else 0) /\
       (c = Ok Break <->
        early_stop_patience (self s0) < early_stop_epochs (self sc)) /\
       (c = Ok Break ->
        epoch (self se) = epoch (self s) /\ fit_turns s0 !! S i = None) /\
       (c = Ok Continue -> epoch (self se) = epoch (self s) + 1)) /\
  (forall s0 : St,
     best_final_score (self s0) = 0%float ->
     early_stop_epochs (self s0) = 0 ->
     early_stop_patience (self s0) = 1 ->
     epoch (self s0) + 4 <= SOLVER_MAX_EPOCHS (config (self s0)) ->
     SOLVER_CLEAR_OUTPUT (config (self s0)) <> 0 ->
     (forall (i : nat) (ep : Z) (s : St),
        fit_turns s0 !! i = Some (ep, s) -> (i < 4)%nat ->
        exists st sv threshold,
          fit_train ep s = (st, Ok tt) /\
          fit_validate st =
            (sv, Ok (threshold, nth i [0.1; 0.3; 0.2; 0.25]%float 0%float))) ->
     length (fit_turns s0) = 4%nat /\
     exists ep s se,
       fit_turns s0 !! 3%nat = Some (ep, s) /\
       fit_iteration ep s = (se, Ok Break) /\
       fit s0 = (se, Ok tt)).
Proof.
  split; [exact early_stop_run|]. split.
  - intros s0 i ep s st sv r Ht Htr Hv.
    destruct (turn_phases _ _ _ _ _ _ _ Ht Htr Hv)
      as (ss & sc & se & c & Es & Ec & Ea & Hit & _ & _ & Hk & _ & _ & _
          & Hc & He).
    destruct (fit_turns_fixed _ _ _ _ Ht) as [_ Hep].
    exists ss, sc, se, c.
    do 5 (split; [assumption|]). split; [split|split].
    + intros Hb. rewrite Hb in Hc.
      destruct (early_stop_patience (self s0) <? early_stop_epochs (self sc))
        eqn:E; [now apply Z.ltb_lt|].
      destruct (SOLVER_CLEAR_OUTPUT (config (self s0)) =? 0); discriminate.
    + intros L. apply Z.ltb_lt in L. now rewrite L in Hc.
    + intros Hb. rewrite Hb in He, Hit. split; [congruence|].
      now rewrite (fit_turns_S _ _ _ _ Ht), Hit.
    + intros Hb. rewrite Hb in He. congruence.
  - intros s0 Hb0 Hk0 Hp Hmax Hclear Hrun.
    assert (fit_turns s0 !! 0%nat = Some (epoch (self s0), s0)) as T0.
    { rewrite fit_turns_0. case_bool_decide; [reflexivity | lia]. }
    destruct (Hrun _ _ _ T0 ltac:(lia)) as (st0 & sv0 & t0 & Htr0 & Hv0).
    destruct (turn_next _ _ _ _ _ _ _ T0 Htr0 Hv0 Hclear)
      as (s1 & B1 & K1 & N1).
    settle B1 K1 N1 Hb0 Hk0 Hp.
    destruct N1 as [_ T1].
    rewrite bool_decide_eq_true_2 in T1 by lia.
    destruct (Hrun _ _ _ T1 ltac:(lia)) as (st1 & sv1 & t1 & Htr1 & Hv1).
    destruct (turn_next _ _ _ _ _ _ _ T1 Htr1 Hv1 Hclear)
      as (s2 & B2 & K2 & N2).
    settle B2 K2 N2 B1 K1 Hp.
    destruct N2 as [_ T2].
    rewrite bool_decide_eq_true_2 in T2 by lia.
    destruct (Hrun _ _ _ T2 ltac:(lia)) as (st2 & sv2 & t2 & Htr2 & Hv2).
    destruct (turn_next _ _ _ _ _ _ _ T2 Htr2 Hv2 Hclear)
      as (s3 & B3 & K3 & N3).
    settle B3 K3 N3 B2 K2 Hp.
    destruct N3 as [_ T3].
    rewrite bool_decide_eq_true_2 in T3 by lia.
    destruct (Hrun _ _ _ T3 ltac:(lia)) as (st3 & sv3 & t3 & Htr3 & Hv3).
    destruct (turn_next _ _ _ _ _ _ _ T3 Htr3 Hv3 Hclear)
      as (s4 & B4 & K4 & N4).
    settle B4 K4 N4 B3 K3 Hp.
    destruct N4 as (Hit & T4 & Hfit).
    split.
    + apply lookup_lt_Some in T3. apply lookup_ge_None in T4. lia.
    + eexists _, s3, s4. repeat split; eassumption.
Qed.

(** ** The files of a turn *)

Lemma last_checkpoint_not_best (f : Fitter) :
  last_checkpoint f ∉ [best_checkpoint f; best_model f; predictions_csv f].
Proof.
  unfold last_checkpoint, best_checkpoint, best_model, predictions_csv.
  rewrite !elem_of_cons, elem_of_nil.
  intros [E|[E|[E|[]]]]; apply (inj (String.app (base_dir f))) in E;
    discriminate.
Qed.

Lemma best_artifacts_fst (r : float * float) (f : Fitter) :
  (best_artifacts r f).*1 = [best_checkpoint f; best_model f; predictions_csv f].
Proof. reflexivity. Qed.

(** A turn through its phases, with the states in between given. *)
Lemma turn_outcome_at (ep : Z) (s st sv : St) (r : float * float) :
  fit_train ep s = (st, Ok tt) ->
  fit_validate st = (sv, Ok r) ->
  exists se c,
    fit_iteration ep s = (se, c) /\
    fit_decide r sv = (se, c) /\
    quiet s st /\
    r = evaluate (all_predictions (self sv)) /\
    bookkeeping (self sv) = bookkeeping (self s) /\
    writes (world sv) =
      writes (world st) ++
      [(last_checkpoint (self s), FCheckpoint (checkpoint_of (self st)))] /\
    decided (self s) r (self se) c /\
    writes (world se) =
      writes (world sv) ++
      (if PyFloat.gt r.2 (best_final_score (self s))
       then best_artifacts r (self sv) else []).
Proof.
  intros Htr Hv.
  destruct (fit_iteration_outcome ep s) as [|st' sv' se r' c]; [congruence|].
  rewrite Htr in Htrain. injection Htrain as <-.
  rewrite Hv in Hval. injection Hval as <- <-.
  exists se, c.
  repeat split; try assumption; try apply Hquiet; try apply Hfacts.
  destruct Hquiet as (_ & W & _). now rewrite W.
Qed.

(** C2.  In every turn of [fit] whose training and validation returned,
    the files written after the validation are the best checkpoint, the
    best model and the predictions, in this order, when the score is
    strictly above the best score the turn started with, and none
    otherwise; each of the three paths is written in the turn if and only
    if the score is strictly above that best; [best_final_score] and
    [best_score_threshold] become the score and the threshold of the turn in
    the first case and stay as they were in the second. *)
Theorem best_artifacts_iff_improved (s0 : St) (i : nat) (ep : Z)
    (s st sv : St) (r : float * float) :
  fit_turns s0 !! i = Some (ep, s) ->
  fit_train ep s = (st, Ok tt) ->
  fit_validate st = (sv, Ok r) ->
  let improved := PyFloat.gt r.2 (best_final_score (self s)) in
  exists se c new,
    fit_iteration ep s = (se, c) /\
    writes (world se) = writes (world s) ++ new /\
    new = (last_checkpoint (self s0), FCheckpoint (checkpoint_of (self st))) ::
          (if improved then best_artifacts r (self sv) else []) /\
    (best_artifacts r (self sv)).*1 =
      [best_checkpoint (self s0); best_model (self s0);
       predictions_csv (self s0)] /\
    (forall p,
       p ∈ [best_checkpoint (self s0); best_model (self s0);
            predictions_csv (self s0)] ->
       (p ∈ new.*1 <-> improved = true)) /\
    best_final_score (self se) =
      (if improved then r.2 else best_final_score (self s)) /\
    best_score_threshold (self se) =
      (if improved then r.1 else best_score_threshold (self s)).
Proof.
  intros Ht Htr Hv improved.
  destruct (turn_outcome_at _ _ _ _ _ Htr Hv)
    as (se & c & Hit & _ & Q & _ & Bs & Wv & D & We).
  destruct (fit_turns_fixed _ _ _ _ Ht) as [Fx _].
  assert (base_dir (self s) = base_dir (self s0)) as Eb
    by (unfold fixed in Fx; congruence).
  assert (base_dir (self sv) = base_dir (self s0)) as Ebv
    by (unfold bookkeeping in Bs; congruence).
  assert (last_checkpoint (self s) = last_checkpoint (self s0)) as El
    by (unfold last_checkpoint; now rewrite Eb).
  destruct Q as (_ & W & _). destruct D as (_ & D2 & D3 & _).
  exists se, c. eexists. split; [exact Hit|].
  split; [|split; [reflexivity|]].
  { rewrite We, Wv, W, El, <- app_assoc. reflexivity. }
  split; [|split; [|split; assumption]].
  { rewrite best_artifacts_fst.
    unfold best_checkpoint, best_model, predictions_csv. now rewrite Ebv. }
  intros p Hp. fold improved. destruct improved; simpl.
  - split; [reflexivity|]. intros _.
    unfold best_checkpoint, best_model, predictions_csv in *.
    rewrite Ebv. rewrite elem_of_cons. now right.
  - split; [|discriminate]. rewrite list_elem_of_singleton. intros ->.
    exfalso. now apply (last_checkpoint_not_best (self s0)).
Qed.

(** C5.  In every turn of [fit] whose training pass returned, the first
    file written, right after the training pass and before anything the
    validation or the early stop decide, is a full checkpoint at the last
    checkpoint path; its epoch field is the loop's epoch, which is also
    [self.epoch]; the training phase itself writes nothing; and the write is
    in the journal and at that path on disk when the validation returns,
    whatever the score, and in the journal when the turn ends, whatever
    the outcome. *)
Theorem last_checkpoint_every_turn (s0 : St) (i : nat) (ep : Z) (s st : St) :
  fit_turns s0 !! i = Some (ep, s) ->
  fit_train ep s = (st, Ok tt) ->
  exists sv r se c later,
    fit_validate st = (sv, Ok r) /\
    fit_iteration ep s = (se, c) /\
    epoch (self s) = ep /\
    writes (world st) = writes (world s) /\
    writes (world sv) =
      writes (world s) ++
      [(base_dir (self s0) +:+ "/last-checkpoint.bin",
        FCheckpoint (checkpoint_of (self st)))] /\
    disk (world sv) !! (base_dir (self s0) +:+ "/last-checkpoint.bin") =
      Some (FCheckpoint (checkpoint_of (self st))) /\
    ck_epoch (checkpoint_of (self st)) = ep /\
    writes (world se) =
      writes (world s) ++
      (base_dir (self s0) +:+ "/last-checkpoint.bin",
       FCheckpoint (checkpoint_of (self st))) :: later.
Proof.
  intros Ht Htr.
  destruct (fit_validate_spec st) as (sv & r & Hv & _ & _ & _ & Dv).
  destruct (turn_outcome_at _ _ _ _ _ Htr Hv)
    as (se & c & Hit & _ & Q & _ & Bs & Wv & _ & We).
  destruct (fit_turns_fixed _ _ _ _ Ht) as [Fx Hep].
  destruct Q as (Bt & W & _).
  assert (base_dir (self s) = base_dir (self s0)) as Eb
    by (unfold fixed in Fx; congruence).
  assert (base_dir (self st) = base_dir (self s0)) as Ebt
    by (unfold bookkeeping in Bt; congruence).
  assert (epoch (self st) = ep) as Eet
    by (unfold bookkeeping in Bt; congruence).
  unfold last_checkpoint in *. rewrite Eb in Wv. rewrite Ebt in Dv.
  exists sv, r, se, c. eexists.
  repeat split; try eassumption.
  - now rewrite Wv, W.
  - rewrite Dv. apply lookup_insert_eq.
  - rewrite We, Wv, W, <- app_assoc. reflexivity.
Qed.

(** ** The best score along a run *)

Lemma fit_iteration_best (ep : Z) (s : St) :
  let se := (fit_iteration ep s).1 in
  PyFloat.nondecr (best_final_score (self s)) (best_final_score (self se)) /\
  (best_final_score (self se) <> best_final_score (self s) \/
   best_score_threshold (self se) <> best_score_threshold (self s) ->
   exists st sv r,
     fit_train ep s = (st, Ok tt) /\
     fit_validate st = (sv, Ok r) /\
     PyFloat.gt r.2 (best_final_score (self s)) = true /\
     best_final_score (self se) = r.2 /\
     best_score_threshold (self se) = r.1).
Proof.
  destruct (fit_iteration_outcome ep s) as [st e|st sv se r c];
    rewrite Hiter; simpl.
  - destruct Hquiet as (B & _ & _).
    destruct (bookkeeping_fields _ _ B) as (_ & _ & _ & _ & -> & ->).
    split; [apply PyOrder.nondecr_refl | intros [[]|[]]; reflexivity].
  - destruct Hfacts as (_ & D2 & D3 & _). rewrite D2, D3.
    destruct (PyFloat.gt r.2 (best_final_score (self s))) eqn:Eimp.
    + split; [now right|]. intros _. exists st, sv, r. auto.
    + split; [apply PyOrder.nondecr_refl | intros [[]|[]]; reflexivity].
Qed.

Lemma fit_turns_best (s0 : St) (i k : nat) epi si epj sj :
  fit_turns s0 !! i = Some (epi, si) ->
  fit_turns s0 !! (i + k)%nat = Some (epj, sj) ->
  PyFloat.nondecr (best_final_score (self si)) (best_final_score (self sj)).
Proof.
  intros Hi. revert epj sj. induction k as [|k IH]; intros epj sj Hj.
  - rewrite Nat.add_0_r, Hi in Hj. injection Hj as <- <-.
    apply PyOrder.nondecr_refl.
  - rewrite Nat.add_succ_r in Hj.
    destruct (fit_turns_pred _ _ _ _ Hj) as (ep' & s' & Hp & Hit & _).
    eapply PyOrder.nondecr_trans; [exact (IH _ _ Hp)|].
    pose proof (fit_iteration_best ep' s') as [Hn _].
    now rewrite Hit in Hn.
Qed.

(** What every turn preserves, whatever its outcome, holds when [fit]
    ends. *)
Lemma fit_loop_inv (P : St -> Prop) (epochs : list Z) (s0 : St) :
  (forall ep s, P s -> P (fit_iteration ep s).1) ->
  P s0 -> P (fit_loop epochs s0).1.
Proof.
  intros HP. revert s0. induction epochs as [|e es IH]; intros s0 H0; simpl;
    [exact H0|].
  run. specialize (HP e s0 H0).
  destruct (fit_iteration e s0) as [s' [[]|x]]; simpl in *; auto.
Qed.

Lemma fit_inv (P : St -> Prop) (s0 : St) :
  (forall ep s, P s -> P (fit_iteration ep s).1) ->
  P s0 -> P (fit s0).1.
Proof. intros HP H0. unfold fit. run. now apply fit_loop_inv. Qed.

Lemma fit_best_after_turn (s0 : St) (i : nat) ep s :
  fit_turns s0 !! i = Some (ep, s) ->
  PyFloat.nondecr (best_final_score (self s))
    (best_final_score (self (fit s0).1)).
Proof.
  intros Hi. rewrite fit_run.
  destruct (last (fit_turns s0)) as [[epl sl]|] eqn:El.
  - rewrite last_lookup in El.
    apply lookup_lt_Some in Hi as Li.
    replace (Nat.pred (length (fit_turns s0)))
      with (i + (Nat.pred (length (fit_turns s0)) - i))%nat in El by lia.
    pose proof (fit_turns_best _ _ _ _ _ _ _ Hi El) as N1.
    pose proof (fit_iteration_best epl sl) as [N2 _].
    eapply PyOrder.nondecr_trans; [exact N1|].
    destruct (fit_iteration epl sl) as [se [[]|]]; exact N2.
  - apply last_None in El. rewrite El in Hi. discriminate.
Qed.

(** C6.  [best_final_score] never goes down: a turn of the loop leaves it
    as it was or strictly above, whatever the turn's outcome, and changes
    it, or the threshold, only when the turn's validation score is strictly
    above it, in which case the score and its threshold replace them
    together; the training phase and lines 73-79 leave both alone; and it
    is non-decreasing from turn to turn and up to the state in which [fit]
    ends. *)
Theorem best_final_score_monotone :
  (forall (ep : Z) (s : St),
     let se := (fit_iteration ep s).1 in
     PyFloat.nondecr (best_final_score (self s)) (best_final_score (self se))
     /\ PyFloat.lt (best_final_score (self se)) (best_final_score (self s))
        = false
     /\ (best_final_score (self se) <> best_final_score (self s) \/
         best_score_threshold (self se) <> best_score_threshold (self s) ->
         exists st sv r,
           fit_train ep s = (st, Ok tt) /\
           fit_validate st = (sv, Ok r) /\
           PyFloat.gt r.2 (best_final_score (self s)) = true /\
           best_final_score (self se) = r.2 /\
           best_score_threshold (self se) = r.1)) /\
  (forall (ep : Z) (s : St),
     best_final_score (self (fit_train ep s).1) = best_final_score (self s) /\
     best_score_threshold (self (fit_train ep s).1) =
       best_score_threshold (self s)) /\
  (forall s : St,
     best_final_score (self (fit_validate s).1) = best_final_score (self s) /\
     best_score_threshold (self (fit_validate s).1) =
       best_score_threshold (self s)) /\
  (forall (s0 : St) (i j : nat) epi si epj sj,
     (i <= j)%nat ->
     fit_turns s0 !! i = Some (epi, si) ->
     fit_turns s0 !! j = Some (epj, sj) ->
     PyFloat.nondecr (best_final_score (self si)) (best_final_score (self sj))
     /\ PyFloat.lt (best_final_score (self sj)) (best_final_score (self si))
        = false) /\
  (forall s0 : St,
     PyFloat.nondecr (best_final_score (self s0))
       (best_final_score (self (fit s0).1)) /\
     PyFloat.lt (best_final_score (self (fit s0).1))
       (best_final_score (self s0)) = false /\
     forall (i : nat) ep s,
       fit_turns s0 !! i = Some (ep, s) ->
       PyFloat.lt (best_final_score (self (fit s0).1))
         (best_final_score (self s)) = false).
Proof.
  repeat apply conj.
  - intros ep s se.
    destruct (fit_iteration_best ep s) as [N C].
    split; [exact N|]. split; [now apply PyOrder.nondecr_not_lt | exact C].
  - intros ep s. pose proof (fit_train_quiet ep s) as (B & _ & _).
    destruct (bookkeeping_fields _ _ B) as (_ & _ & _ & _ & -> & ->). auto.
  - intros s. destruct (fit_validate_spec s) as (sv & r & E & _ & B & _).
    rewrite E. simpl.
    destruct (bookkeeping_fields _ _ B) as (_ & _ & _ & _ & -> & ->). auto.
  - intros s0 i j epi si epj sj Hij Hi Hj.
    replace j with (i + (j - i))%nat in Hj by lia.
    pose proof (fit_turns_best _ _ _ _ _ _ _ Hi Hj) as N.
    split; [exact N | now apply PyOrder.nondecr_not_lt].
  - intros s0.
    assert (PyFloat.nondecr (best_final_score (self s0))
              (best_final_score (self (fit s0).1))) as N.
    { apply (fit_inv (fun s => PyFloat.nondecr (best_final_score (self s0))
                                  (best_final_score (self s))));
        [|apply PyOrder.nondecr_refl].
      intros ep s Hs. eapply PyOrder.nondecr_trans; [exact Hs|].
      apply fit_iteration_best. }
    split; [exact N|]. split; [now apply PyOrder.nondecr_not_lt|].
    intros i ep s Hi. apply PyOrder.nondecr_not_lt.
    eapply fit_best_after_turn; eauto.
Qed.

(** ** A fresh fitter *)

Lemma init_self mdl dev cfg tr va w :
  self (init mdl dev cfg tr va w) =
  mkFitter cfg 0 tr va (OUTPUT_DIR cfg) (OUTPUT_DIR cfg +:+ "/log.txt")
    0%float 0.5%float (model_to dev mdl) dev
    (make_optimizer cfg (model_to dev mdl))
    (make_scheduler cfg (make_optimizer cfg (model_to dev mdl)) tr)
    [] 0 (SOLVER_EARLY_STOP_PATIENCE cfg) true.
Proof.
  unfold init, log. run. simpl. destruct (VERBOSE cfg); reflexivity.
Qed.

Lemma init_writes mdl dev cfg tr va w :
  writes (world (init mdl dev cfg tr va w)) = writes w /\
  disk (world (init mdl dev cfg tr va w)) = disk w.
Proof.
  unfold init, log. run. simpl.
  destruct (VERBOSE cfg);
    destruct (_ || _); split; reflexivity.
Qed.

Lemma fit_select_same (r : float * float) (s : St) :
  PyFloat.gt r.2 (best_final_score (self s)) = false ->
  fit_select r s = (s, Ok tt).
Proof. intros E. unfold fit_select. run. now rewrite E. Qed.

Lemma unimproved_turn (dir : string) (ws : list (string * File)) ep s :
  (forall st sv r,
     fit_train ep s = (st, Ok tt) -> fit_validate st = (sv, Ok r) ->
     PyFloat.le r.2 0 = true) ->
  unimproved dir ws s -> unimproved dir ws (fit_iteration ep s).1.
Proof.
  intros Hrun (Hb & Ht & Hd & cks & Hw).
  destruct (fit_iteration_outcome ep s) as [st e|st sv se r c];
    rewrite Hiter; simpl.
  - destruct Hquiet as (B & W & _).
    destruct (bookkeeping_fields _ _ B) as (_ & _ & _ & _ & K5 & K6).
    apply bookkeeping_fixed in B. unfold fixed in B.
    repeat split; try congruence. exists cks. congruence.
  - assert (PyFloat.gt r.2 (best_final_score (self s)) = false) as Eimp.
    { rewrite Hb. apply PyOrder.le_not_gt. eapply Hrun; eassumption. }
    rewrite Eimp, app_nil_r in Hbest.
    destruct Hfacts as (Fx & D2 & D3 & _). rewrite Eimp in D2, D3.
    unfold fixed in Fx.
    repeat split; try congruence.
    exists (cks ++ [checkpoint_of (self st)]).
    rewrite Hbest, Hlast, Hw, map_app, <- app_assoc. simpl.
    unfold last_checkpoint. now rewrite Hd.
Qed.

(** The constructor returns [init], or it raises. *)
Lemma init_result_Ok mdl dev cfg tr va w w0 s0 :
  init_result mdl dev cfg tr va w = (w0, Ok s0) ->
  s0 = init mdl dev cfg tr va w /\ w0 = world s0.
Proof.
  unfold init_result. case_bool_decide; [discriminate|].
  destruct (negb _); [discriminate|].
  case_bool_decide; [discriminate|]. intros [= <- <-]. auto.
Qed.

(** C9.  A fitter that [__init__] has returned has the best score 0.0 and
    the threshold 0.5.  In a run of [fit] on it in which the validation
    score of every turn is at most 0.0, every turn starts with these
    values, its score is not strictly above the best, so lines 81-86 are
    skipped, and [fit] ends with these values, having written nothing but
    last checkpoints: none of the best checkpoint, the best model or the
    predictions file. *)
Theorem no_improvement_from_zero mdl dev cfg tr va w (w0 : World) (s0 : St) :
  init_result mdl dev cfg tr va w = (w0, Ok s0) ->
  (forall (i : nat) (ep : Z) (s st sv : St) (r : float * float),
     fit_turns s0 !! i = Some (ep, s) ->
     fit_train ep s = (st, Ok tt) ->
     fit_validate st = (sv, Ok r) ->
     PyFloat.le r.2 0 = true) ->
  let sf := (fit s0).1 in
  best_final_score (self s0) = 0%float /\
  best_score_threshold (self s0) = 0.5%float /\
  (forall (i : nat) ep s,
     fit_turns s0 !! i = Some (ep, s) ->
     best_final_score (self s) = 0%float /\
     best_score_threshold (self s) = 0.5%float /\
     forall st sv r,
       fit_train ep s = (st, Ok tt) ->
       fit_validate st = (sv, Ok r) ->
       PyFloat.gt r.2 (best_final_score (self sv)) = false /\
       fit_select r sv = (sv, Ok tt)) /\
  best_final_score (self sf) = 0%float /\
  best_score_threshold (self sf) = 0.5%float /\
  exists new,
    writes (world sf) = writes w ++ new /\
    (forall p, p ∈ new.*1 -> p = OUTPUT_DIR cfg +:+ "/last-checkpoint.bin") /\
    ((OUTPUT_DIR cfg +:+ "/best-checkpoint.bin") ∉ new.*1) /\
    ((OUTPUT_DIR cfg +:+ "/best-model.bin") ∉ new.*1) /\
    ((OUTPUT_DIR cfg +:+ "/all_predictions.csv") ∉ new.*1).
Proof.
  intros Hinit Hrun sf.
  apply init_result_Ok in Hinit as [Hs0 _].
  assert (unimproved (OUTPUT_DIR cfg) (writes w) s0) as H0.
  { rewrite Hs0. unfold unimproved. rewrite init_self. simpl.
    repeat split. exists []. rewrite app_nil_r. apply init_writes. }
  assert (forall i ep s, fit_turns s0 !! i = Some (ep, s) ->
            unimproved (OUTPUT_DIR cfg) (writes w) s) as Hturn.
  { apply (fit_turns_ind (fun _ s => unimproved (OUTPUT_DIR cfg) (writes w) s));
      [exact H0|].
    intros i ep s se Ht Hs Hit.
    pose proof (unimproved_turn _ _ ep s
                  (fun st sv r => Hrun i ep s st sv r Ht) Hs) as Hse.
    now rewrite Hit in Hse. }
  assert (unimproved (OUTPUT_DIR cfg) (writes w) sf) as Hf.
  { subst sf. rewrite fit_run.
    destruct (last (fit_turns s0)) as [[ep s]|] eqn:El; [|exact H0].
    rewrite last_lookup in El.
    pose proof (unimproved_turn _ _ ep s
                  (fun st sv r => Hrun _ ep s st sv r El)
                  (Hturn _ _ _ El)) as Hse.
    destruct (fit_iteration ep s) as [se [c|e]]; exact Hse. }
  destruct H0 as (B0 & T0 & _), Hf as (Bf & Tf & _ & cks & Wf).
  repeat apply conj; try assumption.
  - intros i ep s Ht. destruct (Hturn _ _ _ Ht) as (Bs & Ts & _).
    split; [assumption|]. split; [assumption|].
    intros st sv r Htr Hv.
    assert (PyFloat.gt r.2 (best_final_score (self sv)) = false) as Eimp.
    { destruct (fit_validate_spec st) as (sv' & r' & E & Hr & Bv & _).
      rewrite Hv in E. injection E as <- <-.
      pose proof (fit_train_quiet ep s) as (Bt & _ & _).
      rewrite Htr in Bt. simpl in Bt.
      destruct (bookkeeping_fields _ _ Bv) as (_ & _ & _ & _ & -> & _).
      destruct (bookkeeping_fields _ _ Bt) as (_ & _ & _ & _ & -> & _).
      rewrite Bs. apply PyOrder.le_not_gt. exact (Hrun _ _ _ _ _ _ Ht Htr Hv). }
    split; [exact Eimp | now apply fit_select_same].
  - eexists. split; [exact Wf|].
    assert (forall p,
              p ∈ (map (fun c : Checkpoint =>
                          (OUTPUT_DIR cfg +:+ "/last-checkpoint.bin",
                           FCheckpoint c)) cks).*1 ->
              p = OUTPUT_DIR cfg +:+ "/last-checkpoint.bin") as Hall.
    { intros p. rewrite list_elem_of_fmap. intros ([q f] & -> & Hin).
      apply list_elem_of_In, in_map_iff in Hin as (c & [= <- _] & _).
      reflexivity. }
    split; [exact Hall|].
    repeat split; intros Hin; apply Hall in Hin;
      apply (inj (String.app (OUTPUT_DIR cfg))) in Hin; discriminate.
Qed.

(** ** Checkpoints *)

Lemma load_run (path : string) (s : St) (c : Checkpoint) :
  disk (world s) !! path = Some (FCheckpoint c) ->
  load path s =
  (mkSt
     (set_epoch (ck_epoch c + 1)
        (set_best_final_score (ck_best_final_score c)
           (set_best_score_threshold (ck_best_score_threshold c)
              (set_scheduler (ck_scheduler_state_dict c)
                 (set_optimizer (ck_optimizer_state_dict c)
                    (set_model
                       (model_set_params (ck_model_state_dict c)
                          (model (self s))) (self s)))))))
     (world s), Ok tt).
Proof. intros E. unfold load, torch_load. run. rewrite E. reflexivity. Qed.

(** C4.  [save(path)] returns, and a [load(path)] that finds at [path] what
    that [save] wrote -- right after it, or later from any fitter, a new
    process included -- returns with [best_score_threshold] and
    [best_final_score] as they were at the [save], with the model
    parameters, the optimizer and the scheduler of the [save], and with the
    epoch counter one above the epoch of the [save]. *)
Theorem save_then_load (path : string) (s : St) :
  exists s1,
    save path s = (s1, Ok tt) /\
    (forall s' : St,
       disk (world s') !! path = disk (world s1) !! path ->
       exists s2,
         load path s' = (s2, Ok tt) /\
         best_score_threshold (self s2) = best_score_threshold (self s) /\
         best_final_score (self s2) = best_final_score (self s) /\
         epoch (self s2) = epoch (self s) + 1 /\
         m_params (model (self s2)) = m_params (model (self s)) /\
         optimizer (self s2) = optimizer (self s) /\
         scheduler (self s2) = scheduler (self s)) /\
    exists s2,
      load path s1 = (s2, Ok tt) /\
      best_score_threshold (self s2) = best_score_threshold (self s) /\
      best_final_score (self s2) = best_final_score (self s) /\
      epoch (self s2) = epoch (self s) + 1.
Proof.
  rewrite save_run. eexists. split; [reflexivity|].
  assert (forall s' : St,
            disk (world s') !! path = Some (FCheckpoint (checkpoint_of (self s)))
            -> exists s2,
                load path s' = (s2, Ok tt) /\
                best_score_threshold (self s2) = best_score_threshold (self s) /\
                best_final_score (self s2) = best_final_score (self s) /\
                epoch (self s2) = epoch (self s) + 1 /\
                m_params (model (self s2)) = m_params (model (self s)) /\
                optimizer (self s2) = optimizer (self s) /\
                scheduler (self s2) = scheduler (self s)) as Hload.
  { intros s' E. rewrite (load_run _ _ _ E). eexists.
    split; [reflexivity|]. repeat split. }
  split.
  - intros s' E. apply Hload. rewrite E. simpl. apply lookup_insert_eq.
  - destruct (Hload (mkSt
                       (set_model (model_set_mode EvalMode (model (self s)))
                          (self s))
                       (write_file path (FCheckpoint (checkpoint_of (self s)))
                          (world s))))
      as (s2 & E & H1 & H2 & H3 & _).
    { simpl. apply lookup_insert_eq. }
    exists s2. auto.
Qed.

(** C8.  [save(path)] and [save_model(path)] return with the model in
    evaluation mode whatever mode it was in, so a model in training mode
    does not keep its mode; with the epoch, the best score, the best
    threshold and the early-stop counter -- every attribute but the model's
    mode -- as they were. *)
Theorem save_switches_to_eval (path : string) (s : St) :
  (exists s1,
     save path s = (s1, Ok tt) /\
     m_mode (model (self s1)) = EvalMode /\
     (m_mode (model (self s)) = TrainMode ->
      m_mode (model (self s1)) <> m_mode (model (self s))) /\
     epoch (self s1) = epoch (self s) /\
     best_final_score (self s1) = best_final_score (self s) /\
     best_score_threshold (self s1) = best_score_threshold (self s) /\
     early_stop_epochs (self s1) = early_stop_epochs (self s) /\
     self s1 = set_model (model_set_mode EvalMode (model (self s))) (self s))
  /\
  (exists s1,
     save_model path s = (s1, Ok tt) /\
     m_mode (model (self s1)) = EvalMode /\
     (m_mode (model (self s)) = TrainMode ->
      m_mode (model (self s1)) <> m_mode (model (self s))) /\
     epoch (self s1) = epoch (self s) /\
     best_final_score (self s1) = best_final_score (self s) /\
     best_score_threshold (self s1) = best_score_threshold (self s) /\
     early_stop_epochs (self s1) = early_stop_epochs (self s) /\
     self s1 = set_model (model_set_mode EvalMode (model (self s))) (self s)).
Proof.
  split.
  - rewrite save_run. eexists. split; [reflexivity|]. simpl.
    repeat split. intros ->. discriminate.
  - rewrite save_model_run. eexists. split; [reflexivity|]. simpl.
    repeat split. intros ->. discriminate.
Qed.

(** What [load] does not assign. *)
Lemma load_frame (path : string) (s : St) :
  let s' := (load path s).1 in
  early_stop_epochs (self s') = early_stop_epochs (self s) /\
  do_scheduler (self s') = do_scheduler (self s) /\
  fixed (self s') = fixed (self s) /\
  all_predictions (self s') = all_predictions (self s) /\
  m_mode (model (self s')) = m_mode (model (self s)) /\
  m_device (model (self s')) = m_device (model (self s)) /\
  world s' = world s.
Proof.
  unfold load, torch_load. run.
  destruct (disk (world s) !! path) as [[c|m|rows]|]; simpl;
    repeat case_bool_decide; simpl; repeat split.
Qed.

(** C10.  [load(path)] leaves the early-stop counter and the
    schedule-stepping flag as they are, whether it returns or raises: of
    [self] it assigns only the model's parameters, the optimizer, the
    scheduler, the best threshold, the best score and the epoch, and it
    leaves the world alone.  A checkpoint does not record the counter or
    the flag: [save] writes the same file whatever they are.  So a fitter
    fresh from [__init__] that loads a checkpoint has the counter at zero
    and the flag on, whatever the file holds. *)
Theorem load_keeps_counter :
  (forall (path : string) (s : St),
     let s' := (load path s).1 in
     early_stop_epochs (self s') = early_stop_epochs (self s) /\
     do_scheduler (self s') = do_scheduler (self s) /\
     fixed (self s') = fixed (self s) /\
     all_predictions (self s') = all_predictions (self s) /\
     m_mode (model (self s')) = m_mode (model (self s)) /\
     m_device (model (self s')) = m_device (model (self s)) /\
     world s' = world s) /\
  (forall (f : Fitter) (k : Z) (b : bool),
     checkpoint_of (set_early_stop_epochs k f) = checkpoint_of f /\
     checkpoint_of (set_do_scheduler b f) = checkpoint_of f) /\
  (forall mdl dev cfg tr va w (path : string),
     let s' := (load path (init mdl dev cfg tr va w)).1 in
     early_stop_epochs (self s') = 0 /\ do_scheduler (self s') = true).
Proof.
  split; [exact load_frame|]. split.
  - intros f k b. split; reflexivity.
  - intros mdl dev cfg tr va w path s'.
    destruct (load_frame path (init mdl dev cfg tr va w)) as (E1 & E2 & _).
    subst s'. rewrite E1, E2, init_self. split; reflexivity.
Qed.

(** ** The device of the validation images *)

(** Whatever the fitter's device, [validation] hands the model images that
    sit on the current CUDA device. *)
Lemma validation_step_device (b : batch) (s : St) :
  exists s',
    validation_step b s = (s', Ok tt) /\
    calls (world s') =
      calls (world s) ++ [CForwardEval (map tensor_cuda (b_images b))] /\
    Forall (fun t => t_device t = cuda cuda_current_device)
      (map tensor_cuda (b_images b)).
Proof.
  unfold validation_step. run. eexists. split; [reflexivity|].
  split; [reflexivity|]. apply Forall_forall. intros t Hin.
  apply list_elem_of_In, in_map_iff in Hin as (t0 & <- & _). reflexivity.
Qed.

(** ** Warm-up and the scheduler *)

#[local] Instance same_schedule_refl : Reflexive same_schedule.
Proof. intros s. repeat split. Qed.

#[local] Instance same_schedule_trans : Transitive same_schedule.
Proof.
  intros a b c (H1 & H2 & H3 & H4) (H5 & H6 & H7 & H8).
  repeat split; congruence.
Qed.

#[local] Instance no_step_when_off_refl : Reflexive no_step_when_off.
Proof. intros s. repeat split. Qed.

#[local] Instance no_step_when_off_trans : Transitive no_step_when_off.
Proof.
  intros a b c (H1 & H2 & H3) (H4 & H5 & H6).
  repeat split; try congruence.
  intros Hoff. rewrite H6, H3; congruence.
Qed.




Lemma log_no_step (m : LogMsg) : stable no_step_when_off (log m).
Proof. unfold log. repeat stable_step. Qed.













(** ** Frames for the whole class *)

Section StableLoops.
Context (R : St -> St -> Prop) `{!Reflexive R} `{!Transitive R}.

Lemma stable_train_loop (bs : list batch) (sl : Meter) :
  (forall b sl, stable R (train_step b sl)) -> stable R (train_loop bs sl).
Proof.
  intros Hs. revert sl. induction bs as [|b bs IH]; intros sl; simpl.
  - apply stable_ret; apply _.
  - apply stable_bind; [apply _ | apply Hs | auto].
Qed.

Lemma stable_fit_loop (epochs : list Z) :
  (forall ep, stable R (fit_iteration ep)) -> stable R (fit_loop epochs).
Proof.
  intros Hs. induction epochs as [|e es IH]; simpl.
  - apply stable_ret; apply _.
  - apply stable_bind; [apply _ | apply Hs | intros [|]];
      [apply IH | apply stable_ret; apply _].
Qed.
End StableLoops.

Ltac open_methods :=
  unfold fit, fit_iteration, fit_train, fit_warmup, fit_log_lr,
    train_one_epoch, fit_validate, validation, fit_decide, fit_select,
    early_stop, fit_advance, save, save_model, save_predictions, load,
    torch_load, model_eval, model_train.

Ltac stable_walk leaf :=
  repeat first
    [ leaf
    | apply stable_bind; [apply _ | | intros ?]
    | apply stable_ret; apply _
    | apply stable_raise; apply _
    | apply stable_or_raise; apply _
    | apply stable_get_self; apply _
    | apply stable_get_world; apply _
    | apply stable_for_each;
        [apply _ | apply _ | intros ?; unfold validation_step]
    | apply stable_train_loop;
        [apply _ | apply _ | intros ? ?; unfold train_step]
    | apply stable_fit_loop; [apply _ | apply _ | intros ?; open_methods]
    | match goal with
      | |- stable _ (if ?b then _ else _) => destruct b
      | |- stable _ (let '(_, _) := ?p in _) => destruct p
      | |- stable _ (match ?p with _ => _ end) => destruct p
      end ].

(** *** The disk follows the journal *)

#[local] Instance journaled_refl : Reflexive journaled.
Proof. intros s. split; [reflexivity|]. exists []. now rewrite app_nil_r. Qed.

#[local] Instance journaled_trans : Transitive journaled.
Proof.
  intros a b c (D1 & n1 & W1 & K1) (D2 & n2 & W2 & K2).
  split; [congruence|]. exists (n1 ++ n2). split.
  - rewrite W2, W1, <- app_assoc. reflexivity.
  - rewrite K2, K1. unfold replay. now rewrite foldl_app.
Qed.

Ltac journaled_leaf :=
  first
    [ apply stable_modify_self; intros ? ?;
      (split; [reflexivity|]); exists []; simpl; rewrite ?app_nil_r;
      split; reflexivity
    | apply stable_modify_world; intros ? ?;
      (split; [reflexivity|]);
      first [ exists []; simpl; rewrite ?app_nil_r; split; reflexivity
            | eexists [_]; split; reflexivity ] ].

Lemma journaled_methods :
  stable journaled fit /\
  (forall ep, stable journaled (fit_iteration ep)) /\
  stable journaled validation /\
  stable journaled train_one_epoch /\
  (forall p, stable journaled (save p)) /\
  (forall p, stable journaled (save_model p)) /\
  (forall p, stable journaled (save_predictions p)) /\
  (forall p, stable journaled (load p)) /\
  (forall m, stable journaled (log m)) /\
  (forall x, stable journaled (early_stop x)).
Proof.
  repeat apply conj; intros; open_methods; unfold log;
    stable_walk journaled_leaf.
Qed.


Lemma replay_app (n1 n2 : list (string * File)) (d : gmap string File) :
  replay (n1 ++ n2) d = replay n2 (replay n1 d).
Proof. unfold replay. apply foldl_app. Qed.

Lemma replay_lookup_ne (new : list (string * File)) (d : gmap string File)
    (p : string) :
  p ∉ new.*1 -> replay new d !! p = d !! p.
Proof.
  revert d. induction new as [|[q f] new IH]; intros d Hp; [reflexivity|].
  simpl in *. rewrite not_elem_of_cons in Hp. destruct Hp as [Hq Hp].
  rewrite (IH _ Hp). now apply lookup_insert_ne.
Qed.

Lemma replay_is_Some (new : list (string * File)) (d : gmap string File)
    (p : string) :
  is_Some (d !! p) -> is_Some (replay new d !! p).
Proof.
  revert d. induction new as [|[q f] new IH]; intros d Hp; [exact Hp|].
  simpl. apply IH. rewrite lookup_insert_is_Some.
  destruct (decide (q = p)); [now left | now right].
Qed.

(** The last write to a path is what the disk holds there. *)
Lemma replay_lookup_last (before after : list (string * File))
    (d : gmap string File) (p : string) (f : File) :
  p ∉ after.*1 ->
  replay (before ++ (p, f) :: after) d !! p = Some f.
Proof.
  intros Hp. rewrite replay_app. simpl.
  rewrite (replay_lookup_ne after _ p Hp). apply lookup_insert_eq.
Qed.

(** The paths of the four artifacts are pairwise distinct. *)
Lemma artifacts_NoDup (f : Fitter) : NoDup (artifacts f).
Proof.
  unfold artifacts, last_checkpoint, best_checkpoint, best_model,
    predictions_csv.
  repeat (apply NoDup_cons_2;
          [rewrite ?elem_of_cons, elem_of_nil;
           intros E; decompose [or] E; try contradiction;
           match goal with
           | E' : _ = _ |- _ =>
               apply (inj (String.app (base_dir f))) in E'; discriminate
           end|]).
  apply NoDup_nil_2.
Qed.

Lemma artifacts_base (f f' : Fitter) :
  base_dir f' = base_dir f -> artifacts f' = artifacts f.
Proof.
  intros E. unfold artifacts, last_checkpoint, best_checkpoint, best_model,
    predictions_csv. now rewrite E.
Qed.

(** The writes of one turn of [fit], all to artifacts. *)
Lemma fit_iteration_writes (ep : Z) (s : St) :
  exists new,
    writes (world (fit_iteration ep s).1) = writes (world s) ++ new /\
    disk (world (fit_iteration ep s).1) = replay new (disk (world s)) /\
    dirs (world (fit_iteration ep s).1) = dirs (world s) /\
    fixed (self (fit_iteration ep s).1) = fixed (self s) /\
    Forall (fun pf => pf.1 ∈ artifacts (self s)) new.
Proof.
  destruct journaled_methods as (_ & J & _).
  destruct (J ep s) as (D & new & W & K).
  exists new. do 3 (split; [assumption|]).
  destruct (fit_iteration_outcome ep s) as [st e|st sv se r c];
    rewrite Hiter in *; simpl in *.
  - destruct Hquiet as (B & Wq & _). split; [now apply bookkeeping_fixed|].
    rewrite Wq in W. rewrite <- (app_nil_r (writes (world s))) in W at 1.
    apply app_inv_head in W. subst new. constructor.
  - split; [apply Hfacts|].
    rewrite Hbest, Hlast, <- app_assoc in W. apply app_inv_head in W.
    subst new.
    assert (base_dir (self sv) = base_dir (self s)) as Eb
      by (unfold bookkeeping in Hbook; congruence).
    apply Forall_cons. split.
    { simpl. unfold artifacts. rewrite elem_of_cons. now left. }
    destruct (PyFloat.gt r.2 (best_final_score (self s))); [|constructor].
    unfold best_artifacts, artifacts, best_checkpoint, best_model,
      predictions_csv. rewrite Eb.
    repeat (apply Forall_cons; split;
            [simpl; rewrite !elem_of_cons; auto|]).
    constructor.
Qed.


(** *** The log *)

Lemma logged_same (s s' : St) :
  config (self s') = config (self s) ->
  log_path (self s') = log_path (self s) ->
  logs (world s') = logs (world s) ->
  stdout (world s') = stdout (world s) ->
  logged s s'.
Proof.
  intros C L G O. split; [exact C|]. split; [exact L|]. exists [].
  unfold log_file. rewrite L, G, O, app_nil_r.
  repeat split. destruct (VERBOSE _); now rewrite app_nil_r.
Qed.

#[local] Instance logged_refl : Reflexive logged.
Proof. intros s. now apply logged_same. Qed.

#[local] Instance logged_trans : Transitive logged.
Proof.
  intros a b c (C1 & L1 & m1 & F1 & O1 & P1) (C2 & L2 & m2 & F2 & O2 & P2).
  split; [congruence|]. split; [congruence|].
  exists (m1 ++ m2). split; [|split].
  - rewrite F2, F1, <- app_assoc. reflexivity.
  - rewrite O2, O1, C1. destruct (VERBOSE (config (self a)));
      rewrite <- ?app_assoc; reflexivity.
  - intros p Hp. rewrite P2, P1; congruence.
Qed.

Lemma log_run (m : LogMsg) (s : St) :
  log m s =
  (mkSt (self s)
     (append_line (log_path (self s)) m
        (if VERBOSE (config (self s)) then print m (world s) else world s)),
   Ok tt).
Proof.
  unfold log. run. destruct s as [f w]. simpl.
  destruct (VERBOSE (config f)); reflexivity.
Qed.

Lemma log_logged (m : LogMsg) : stable logged (log m).
Proof.
  intros s. rewrite log_run. simpl.
  split; [reflexivity|]. split; [reflexivity|]. exists [m].
  unfold log_file. simpl.
  destruct (VERBOSE (config (self s))); simpl;
    rewrite lookup_insert_eq, ?app_nil_r; repeat split;
    intros p Hp; now apply lookup_insert_ne.
Qed.

Ltac logged_leaf :=
  idtac;
  lazymatch goal with
  | |- stable _ (log _) => apply log_logged
  | |- stable _ (modify_self _) =>
      apply stable_modify_self; intros ? ?; apply logged_same; reflexivity
  | |- stable _ (modify_world _) =>
      apply stable_modify_world; intros ? ?; apply logged_same; reflexivity
  end.

Lemma fit_logged : stable logged fit.
Proof. open_methods. stable_walk logged_leaf. Qed.

(** X1.  Whatever happens in [fit] -- it returns, breaks or raises -- the
    only entries of the file system it changes are the last checkpoint, the
    best checkpoint, the best model and the predictions file under
    [base_dir], which it writes, and the log file at [self.log_path], to
    which it appends.  Every write it adds to the journal goes to one of
    the four paths and the files [torch.save] and [to_csv] write are
    afterwards those from before with these writes replayed, so at every
    other path they are what they were and none is removed; the log file
    has grown by some lines and every other log file is what it was; no
    directory is made. *)
Theorem fit_writes_only_artifacts (s0 : St) :
  exists (new : list (string * File)) (more : list LogMsg),
    writes (world (fit s0).1) = writes (world s0) ++ new /\
    disk (world (fit s0).1) = replay new (disk (world s0)) /\
    Forall (fun pf => pf.1 ∈ artifacts (self s0)) new /\
    (forall p, p ∉ artifacts (self s0) ->
               disk (world (fit s0).1) !! p = disk (world s0) !! p) /\
    (forall p, is_Some (disk (world s0) !! p) ->
               is_Some (disk (world (fit s0).1) !! p)) /\
    default [] (logs (world (fit s0).1) !! log_path (self s0)) =
      default [] (logs (world s0) !! log_path (self s0)) ++ more /\
    (forall p, p <> log_path (self s0) ->
               logs (world (fit s0).1) !! p = logs (world s0) !! p) /\
    dirs (world (fit s0).1) = dirs (world s0).
Proof.
  assert (fixed (self (fit s0).1) = fixed (self s0) /\
          dirs (world (fit s0).1) = dirs (world s0) /\
          exists new,
            writes (world (fit s0).1) = writes (world s0) ++ new /\
            disk (world (fit s0).1) = replay new (disk (world s0)) /\
            Forall (fun pf => pf.1 ∈ artifacts (self s0)) new)
    as (_ & D & new & W & K & A).
  { apply (fit_inv (fun s =>
             fixed (self s) = fixed (self s0) /\
             dirs (world s) = dirs (world s0) /\
             exists new,
               writes (world s) = writes (world s0) ++ new /\
               disk (world s) = replay new (disk (world s0)) /\
               Forall (fun pf => pf.1 ∈ artifacts (self s0)) new)).
    - intros ep s (F & D & n0 & W0 & K0 & A0).
      destruct (fit_iteration_writes ep s) as (n1 & W1 & K1 & D1 & F1 & A1).
      split; [congruence|]. split; [congruence|].
      exists (n0 ++ n1). split; [|split].
      + rewrite W1, W0, <- app_assoc. reflexivity.
      + rewrite K1, K0, replay_app. reflexivity.
      + apply Forall_app. split; [exact A0|].
        rewrite <- (artifacts_base (self s0) (self s)); [exact A1|].
        unfold fixed in F. congruence.
    - split; [reflexivity|]. split; [reflexivity|].
      exists []. rewrite app_nil_r. repeat split. constructor. }
  destruct (fit_logged s0) as (_ & L & more & F & _ & P).
  unfold log_file in F. rewrite L in F.
  exists new, more. repeat split; try assumption.
  - intros p Hp. rewrite K. apply replay_lookup_ne.
    intros Hin. apply Hp. apply list_elem_of_fmap in Hin as (pf & -> & Hin).
    rewrite Forall_forall in A. now apply A.
  - intros p Hp. rewrite K. now apply replay_is_Some.
Qed.

#[local] Instance silent_refl : Reflexive silent.
Proof. intros s. split; reflexivity. Qed.

#[local] Instance silent_trans : Transitive silent.
Proof. intros a b c [L1 O1] [L2 O2]. split; congruence. Qed.

Ltac silent_leaf :=
  first
    [ apply stable_modify_self; intros ? ?; split; reflexivity
    | apply stable_modify_world; intros ? ?; split; reflexivity ].



(** ** What the files of a turn hold *)

#[local] Instance same_training_refl : Reflexive same_training.
Proof. intros s. repeat split. Qed.

#[local] Instance same_training_trans : Transitive same_training.
Proof. intros a b c (P1 & O1 & S1) (P2 & O2 & S2). repeat split; congruence. Qed.

Ltac same_training_leaf :=
  first
    [ apply stable_modify_self; intros ? ?; repeat split
    | apply stable_modify_world; intros ? ?; repeat split ].

(** Saving, validating and logging train nothing. *)
Lemma fit_validate_same_training : stable same_training fit_validate.
Proof. open_methods. unfold log. stable_walk same_training_leaf. Qed.

Lemma artifact_paths_distinct (f : Fitter) :
  last_checkpoint f <> best_checkpoint f /\
  last_checkpoint f <> best_model f /\
  last_checkpoint f <> predictions_csv f /\
  best_checkpoint f <> best_model f /\
  best_checkpoint f <> predictions_csv f /\
  best_model f <> predictions_csv f.
Proof.
  unfold last_checkpoint, best_checkpoint, best_model, predictions_csv.
  repeat split; intros E; apply (inj (String.app (base_dir f))) in E;
    discriminate.
Qed.

(** The disk at the end of a turn whose training and validation returned:
    the last checkpoint as written before the validation and, when the
    score improved, the three best files. *)
Lemma turn_disk (s0 : St) (i : nat) (ep : Z) (s st sv : St)
    (r : float * float) :
  fit_turns s0 !! i = Some (ep, s) ->
  fit_train ep s = (st, Ok tt) ->
  fit_validate st = (sv, Ok r) ->
  let se := (fit_iteration ep s).1 in
  let f0 := self s0 in
  disk (world se) !! last_checkpoint f0 =
    Some (FCheckpoint (checkpoint_of (self st))) /\
  (PyFloat.gt r.2 (best_final_score (self s)) = true ->
   disk (world se) !! best_checkpoint f0 =
     Some (FCheckpoint (checkpoint_of (best_updated r (self sv)))) /\
   disk (world se) !! best_model f0 =
     Some (FSnapshot (snapshot_of (best_updated r (self sv)))) /\
   disk (world se) !! predictions_csv f0 =
     Some (FCsv (all_predictions (self sv)))) /\
  (PyFloat.gt r.2 (best_final_score (self s)) = false ->
   forall p, p <> last_checkpoint f0 ->
             disk (world se) !! p = disk (world s) !! p).
Proof.
  intros Ht Htr Hv se f0.
  destruct (turn_outcome_at _ _ _ _ _ Htr Hv)
    as (se' & c & Hit & _ & Q & _ & Bs & Wv & _ & We).
  destruct journaled_methods as (_ & J & _).
  destruct (J ep s) as (_ & new & W & K).
  subst se f0. rewrite Hit in *. simpl in *.
  destruct Q as (_ & Wt & _).
  destruct (fit_turns_fixed _ _ _ _ Ht) as [Fx _].
  assert (base_dir (self s) = base_dir (self s0)) as Eb
    by (unfold fixed in Fx; congruence).
  assert (base_dir (self sv) = base_dir (self s0)) as Ebv
    by (unfold bookkeeping in Bs; congruence).
  rewrite We, Wv, Wt, <- app_assoc in W. apply app_inv_head in W.
  subst new. rewrite K. clear K.
  destruct (artifact_paths_distinct (self s0)) as (N1 & N2 & N3 & N4 & N5 & N6).
  unfold best_artifacts, last_checkpoint, best_checkpoint, best_model,
    predictions_csv in *.
  rewrite Eb, Ebv.
  destruct (PyFloat.gt r.2 (best_final_score (self s))); simpl.
  - split; [|split; [|discriminate]].
    + rewrite !lookup_insert_ne by congruence. apply lookup_insert_eq.
    + intros _. split; [|split].
      * rewrite !lookup_insert_ne by congruence. apply lookup_insert_eq.
      * rewrite lookup_insert_ne by congruence. apply lookup_insert_eq.
      * apply lookup_insert_eq.
  - split; [apply lookup_insert_eq|]. split; [discriminate|].
    intros _ p Hp. now apply lookup_insert_ne.
Qed.

(** X3.  At the end of a turn of [fit] whose validation score is strictly
    above the best, the four files under [base_dir] hold one state of the
    training: the best checkpoint has the parameters, the optimizer, the
    scheduler and the epoch of the last checkpoint, which was written before
    the validation, and differs from it in the best score and threshold,
    which are the turn's in the best checkpoint and those from before the
    turn in the last checkpoint; the best model has the same parameters and
    the turn's score and threshold; and the predictions file holds the
    predictions that [evaluate] gave the turn's result for. *)
Theorem improving_turn_files (s0 : St) (i : nat) (ep : Z) (s st sv : St)
    (r : float * float) :
  fit_turns s0 !! i = Some (ep, s) ->
  fit_train ep s = (st, Ok tt) ->
  fit_validate st = (sv, Ok r) ->
  PyFloat.gt r.2 (best_final_score (self s)) = true ->
  exists (lastc bestc : Checkpoint) (snap : Snapshot) (preds : list Pred),
    let d := disk (world (fit_iteration ep s).1) in
    d !! (base_dir (self s0) +:+ "/last-checkpoint.bin") =
      Some (FCheckpoint lastc) /\
    d !! (base_dir (self s0) +:+ "/best-checkpoint.bin") =
      Some (FCheckpoint bestc) /\
    d !! (base_dir (self s0) +:+ "/best-model.bin") = Some (FSnapshot snap) /\
    d !! (base_dir (self s0) +:+ "/all_predictions.csv") = Some (FCsv preds) /\
    evaluate preds = r /\
    ck_model_state_dict lastc = m_params (model (self st)) /\
    ck_model_state_dict bestc = ck_model_state_dict lastc /\
    ck_optimizer_state_dict bestc = ck_optimizer_state_dict lastc /\
    ck_scheduler_state_dict bestc = ck_scheduler_state_dict lastc /\
    ck_epoch bestc = ep /\ ck_epoch lastc = ep /\
    ck_best_final_score bestc = r.2 /\
    ck_best_score_threshold bestc = r.1 /\
    ck_best_final_score lastc = best_final_score (self s) /\
    ck_best_score_threshold lastc = best_score_threshold (self s) /\
    sn_model_state_dict snap = ck_model_state_dict lastc /\
    sn_best_final_score snap = r.2 /\
    sn_best_score_threshold snap = r.1.
Proof.
  intros Ht Htr Hv Himp.
  destruct (turn_disk _ _ _ _ _ _ _ Ht Htr Hv) as (D1 & D2 & _).
  destruct (D2 Himp) as (D3 & D4 & D5).
  destruct (turn_outcome_at _ _ _ _ _ Htr Hv)
    as (_ & _ & _ & _ & Q & Hr & Bs & _).
  destruct (fit_turns_fixed _ _ _ _ Ht) as [_ Hep].
  pose proof (fit_validate_same_training st) as (T1 & T2 & T3).
  rewrite Hv in T1, T2, T3. simpl in T1, T2, T3.
  destruct Q as (Bt & _ & _).
  destruct (bookkeeping_fields _ _ Bt) as (_ & _ & E3 & _ & E5 & E6).
  destruct (bookkeeping_fields _ _ Bs) as (_ & _ & V3 & _ & _ & _).
  eexists _, _, _, _. simpl.
  split; [exact D1|]. split; [exact D3|]. split; [exact D4|].
  split; [exact D5|]. simpl.
  repeat split; try congruence.
Qed.


(** ** Loading what [fit] and [save_model] wrote *)

Lemma load_snapshot_run (path : string) (s : St) (m : Snapshot) :
  disk (world s) !! path = Some (FSnapshot m) ->
  load path s =
  (mkSt (set_model (model_set_params (sn_model_state_dict m) (model (self s)))
           (self s))
     (world s), Raise KeyError).
Proof. intros E. unfold load, torch_load. run. rewrite E. reflexivity. Qed.



(** X4.  Resuming from the files of a turn of [fit] whose training and
    validation returned.  A fitter that finds the disk as the turn left it
    and loads the last checkpoint gets the turn's trained parameters and
    optimizer, the epoch after the turn's, and the best score and threshold
    as they were when the turn began: when the turn's score was strictly
    above that best, the resumed fitter's best score is strictly below the
    score the turn reached.  Loading the best checkpoint of such a turn
    gives the turn's score and threshold and the same parameters and epoch;
    loading its best model replaces the parameters and then raises
    [KeyError], with the epoch and the best score of the loading fitter
    untouched. *)
Theorem resume_after_turn (s0 : St) (i : nat) (ep : Z) (s st sv : St)
    (r : float * float) (s' : St) :
  fit_turns s0 !! i = Some (ep, s) ->
  fit_train ep s = (st, Ok tt) ->
  fit_validate st = (sv, Ok r) ->
  disk (world s') = disk (world (fit_iteration ep s).1) ->
  (exists s2,
     load (base_dir (self s0) +:+ "/last-checkpoint.bin") s' = (s2, Ok tt) /\
     epoch (self s2) = ep + 1 /\
     best_final_score (self s2) = best_final_score (self s) /\
     best_score_threshold (self s2) = best_score_threshold (self s) /\
     m_params (model (self s2)) = m_params (model (self st)) /\
     optimizer (self s2) = optimizer (self st) /\
     scheduler (self s2) = scheduler (self st)) /\
  (PyFloat.gt r.2 (best_final_score (self s)) = true ->
   (exists s2,
      load (base_dir (self s0) +:+ "/last-checkpoint.bin") s' = (s2, Ok tt) /\
      PyFloat.lt (best_final_score (self s2)) r.2 = true) /\
   (exists s2,
      load (base_dir (self s0) +:+ "/best-checkpoint.bin") s' = (s2, Ok tt) /\
      epoch (self s2) = ep + 1 /\
      best_final_score (self s2) = r.2 /\
      best_score_threshold (self s2) = r.1 /\
      m_params (model (self s2)) = m_params (model (self st)) /\
      optimizer (self s2) = optimizer (self st) /\
      scheduler (self s2) = scheduler (self st)) /\
   (exists s2,
      load (base_dir (self s0) +:+ "/best-model.bin") s' = (s2, Raise KeyError) /\
      m_params (model (self s2)) = m_params (model (self st)) /\
      epoch (self s2) = epoch (self s') /\
      best_final_score (self s2) = best_final_score (self s') /\
      best_score_threshold (self s2) = best_score_threshold (self s') /\
      optimizer (self s2) = optimizer (self s'))).
Proof.
  intros Ht Htr Hv Hd.
  destruct (turn_disk _ _ _ _ _ _ _ Ht Htr Hv) as (D1 & D2 & _).
  unfold last_checkpoint, best_checkpoint, best_model in *.
  rewrite <- Hd in D1, D2.
  destruct (turn_outcome_at _ _ _ _ _ Htr Hv)
    as (_ & _ & _ & _ & Q & _ & Bs & _).
  destruct (fit_turns_fixed _ _ _ _ Ht) as [_ Hep].
  pose proof (fit_validate_same_training st) as (T1 & T2 & T3).
  rewrite Hv in T1, T2, T3. simpl in T1, T2, T3.
  destruct Q as (Bt & _ & _).
  destruct (bookkeeping_fields _ _ Bt) as (_ & _ & E3 & _ & E5 & E6).
  destruct (bookkeeping_fields _ _ Bs) as (_ & _ & V3 & _ & _ & _).
  assert (exists s2,
            load (base_dir (self s0) +:+ "/last-checkpoint.bin") s' =
              (s2, Ok tt) /\
            epoch (self s2) = ep + 1 /\
            best_final_score (self s2) = best_final_score (self s) /\
            best_score_threshold (self s2) = best_score_threshold (self s) /\
            m_params (model (self s2)) = m_params (model (self st)) /\
            optimizer (self s2) = optimizer (self st) /\
            scheduler (self s2) = scheduler (self st)) as Hlast.
  { rewrite (load_run _ _ _ D1). eexists. split; [reflexivity|]. simpl.
    repeat split; congruence. }
  split; [exact Hlast|]. intros Himp.
  destruct (D2 Himp) as (D3 & D4 & _). split; [|split].
  - destruct Hlast as (s2 & L & _ & B & _). exists s2. split; [exact L|].
    rewrite B. exact Himp.
  - rewrite (load_run _ _ _ D3). eexists. split; [reflexivity|]. simpl.
    repeat split; congruence.
  - rewrite (load_snapshot_run _ _ _ D4). eexists. split; [reflexivity|].
    simpl. repeat split; congruence.
Qed.



(** ** The mode of the model *)

#[local] Instance keeps_mode_refl : Reflexive keeps_mode.
Proof. intros s. reflexivity. Qed.

#[local] Instance keeps_mode_trans : Transitive keeps_mode.
Proof. intros a b c E1 E2. unfold keeps_mode in *. congruence. Qed.

#[local] Instance stays_eval_refl : Reflexive stays_eval.
Proof. intros s E. exact E. Qed.

#[local] Instance stays_eval_trans : Transitive stays_eval.
Proof. intros a b c E1 E2 E. apply E2, E1, E. Qed.

Ltac keeps_mode_leaf :=
  first
    [ apply stable_modify_self; intros ? ?; reflexivity
    | apply stable_modify_world; intros ? ?; reflexivity ].

Ltac stays_eval_leaf :=
  first
    [ apply stable_modify_self; intros ? ? E; first [exact E | reflexivity]
    | apply stable_modify_world; intros ? ? E; exact E ].

Lemma train_loop_keeps_mode (bs : list batch) (sl : Meter) :
  stable keeps_mode (train_loop bs sl).
Proof. stable_walk keeps_mode_leaf. Qed.

Lemma log_keeps_mode (m : LogMsg) : stable keeps_mode (log m).
Proof. unfold log. stable_walk keeps_mode_leaf. Qed.

Lemma train_one_epoch_mode (s : St) :
  m_mode (model (self (train_one_epoch s).1)) = TrainMode.
Proof.
  unfold train_one_epoch. run.
  match goal with
  | |- context [train_loop ?bs ?sl ?s1] =>
      exact (train_loop_keeps_mode bs sl s1)
  end.
Qed.

Lemma validation_stays_eval : stable stays_eval validation.
Proof. open_methods. stable_walk stays_eval_leaf. Qed.

Lemma log_stays_eval (m : LogMsg) : stable stays_eval (log m).
Proof. unfold log. stable_walk stays_eval_leaf. Qed.

Lemma fit_decide_stays_eval (r : float * float) :
  stable stays_eval (fit_decide r).
Proof. open_methods. unfold log. stable_walk stays_eval_leaf. Qed.

Lemma validation_mode (s : St) :
  m_mode (model (self (validation s).1)) = EvalMode.
Proof.
  assert (stable stays_eval
            (modify_self (set_all_predictions []) ;;
             modify_world (emit_call CEmptyCache) ;;
             f ← get_self;
             for_each validation_step (val_loader f) ;;
             f ← get_self;
             ret (evaluate (all_predictions f)))) as Hrest
    by stable_walk stays_eval_leaf.
  unfold validation, model_eval. unfold mbind at 1. unfold M_bind, bind.
  unfold modify_self at 1.
  match goal with
  | |- context [(_ ≫= _) ?s1] => exact (Hrest s1 eq_refl)
  end.
Qed.

Lemma fit_validate_mode (s : St) :
  m_mode (model (self (fit_validate s).1)) = EvalMode.
Proof.
  unfold fit_validate. run. rewrite save_run. set (s1 := mkSt _ _).
  pose proof (validation_stays_eval s1 eq_refl) as V.
  destruct (validation s1) as [s2 [r|e]]; simpl in *; [|exact V].
  match goal with
  | |- context [log ?m s2] => pose proof (log_stays_eval m s2 V) as L;
                              destruct (log m s2) as [s3 [[]|e]]
  end; exact L.
Qed.

Lemma fit_train_mode (ep : Z) (s st : St) :
  fit_train ep s = (st, Ok tt) -> m_mode (model (self st)) = TrainMode.
Proof.
  unfold fit_train. run.
  destruct (fit_warmup ep s) as [s1 [[]|e]]; [|discriminate].
  destruct (fit_log_lr s1) as [s2 [[]|e]]; [|discriminate].
  pose proof (train_one_epoch_mode s2) as T.
  destruct (train_one_epoch s2) as [s3 [sl|e]]; [|discriminate].
  simpl in T.
  match goal with
  | |- context [log ?m s3] => pose proof (log_keeps_mode m s3) as L;
                              destruct (log m s3) as [s4 [[]|e]]
  end; intros [= <-]; simpl in L; unfold keeps_mode in L; congruence.
Qed.

Lemma fit_iteration_mode (ep : Z) (s st : St) :
  fit_train ep s = (st, Ok tt) ->
  m_mode (model (self (fit_iteration ep s).1)) = EvalMode.
Proof.
  intros Htr. rewrite fit_iteration_run, Htr.
  pose proof (fit_validate_mode st) as V.
  destruct (fit_validate st) as [sv [r|e]]; simpl in V; [|exact V].
  exact (fit_decide_stays_eval r sv V).
Qed.

(** X6.  The mode of the model.  [train_one_epoch] leaves the model in
    training mode, whether it returns or raises part-way through;
    [validation] leaves it in evaluation mode.  In a turn of [fit] the
    model is in training mode when the training phase has returned and in
    evaluation mode when the turn ends, whatever its outcome.  So a [fit]
    that returns after at least one turn leaves the model in evaluation
    mode. *)
Theorem model_mode_through_fit :
  (forall s : St, m_mode (model (self (train_one_epoch s).1)) = TrainMode) /\
  (forall s : St, m_mode (model (self (validation s).1)) = EvalMode) /\
  (forall (ep : Z) (s st : St),
     fit_train ep s = (st, Ok tt) ->
     m_mode (model (self st)) = TrainMode /\
     m_mode (model (self (fit_iteration ep s).1)) = EvalMode) /\
  (forall s0 sf : St,
     fit s0 = (sf, Ok tt) ->
     epoch (self s0) < SOLVER_MAX_EPOCHS (config (self s0)) ->
     m_mode (model (self sf)) = EvalMode).
Proof.
  split; [exact train_one_epoch_mode|]. split; [exact validation_mode|].
  split.
  - intros ep s st Htr. split; [now apply (fit_train_mode ep s)|].
    now apply (fit_iteration_mode ep s st).
  - intros s0 sf Hfit Hlt. rewrite fit_run in Hfit.
    destruct (last (fit_turns s0)) as [[ep s]|] eqn:El.
    + destruct (fit_train ep s) as [st [[]|e]] eqn:Htr.
      * pose proof (fit_iteration_mode ep s st Htr) as Hm.
        destruct (fit_iteration ep s) as [se [c|e]]; [|discriminate].
        injection Hfit as <-. exact Hm.
      * rewrite fit_iteration_run, Htr in Hfit. discriminate.
    + apply last_None in El.
      pose proof (fit_turns_0 s0) as T0. rewrite El in T0.
      case_bool_decide; [discriminate | lia].
Qed.


(** ** The validation pass *)

Lemma for_each_validation (bs : list batch) (f : Fitter) (w : World) :
  for_each validation_step bs (mkSt f w) =
  (mkSt
     (set_all_predictions
        (predictions_of (m_params (model f)) bs (all_predictions f)) f)
     (mkWorld (dirs w) (disk w) (writes w) (logs w) (stdout w)
        (calls w ++
         map (fun b => CForwardEval (map tensor_cuda (b_images b))) bs)),
   Ok tt).
Proof.
  revert f w. induction bs as [|b bs IH]; intros f w; simpl.
  - destruct f, w; simpl. now rewrite app_nil_r.
  - unfold validation_step at 1. run. simpl. rewrite IH. simpl.
    rewrite <- app_assoc. reflexivity.
Qed.

Lemma validation_run (s : St) :
  let preds :=
    predictions_of (m_params (model (self s))) (val_loader (self s)) [] in
  validation s =
  (mkSt
     (set_all_predictions preds
        (set_model (model_set_mode EvalMode (model (self s))) (self s)))
     (mkWorld (dirs (world s)) (disk (world s)) (writes (world s))
        (logs (world s)) (stdout (world s))
        (calls (world s) ++ validation_calls (val_loader (self s)))),
   Ok (evaluate preds)).
Proof.
  destruct s as [f w]. unfold validation. run. simpl.
  rewrite for_each_validation. simpl. rewrite <- app_assoc. reflexivity.
Qed.

(** X7.  What a [validation] that returns has done.  Its result is what
    [evaluate] gives for the predictions that [inference] accumulates,
    starting from the empty list of line 101, over the batches of the
    validation loader in their order, each with the output of the model
    under its current parameters on the batch's images after
    [image.cuda()]: [self.all_predictions] as it was before the call does
    not enter.  These predictions are stored in [self.all_predictions],
    the model is in evaluation mode with its parameters untouched and
    nothing else of [self] has changed; [torch.cuda.empty_cache()] was
    called once and then the model once per batch, in this order; no
    checkpoint, model or predictions file was written and nothing was
    logged or printed. *)
Theorem validation_closed_form (s s' : St) (r : float * float) :
  validation s = (s', Ok r) ->
  let preds :=
    predictions_of (m_params (model (self s))) (val_loader (self s)) [] in
  r = evaluate preds /\
  self s' =
    set_all_predictions preds
      (set_model (model_set_mode EvalMode (model (self s))) (self s)) /\
  m_params (model (self s')) = m_params (model (self s)) /\
  calls (world s') = calls (world s) ++ validation_calls (val_loader (self s))
  /\
  length (validation_calls (val_loader (self s))) =
    S (length (val_loader (self s))) /\
  quiet s s' /\ silent s s'.
Proof.
  rewrite validation_run. intros [= <- <-] preds. simpl.
  repeat split. now rewrite length_map.
Qed.


(** ** The training pass *)

Lemma boxes_to_float_map_Some (d : Device) (ts ts' : list Target) :
  boxes_to_float (map (fmap (tensor_to d)) ts) = Some ts' ->
  Forall (fun t : Target => is_Some (t !! "boxes"%string)) ts.
Proof.
  revert ts'. induction ts as [|t ts IH]; intros ts'; [constructor|].
  cbn [map boxes_to_float]. unfold Target in *. rewrite lookup_fmap.
  destruct (t !! "boxes"%string) as [bx|] eqn:Et; cbn [fmap option_fmap option_map];
    [|discriminate].
  destruct (boxes_to_float _) as [rest|]; [|discriminate].
  intros _. constructor; eauto.
Qed.

Lemma boxes_to_float_map_None (d : Device) (ts : list Target) :
  ~ Forall (fun t : Target => is_Some (t !! "boxes"%string)) ts ->
  boxes_to_float (map (fmap (tensor_to d)) ts) = None.
Proof.
  intros Hn. destruct (boxes_to_float _) as [ts'|] eqn:E; [|reflexivity].
  exfalso. apply Hn. eapply boxes_to_float_map_Some. exact E.
Qed.

Lemma train_step_no_images (b : batch) (sl : Meter) (s : St) :
  b_images b = [] -> train_step b sl s = (s, Raise RuntimeError).
Proof. intros E. unfold train_step. run. rewrite E. reflexivity. Qed.

Lemma train_step_no_boxes (b : batch) (sl : Meter) (s : St) :
  b_images b <> [] ->
  ~ Forall (fun t : Target => is_Some (t !! "boxes"%string)) (b_targets b) ->
  train_step b sl s = (s, Raise KeyError).
Proof.
  intros Hi Hb. unfold train_step. run.
  destruct (torch_stack (b_images b)) as [stacked|] eqn:Es.
  - rewrite (boxes_to_float_map_None _ _ Hb). reflexivity.
  - destruct (b_images b); [congruence | discriminate].
Qed.

Lemma train_step_well_formed (b : batch) (sl sl' : Meter) (s s' : St) :
  train_step b sl s = (s', Ok sl') -> well_formed b.
Proof.
  unfold train_step. run.
  destruct (torch_stack (b_images b)) as [stacked|] eqn:Es; [|discriminate].
  destruct (boxes_to_float _) as [targets|] eqn:Eb; [|discriminate].
  intros _. split.
  - intros E. rewrite E in Es. discriminate.
  - eapply boxes_to_float_map_Some. exact Eb.
Qed.

Lemma train_loop_well_formed (bs : list batch) (sl sl' : Meter) (s s' : St) :
  train_loop bs sl s = (s', Ok sl') -> Forall well_formed bs.
Proof.
  revert sl s. induction bs as [|b bs IH]; intros sl s; simpl;
    [constructor|].
  run. destruct (train_step b sl s) as [s1 [sl1|e]] eqn:E1; [|discriminate].
  intros E2. constructor; eauto using train_step_well_formed.
Qed.

Lemma train_one_epoch_run (s : St) :
  train_one_epoch s =
  train_loop (train_loader (self s)) meter_new
    (mkSt (set_model (model_set_mode TrainMode (model (self s))) (self s))
       (world s)).
Proof. reflexivity. Qed.

(** X8.  What [train_one_epoch] needs of its batches.  It returns only if
    every batch of the training loader has at least one image and every
    target of every batch has its ['boxes'].  When the first batch has no
    image it raises [RuntimeError] ([torch.stack] of an empty list), and
    when the first batch has images and a target without ['boxes'] it
    raises [KeyError]; in both cases the model has been switched to
    training mode and nothing else has changed: no call to the optimizer
    or the model was made.  On an empty loader it returns the fresh meter,
    again with the switch to training mode as its only effect. *)
Theorem training_pass_batches :
  (forall (s s' : St) (sl : Meter),
     train_one_epoch s = (s', Ok sl) ->
     Forall well_formed (train_loader (self s))) /\
  (forall (s : St) (b : batch) (rest : list batch),
     train_loader (self s) = b :: rest ->
     let s' := mkSt (set_model (model_set_mode TrainMode (model (self s)))
                       (self s)) (world s) in
     (b_images b = [] -> train_one_epoch s = (s', Raise RuntimeError)) /\
     (b_images b <> [] ->
      ~ Forall (fun t : Target => is_Some (t !! "boxes"%string)) (b_targets b)
      -> train_one_epoch s = (s', Raise KeyError))) /\
  (forall s : St,
     train_loader (self s) = [] ->
     train_one_epoch s =
     (mkSt (set_model (model_set_mode TrainMode (model (self s))) (self s))
        (world s), Ok meter_new)).
Proof.
  split; [|split].
  - intros s s' sl E. rewrite train_one_epoch_run in E.
    eapply train_loop_well_formed. exact E.
  - intros s b rest El s'. rewrite train_one_epoch_run, El. simpl. run.
    split.
    + intros Hi. now rewrite (train_step_no_images _ _ _ Hi).
    + intros Hi Hb. now rewrite (train_step_no_boxes _ _ _ Hi Hb).
  - intros s El. rewrite train_one_epoch_run, El. reflexivity.
Qed.

Lemma count_calls_emit (k : Call -> bool) (f : Fitter) (w : World) (c : Call) :
  count_calls k (mkSt f (emit_call c w)) =
  (count_calls k (mkSt f w) + if k c then 1 else 0)%nat.
Proof.
  unfold count_calls. simpl. rewrite List.filter_app, length_app. simpl.
  destruct (k c); reflexivity.
Qed.

Ltac counted n m :=
  exists n, m; rewrite ?count_calls_emit; unfold count_calls; simpl;
  repeat split; intros; try discriminate; try lia.

Lemma train_step_counts (b : batch) (sl : Meter) (s : St) :
  exists n m : nat,
    count_calls is_zero_grad (train_step b sl s).1 =
      (count_calls is_zero_grad s + n)%nat /\
    count_calls is_forward_train (train_step b sl s).1 =
      (count_calls is_forward_train s + n)%nat /\
    count_calls is_optimizer_step (train_step b sl s).1 =
      (count_calls is_optimizer_step s + m)%nat /\
    (m <= n)%nat /\ (n <= 1)%nat /\
    (forall sl', (train_step b sl s).2 = Ok sl' -> n = 1%nat /\ m = 1%nat).
Proof.
  destruct s as [f w]. unfold train_step. run. simpl.
  destruct (torch_stack (b_images b)) as [stacked|]; simpl;
    [|counted 0%nat 0%nat].
  destruct (boxes_to_float _) as [targets|]; simpl; [|counted 0%nat 0%nat].
  destruct (forward_train _ _ _) as [params loss_dict]. simpl.
  destruct (py_sum _) as [loss|]; simpl; [|counted 1%nat 0%nat].
  destruct (optimizer_step _ _ _) as [opt params']. simpl.
  destruct (do_scheduler f) eqn:Ed; simpl.
  - destruct (scheduler_step _ _) as [sch opt']. simpl.
    destruct (head (param_groups opt')); simpl; counted 1%nat 1%nat.
  - destruct (head (param_groups opt)); simpl; counted 1%nat 1%nat.
Qed.

Lemma train_loop_counts (bs : list batch) (sl : Meter) (s : St) :
  exists n m : nat,
    count_calls is_zero_grad (train_loop bs sl s).1 =
      (count_calls is_zero_grad s + n)%nat /\
    count_calls is_forward_train (train_loop bs sl s).1 =
      (count_calls is_forward_train s + n)%nat /\
    count_calls is_optimizer_step (train_loop bs sl s).1 =
      (count_calls is_optimizer_step s + m)%nat /\
    (m <= n)%nat /\ (n <= m + 1)%nat /\ (n <= length bs)%nat /\
    (forall sl', (train_loop bs sl s).2 = Ok sl' ->
                 n = length bs /\ m = length bs).
Proof.
  revert sl s. induction bs as [|b bs IH]; intros sl s; simpl.
  - exists 0%nat, 0%nat. repeat split; lia.
  - run. destruct (train_step_counts b sl s)
      as (n1 & m1 & Z1 & F1 & O1 & L1 & U1 & K1).
    destruct (train_step b sl s) as [s1 [sl1|e]]; simpl in *.
    + destruct (K1 _ eq_refl) as [-> ->].
      destruct (IH sl1 s1) as (n2 & m2 & Z2 & F2 & O2 & L2 & U2 & B2 & K2).
      exists (S n2), (S m2). rewrite Z2, F2, O2, Z1, F1, O1.
      repeat split; try lia;
        match goal with
        | E : _ = Ok _ |- _ => destruct (K2 _ E); lia
        end.
    + exists n1, m1. repeat split; try assumption; try lia; discriminate.
Qed.

(** X9.  The framework calls of [train_one_epoch], whether it returns or
    raises part-way: every forward pass in training mode comes with its own
    [optimizer.zero_grad()], there are at most as many [optimizer.step()]
    as forward passes and at most one forward pass is left without its
    step, and no more passes are made than the loader has batches.  When
    it returns there was exactly one [zero_grad], one forward pass and one
    [optimizer.step()] per batch, whatever [do_scheduler]. *)
Theorem training_pass_calls (s : St) :
  exists n m : nat,
    count_calls is_zero_grad (train_one_epoch s).1 =
      (count_calls is_zero_grad s + n)%nat /\
    count_calls is_forward_train (train_one_epoch s).1 =
      (count_calls is_forward_train s + n)%nat /\
    count_calls is_optimizer_step (train_one_epoch s).1 =
      (count_calls is_optimizer_step s + m)%nat /\
    (m <= n)%nat /\ (n <= m + 1)%nat /\
    (n <= length (train_loader (self s)))%nat /\
    (forall sl, (train_one_epoch s).2 = Ok sl ->
                n = length (train_loader (self s)) /\
                m = length (train_loader (self s))).
Proof.
  rewrite train_one_epoch_run.
  apply (train_loop_counts (train_loader (self s)) meter_new
           (mkSt (set_model (model_set_mode TrainMode (model (self s)))
                    (self s)) (world s))).
Qed.


(** ** The constructor *)









(** ** The epochs of a run *)

Lemma fit_history_length (epochs : list Z) (s : St) :
  (length (fit_history epochs s) <= length epochs)%nat.
Proof.
  revert s. induction epochs as [|e es IH]; intros s; simpl; [lia|].
  destruct (fit_iteration e s) as [s' [[]|]]; simpl; try lia.
  specialize (IH s'). lia.
Qed.

Lemma fit_noop (s : St) :
  SOLVER_MAX_EPOCHS (config (self s)) <= epoch (self s) ->
  fit s = (s, Ok tt).
Proof.
  intros Hle. unfold fit, py_range. run.
  replace (Z.to_nat _) with 0%nat by lia. reflexivity.
Qed.

Lemma fit_last_turn (s0 : St) (ep : Z) (s : St) :
  last (fit_turns s0) = Some (ep, s) ->
  exists i, fit_turns s0 !! i = Some (ep, s) /\ fit_turns s0 !! S i = None.
Proof.
  intros El. rewrite last_lookup in El.
  exists (Nat.pred (length (fit_turns s0))). split; [exact El|].
  apply lookup_ge_None. apply lookup_lt_Some in El. lia.
Qed.

Lemma fit_end (s0 : St) (ep : Z) (s : St) :
  last (fit_turns s0) = Some (ep, s) ->
  (fit s0).1 = (fit_iteration ep s).1 /\
  (fit s0).2 = match (fit_iteration ep s).2 with
               | Ok _ => Ok tt
               | Raise e => Raise e
               end.
Proof.
  intros El. rewrite fit_run, El.
  destruct (fit_iteration ep s) as [se [c|e]]; split; reflexivity.
Qed.

Lemma fit_iteration_epoch (ep : Z) (s : St) :
  fixed (self (fit_iteration ep s).1) = fixed (self s) /\
  epoch (self (fit_iteration ep s).1) =
    match (fit_iteration ep s).2 with
    | Ok Continue => epoch (self s) + 1
    | _ => epoch (self s)
    end.
Proof.
  destruct (fit_iteration_outcome ep s) as [st e|st sv se r c];
    rewrite Hiter; simpl.
  - destruct Hquiet as (B & _). split; [now apply bookkeeping_fixed|].
    now destruct (bookkeeping_fields _ _ B) as (_ & _ & E & _).
  - destruct Hfacts as (F & _ & _ & _ & _ & E). split; assumption.
Qed.

Lemma fit_fixed (s0 : St) : fixed (self (fit s0).1) = fixed (self s0).
Proof.
  apply (fit_inv (fun s => fixed (self s) = fixed (self s0)));
    [|reflexivity].
  intros ep s F. destruct (fit_iteration_epoch ep s) as [F' _]. congruence.
Qed.

(** X11.  The epochs [fit] runs.  With [self.epoch] at or past
    [MAX_EPOCHS] it returns at once and changes nothing.  Otherwise its
    turns are for the consecutive epochs from [self.epoch] on, each below
    [MAX_EPOCHS], and at the top of every turn [self.epoch] is the loop's
    epoch; it takes at most [MAX_EPOCHS - self.epoch] turns.  Whatever its
    outcome, [self.epoch] does not go down and ends at most at
    [MAX_EPOCHS] (or where it was, if that is higher), and the
    configuration, the loaders, the paths, the device and the patience are
    those it started with. *)
Theorem fit_epochs (s0 : St) :
  (SOLVER_MAX_EPOCHS (config (self s0)) <= epoch (self s0) ->
   fit s0 = (s0, Ok tt)) /\
  (forall (i : nat) (ep : Z) (s : St),
     fit_turns s0 !! i = Some (ep, s) ->
     ep = epoch (self s0) + Z.of_nat i /\
     epoch (self s) = ep /\
     ep < SOLVER_MAX_EPOCHS (config (self s0))) /\
  (length (fit_turns s0) <=
   Z.to_nat (SOLVER_MAX_EPOCHS (config (self s0)) - epoch (self s0)))%nat /\
  epoch (self s0) <= epoch (self (fit s0).1) /\
  epoch (self (fit s0).1) <=
    Z.max (epoch (self s0)) (SOLVER_MAX_EPOCHS (config (self s0))) /\
  fixed (self (fit s0).1) = fixed (self s0).
Proof.
  split; [apply fit_noop|]. split; [|split].
  - intros i ep s Ht. destruct (fit_turns_ep _ _ _ _ Ht) as [E L].
    destruct (fit_turns_fixed _ _ _ _ Ht) as [_ E']. auto.
  - unfold fit_turns. etransitivity; [apply fit_history_length|].
    unfold py_range. rewrite length_map, length_seq. lia.
  - assert (epoch (self s0) <= epoch (self (fit s0).1) <=
            Z.max (epoch (self s0)) (SOLVER_MAX_EPOCHS (config (self s0))))
      as [L U]; [|auto using fit_fixed].
    destruct (last (fit_turns s0)) as [[ep s]|] eqn:El.
    + destruct (fit_end _ _ _ El) as [-> _].
      destruct (fit_last_turn _ _ _ El) as (i & Ht & _).
      destruct (fit_turns_ep _ _ _ _ Ht) as [E Lt].
      destruct (fit_turns_fixed _ _ _ _ Ht) as [_ E'].
      destruct (fit_iteration_epoch ep s) as [_ ->].
      destruct ((fit_iteration ep s).2) as [[]|]; lia.
    + rewrite fit_run, El. simpl. lia.
Qed.

(** X12.  Calling [fit] again after a [fit] that returned.  Either the
    first call ended on [break]: then [self.epoch] is still the epoch of
    the turn that broke, the early-stop counter is still above the
    patience, and the second call starts with a turn for that same epoch.
    Or it ran out of epochs: then [self.epoch] is at or past [MAX_EPOCHS]
    and the second call returns at once, changing nothing. *)
Theorem fit_after_fit (s0 sf : St) :
  fit s0 = (sf, Ok tt) ->
  (exists (i : nat) (ep : Z) (s : St),
     fit_turns s0 !! i = Some (ep, s) /\
     fit_iteration ep s = (sf, Ok Break) /\
     epoch (self sf) = ep /\
     early_stop_patience (self sf) < early_stop_epochs (self sf) /\
     fit_turns sf !! 0%nat = Some (ep, sf)) \/
  (SOLVER_MAX_EPOCHS (config (self sf)) <= epoch (self sf) /\
   fit sf = (sf, Ok tt)).
Proof.
  intros Hfit.
  destruct (last (fit_turns s0)) as [[ep s]|] eqn:El.
  - destruct (fit_last_turn _ _ _ El) as (i & Ht & Hn).
    destruct (fit_turns_ep _ _ _ _ Ht) as [_ Lt].
    destruct (fit_turns_fixed _ _ _ _ Ht) as [Fx E'].
    rewrite (fit_turns_S _ _ _ _ Ht) in Hn.
    rewrite fit_run, El in Hfit.
    destruct (fit_iteration_outcome ep s) as [st e|st sv se r c];
      rewrite Hiter in Hfit, Hn; [discriminate|].
    destruct c as [c|e]; [|discriminate]. injection Hfit as ->.
    destruct Hfacts as (F & _ & _ & _ & Hc & He).
    assert (config (self sf) = config (self s0) /\
            early_stop_patience (self sf) = early_stop_patience (self s))
      as [Ec Ep] by (unfold fixed in *; split; congruence).
    destruct c.
    + right. assert (SOLVER_MAX_EPOCHS (config (self sf)) <= epoch (self sf))
        as Hle.
      { rewrite Ec, He. case_bool_decide; [discriminate | lia]. }
      split; [exact Hle | now apply fit_noop].
    + left. exists i, ep, s. split; [exact Ht|]. split; [exact Hiter|].
      split; [congruence|]. split.
      * rewrite Ep.
        destruct (early_stop_patience (self s) <? early_stop_epochs (self sf))
          eqn:E; [now apply Z.ltb_lt|].
        destruct (SOLVER_CLEAR_OUTPUT (config (self s)) =? 0); discriminate.
      * rewrite fit_turns_0, Ec, He, E'.
        case_bool_decide; [reflexivity | lia].
  - apply last_None in El. rewrite fit_run, El in Hfit.
    injection Hfit as <-. right.
    pose proof (fit_turns_0 s0) as T0. rewrite El in T0.
    case_bool_decide; [discriminate|].
    split; [lia | apply fit_noop; lia].
Qed.

(** X13.  With [CLEAR_OUTPUT = 0] line 93 divides by zero.  A [fit] with
    an epoch to run then takes exactly one turn and never advances
    [self.epoch]; it returns only by breaking on the early stop in that
    turn.  When the early-stop counter is non-negative and below the
    patience, so that one more epoch cannot break, [fit] raises; and if
    the training phase of the turn returned, what it raises is
    [ZeroDivisionError], after the last checkpoint has been written. *)
Theorem clear_output_zero (s0 : St) :
  SOLVER_CLEAR_OUTPUT (config (self s0)) = 0 ->
  epoch (self s0) < SOLVER_MAX_EPOCHS (config (self s0)) ->
  fit_turns s0 = [(epoch (self s0), s0)] /\
  epoch (self (fit s0).1) = epoch (self s0) /\
  (forall sf : St,
     fit s0 = (sf, Ok tt) ->
     early_stop_patience (self s0) < early_stop_epochs (self sf)) /\
  (0 <= early_stop_epochs (self s0) < early_stop_patience (self s0) ->
   (exists e, (fit s0).2 = Raise e) /\
   forall st : St,
     fit_train (epoch (self s0)) s0 = (st, Ok tt) ->
     (fit s0).2 = Raise ZeroDivisionError /\
     exists later,
       writes (world (fit s0).1) =
       writes (world s0) ++
       (last_checkpoint (self s0), FCheckpoint (checkpoint_of (self st)))
       :: later).
Proof.
  intros Hz Hlt.
  assert (fit_turns s0 !! 0%nat = Some (epoch (self s0), s0)) as T0.
  { rewrite fit_turns_0. case_bool_decide; [reflexivity | lia]. }
  pose proof (fit_turns_S _ _ _ _ T0) as T1.
  apply Z.eqb_eq in Hz.
  assert (last (fit_turns s0) = Some (epoch (self s0), s0) ->
          fit_turns s0 = [(epoch (self s0), s0)]) as Hone.
  { intros _. destruct (fit_turns s0) as [|p [|q l]]; try discriminate.
    - now injection T0 as ->.
    - exfalso. revert T1. simpl.
      destruct (fit_iteration_outcome (epoch (self s0)) s0)
        as [st e|st sv se r c]; rewrite Hiter; [discriminate|].
      destruct Hfacts as (_ & _ & _ & _ & Hc & _). rewrite Hz in Hc.
      subst c. destruct (_ <? _); discriminate. }
  destruct (fit_iteration_outcome (epoch (self s0)) s0)
    as [st e|st sv se r c]; rewrite Hiter in T1.
  - pose proof (lookup_last_here _ _ _ T0 T1) as El.
    destruct (fit_end _ _ _ El) as [E1 E2]. rewrite Hiter in E1, E2.
    simpl in E1, E2. rewrite E1, E2.
    destruct Hquiet as (B & _).
    destruct (bookkeeping_fields _ _ B) as (_ & _ & E & _).
    split; [auto|]. split; [exact E|]. split.
    + intros sf Hf. rewrite (surjective_pairing (fit s0)), E2 in Hf.
      discriminate.
    + intros _. split; [eauto|]. intros st' Htr. congruence.
  - destruct Hfacts as (F & _ & _ & Hk & Hc & He). rewrite Hz in Hc.
    assert (fit_turns s0 !! 1%nat = None) as T1'.
    { rewrite T1. subst c. destruct (_ <? _); reflexivity. }
    pose proof (lookup_last_here _ _ _ T0 T1') as El.
    destruct (fit_end _ _ _ El) as [E1 E2]. rewrite Hiter in E1, E2.
    simpl in E1, E2. rewrite E1.
    split; [auto|]. split; [|split].
    + rewrite He. subst c. destruct (_ <? _); reflexivity.
    + intros sf Hf. rewrite (surjective_pairing (fit s0)), E1, E2 in Hf.
      subst c.
      destruct (early_stop_patience (self s0) <? early_stop_epochs (self se))
        eqn:E; [|discriminate].
      injection Hf as <-. now apply Z.ltb_lt.
    + intros [K0 K1].
      assert ((early_stop_patience (self s0) <? early_stop_epochs (self se))
              = false) as Hno.
      { apply Z.ltb_ge. rewrite Hk. destruct (PyFloat.lt _ _); lia. }
      rewrite Hno in Hc. subst c. rewrite E2.
      split; [eauto|]. intros st' Htr'. split; [reflexivity|].
      assert (st' = st) as -> by congruence.
      eexists. rewrite Hbest, Hlast, <- app_assoc. reflexivity.
Qed.

(** X14.  A validation score that is equal to the best score as floats
    compare -- the same number, or 0.0 against -0.0 -- or is NaN, or meets
    a best score that is NaN, is neither an improvement nor a strike: the
    comparisons of lines 80 and 184 are both false.  The turn leaves the
    best score and threshold as they were, writes the last checkpoint and
    no other checkpoint, model or predictions file, and resets the
    early-stop counter to zero, so with a non-negative patience the turn
    does not break. *)
Theorem tie_or_nan_score (s0 : St) (i : nat) (ep : Z) (s st sv : St)
    (r : float * float) :
  fit_turns s0 !! i = Some (ep, s) ->
  fit_train ep s = (st, Ok tt) ->
  fit_validate st = (sv, Ok r) ->
  PyFloat.eq r.2 (best_final_score (self s)) = true
  \/ PrimFloat.is_nan r.2 = true
  \/ PrimFloat.is_nan (best_final_score (self s)) = true ->
  let se := (fit_iteration ep s).1 in
  PyFloat.gt r.2 (best_final_score (self s)) = false /\
  PyFloat.lt r.2 (best_final_score (self s)) = false /\
  best_final_score (self se) = best_final_score (self s) /\
  best_score_threshold (self se) = best_score_threshold (self s) /\
  early_stop_epochs (self se) = 0 /\
  writes (world se) =
    writes (world s) ++
    [(last_checkpoint (self s0), FCheckpoint (checkpoint_of (self st)))] /\
  (0 <= early_stop_patience (self s0) ->
   (fit_iteration ep s).2 <> Ok Break).
Proof.
  intros Ht Htr Hv Hcase se. subst se.
  destruct (turn_outcome_at _ _ _ _ _ Htr Hv)
    as (se & c & Hit & _ & Q & _ & Bs & Wv & D & We).
  destruct (fit_turns_fixed _ _ _ _ Ht) as [Fx _].
  rewrite Hit. simpl.
  destruct D as (_ & D2 & D3 & D4 & D5 & _).
  assert (PyFloat.gt r.2 (best_final_score (self s)) = false /\
          PyFloat.lt r.2 (best_final_score (self s)) = false) as [G L].
  { unfold PyFloat.gt. destruct Hcase as [He|[Hn|Hn]].
    - apply PyOrder.eq_not_lt in He as [L1 L2]. split; assumption.
    - split; [now apply PyOrder.lt_nan_r | now apply PyOrder.lt_nan_l].
    - split; [now apply PyOrder.lt_nan_l | now apply PyOrder.lt_nan_r]. }
  rewrite G in *. rewrite D2, L in D4. rewrite D4 in D5.
  destruct Q as (_ & W & _).
  assert (base_dir (self s) = base_dir (self s0) /\
          early_stop_patience (self s) = early_stop_patience (self s0))
    as [Eb Ep] by (unfold fixed in Fx; split; congruence).
  split; [reflexivity|]. split; [exact L|].
  split; [exact D2|]. split; [exact D3|]. split; [exact D4|]. split.
  - rewrite We, Wv, W, app_nil_r. unfold last_checkpoint. now rewrite Eb.
  - intros Hp. rewrite Ep in D5.
    replace (early_stop_patience (self s0) <? 0) with false in D5
      by (symmetry; apply Z.ltb_ge; lia).
    intros ->. destruct (_ =? _) in D5; discriminate.
Qed.


(** ** The best files along a run *)

Lemma iteration_disk (ep : Z) (s st sv : St) (r : float * float) :
  fit_train ep s = (st, Ok tt) ->
  fit_validate st = (sv, Ok r) ->
  (PyFloat.gt r.2 (best_final_score (self s)) = true ->
   disk (world (fit_iteration ep s).1) !! best_checkpoint (self s) =
     Some (FCheckpoint (checkpoint_of (best_updated r (self sv)))) /\
   disk (world (fit_iteration ep s).1) !! best_model (self s) =
     Some (FSnapshot (snapshot_of (best_updated r (self sv)))) /\
   disk (world (fit_iteration ep s).1) !! predictions_csv (self s) =
     Some (FCsv (all_predictions (self sv))) /\
   r = evaluate (all_predictions (self sv))) /\
  (PyFloat.gt r.2 (best_final_score (self s)) = false ->
   forall p, p <> last_checkpoint (self s) ->
             disk (world (fit_iteration ep s).1) !! p = disk (world s) !! p).
Proof.
  intros Htr Hv.
  destruct (turn_outcome_at _ _ _ _ _ Htr Hv)
    as (se' & c & Hit & _ & Q & Hr & Bs & Wv & _ & We).
  destruct journaled_methods as (_ & J & _).
  destruct (J ep s) as (_ & new & W & K).
  rewrite Hit in *. simpl in *.
  destruct Q as (_ & Wt & _).
  assert (base_dir (self sv) = base_dir (self s)) as Ebv
    by (unfold bookkeeping in Bs; congruence).
  rewrite We, Wv, Wt, <- app_assoc in W. apply app_inv_head in W.
  subst new. rewrite K. clear K.
  destruct (artifact_paths_distinct (self s)) as (N1 & N2 & N3 & N4 & N5 & N6).
  unfold best_artifacts, last_checkpoint, best_checkpoint, best_model,
    predictions_csv in *.
  rewrite Ebv.
  destruct (PyFloat.gt r.2 (best_final_score (self s))); simpl.
  - split; [|discriminate]. intros _. split; [|split; [|split]].
    + rewrite !lookup_insert_ne by congruence. apply lookup_insert_eq.
    + rewrite lookup_insert_ne by congruence. apply lookup_insert_eq.
    + apply lookup_insert_eq.
    + exact Hr.
  - split; [discriminate|]. intros _ p Hp. now apply lookup_insert_ne.
Qed.

Lemma improving_turn_in_step (ep : Z) (s st sv : St) (r : float * float) :
  fit_train ep s = (st, Ok tt) ->
  fit_validate st = (sv, Ok r) ->
  PyFloat.gt r.2 (best_final_score (self s)) = true ->
  best_files_in_step (fit_iteration ep s).1.
Proof.
  intros Htr Hv Himp.
  destruct (iteration_disk _ _ _ _ _ Htr Hv) as [D _].
  destruct (D Himp) as (D1 & D2 & D3 & Hr).
  destruct (turn_outcome_at _ _ _ _ _ Htr Hv)
    as (se & c & Hit & _ & _ & _ & _ & _ & F & _).
  rewrite Hit in *. simpl in *.
  destruct F as (Fx & B & T & _). rewrite Himp in B, T.
  assert (base_dir (self se) = base_dir (self s)) as Eb
    by (unfold fixed in Fx; congruence).
  unfold best_files_in_step, best_checkpoint, best_model, predictions_csv
    in *.
  rewrite Eb, B, T. eexists _, _, _.
  split; [exact D1|]. split; [exact D2|]. split; [exact D3|]. simpl.
  repeat split. rewrite <- Hr. now destruct r.
Qed.

Lemma turn_keeps_in_step (ep : Z) (s : St) :
  best_files_in_step s -> best_files_in_step (fit_iteration ep s).1.
Proof.
  intros Hs.
  destruct (fit_iteration_outcome ep s) as [st e|st sv se r c].
  - rewrite Hiter. simpl. destruct Hquiet as (B & _ & D).
    destruct (bookkeeping_fields _ _ B) as (_ & _ & _ & _ & K5 & K6).
    assert (base_dir (self st) = base_dir (self s)) as Eb
      by (unfold bookkeeping in B; congruence).
    unfold best_files_in_step, best_checkpoint, best_model, predictions_csv
      in *.
    rewrite Eb, D, K5, K6. exact Hs.
  - destruct (PyFloat.gt r.2 (best_final_score (self s))) eqn:Himp.
    + now apply (improving_turn_in_step ep s st sv r).
    + destruct (iteration_disk _ _ _ _ _ Htrain Hval) as [_ D].
      specialize (D Himp). rewrite Hiter in *. simpl in *.
      destruct Hfacts as (Fx & B & T & _). rewrite Himp in B, T.
      assert (base_dir (self se) = base_dir (self s)) as Eb
        by (unfold fixed in Fx; congruence).
      destruct (artifact_paths_distinct (self s)) as (N1 & N2 & N3 & _).
      unfold best_files_in_step, last_checkpoint, best_checkpoint,
        best_model, predictions_csv in *.
      rewrite Eb, B, T, !D by congruence. exact Hs.
Qed.

Lemma later_turns_in_step (s0 : St) (i : nat) (ep : Z) (s : St) :
  fit_turns s0 !! i = Some (ep, s) ->
  best_files_in_step (fit_iteration ep s).1 ->
  forall (k : nat) epj sj,
    fit_turns s0 !! (S i + k)%nat = Some (epj, sj) -> best_files_in_step sj.
Proof.
  intros Ht Hse. induction k as [|k IH]; intros epj sj Hj.
  - rewrite Nat.add_0_r in Hj.
    destruct (fit_turns_pred _ _ _ _ Hj) as (ep' & s' & Hp & Hit & _).
    rewrite Ht in Hp. injection Hp as <- <-. now rewrite Hit in Hse.
  - rewrite Nat.add_succ_r in Hj.
    destruct (fit_turns_pred _ _ _ _ Hj) as (ep' & s' & Hp & Hit & _).
    pose proof (turn_keeps_in_step ep' s' (IH _ _ Hp)) as Hk.
    now rewrite Hit in Hk.
Qed.

(** X15.  The best checkpoint, the best model and the predictions file
    stay in step with the fitter.  A turn of [fit] whose validation score
    is strictly above the best leaves the three files on disk recording
    [self.best_final_score] and [self.best_score_threshold] as they now
    are, the two dictionaries with the same parameters and the predictions
    file with predictions that [evaluate] gives this threshold and score
    for.  Every turn, whatever its outcome, keeps them so.  Hence in a run
    they are so at the top of every turn after an improving one and when
    [fit] ends, and throughout a run that started with them so. *)
Theorem best_files_stay_in_step :
  (forall (ep : Z) (s st sv : St) (r : float * float),
     fit_train ep s = (st, Ok tt) ->
     fit_validate st = (sv, Ok r) ->
     PyFloat.gt r.2 (best_final_score (self s)) = true ->
     best_files_in_step (fit_iteration ep s).1) /\
  (forall (ep : Z) (s : St),
     best_files_in_step s -> best_files_in_step (fit_iteration ep s).1) /\
  (forall s0 : St,
     best_files_in_step s0 ->
     (forall (i : nat) (ep : Z) (s : St),
        fit_turns s0 !! i = Some (ep, s) -> best_files_in_step s) /\
     best_files_in_step (fit s0).1) /\
  (forall (s0 : St) (i : nat) (ep : Z) (s st sv : St) (r : float * float),
     fit_turns s0 !! i = Some (ep, s) ->
     fit_train ep s = (st, Ok tt) ->
     fit_validate st = (sv, Ok r) ->
     PyFloat.gt r.2 (best_final_score (self s)) = true ->
     (forall (j : nat) (epj : Z) (sj : St),
        (i < j)%nat -> fit_turns s0 !! j = Some (epj, sj) ->
        best_files_in_step sj) /\
     best_files_in_step (fit s0).1).
Proof.
  split; [exact improving_turn_in_step|].
  split; [exact turn_keeps_in_step|]. split.
  - intros s0 H0. split.
    + apply (fit_turns_ind (fun _ s => best_files_in_step s)); [exact H0|].
      intros i ep s se _ Hs Hit.
      pose proof (turn_keeps_in_step ep s Hs) as Hk. now rewrite Hit in Hk.
    + apply fit_inv; [|exact H0]. intros ep s. apply turn_keeps_in_step.
  - intros s0 i ep s st sv r Ht Htr Hv Himp.
    pose proof (improving_turn_in_step _ _ _ _ _ Htr Hv Himp) as Hse.
    assert (forall (j : nat) (epj : Z) (sj : St),
              (i < j)%nat -> fit_turns s0 !! j = Some (epj, sj) ->
              best_files_in_step sj) as Hlater.
    { intros j epj sj Hij Hj.
      apply (later_turns_in_step _ _ _ _ Ht Hse (j - S i) epj sj).
      now replace (S i + (j - S i))%nat with j by lia. }
    split; [exact Hlater|].
    rewrite fit_run.
    destruct (last (fit_turns s0)) as [[epl sl]|] eqn:El.
    + rewrite last_lookup in El. apply lookup_lt_Some in Ht as Li.
      destruct (decide (Nat.pred (length (fit_turns s0)) = i)) as [E|N].
      * rewrite E, Ht in El. injection El as <- <-.
        destruct (fit_iteration ep s) as [se [c|e]]; exact Hse.
      * assert (best_files_in_step sl) as Hl
          by (apply (Hlater (Nat.pred (length (fit_turns s0))) epl sl);
              [lia | exact El]).
        pose proof (turn_keeps_in_step epl sl Hl) as Hk.
        destruct (fit_iteration epl sl) as [se [c|e]]; exact Hk.
    + apply last_None in El. rewrite El in Ht. discriminate.
Qed.

(** ** Clearing the display *)

#[local] Instance same_clears_refl : Reflexive same_clears.
Proof. intros s. reflexivity. Qed.

#[local] Instance same_clears_trans : Transitive same_clears.
Proof. intros a b c E1 E2. unfold same_clears in *. congruence. Qed.

Ltac same_clears_leaf :=
  first
    [ apply stable_modify_self; intros ? ?; reflexivity
    | apply stable_modify_world; intros ? ?; unfold same_clears;
      first [ reflexivity
            | rewrite count_calls_emit; simpl; apply Nat.add_0_r ] ].

Lemma same_clears_phases :
  (forall ep, stable same_clears (fit_train ep)) /\
  stable same_clears fit_validate /\
  (forall r, stable same_clears (fit_select r)) /\
  (forall x, stable same_clears (early_stop x)).
Proof.
  repeat apply conj; intros; open_methods; unfold log;
    stable_walk same_clears_leaf.
Qed.

Lemma fit_advance_clears (s : St) :
  count_calls is_output_clear (fit_advance s).1 =
  (count_calls is_output_clear s +
   match (fit_advance s).2 with
   | Ok Continue =>
       if (epoch (self s) `mod` SOLVER_CLEAR_OUTPUT (config (self s)) =? 0)%Z
       then 1 else 0
   | _ => 0
   end)%nat.
Proof.
  destruct s as [f w]. unfold fit_advance, log, py_mod. run. simpl.
  destruct (early_stop_patience f <? early_stop_epochs f); simpl.
  - destruct (VERBOSE (config f)); simpl; unfold count_calls; simpl; lia.
  - destruct (SOLVER_CLEAR_OUTPUT (config f) =? 0); simpl;
      [unfold count_calls; simpl; lia|].
    destruct (epoch f `mod` SOLVER_CLEAR_OUTPUT (config f) =? 0); simpl;
      rewrite ?count_calls_emit; unfold count_calls; simpl; lia.
Qed.

(** X16.  [output.clear()] is called at most once per turn of [fit], as
    the last thing before [self.epoch] is advanced: exactly when the turn
    goes on to the next epoch and the epoch just run is a multiple of
    [CLEAR_OUTPUT].  A turn that breaks or raises clears nothing. *)
Theorem output_clear_calls (ep : Z) (s : St) :
  count_calls is_output_clear (fit_iteration ep s).1 =
  (count_calls is_output_clear s +
   match (fit_iteration ep s).2 with
   | Ok Continue =>
       if (epoch (self s) `mod` SOLVER_CLEAR_OUTPUT (config (self s)) =? 0)%Z
       then 1 else 0
   | _ => 0
   end)%nat.
Proof.
  destruct same_clears_phases as (C1 & C2 & C3 & C4).
  rewrite fit_iteration_run.
  pose proof (C1 ep s) as Ct. pose proof (fit_train_quiet ep s) as (Bt & _).
  destruct (fit_train ep s) as [st [[]|e]]; simpl in Ct, Bt;
    [|simpl; rewrite Ct; lia].
  pose proof (C2 st) as Cv.
  destruct (fit_validate_spec st) as (sv & r & Ev & _ & Bv & _).
  rewrite Ev in *. simpl in Cv. rewrite fit_decide_run.
  pose proof (C3 r sv) as Cs.
  destruct (fit_select_run r sv) as (ss & Es & Bss & _).
  rewrite Es in *. simpl in Cs. rewrite early_stop_run.
  set (sc := mkSt _ _).
  assert (count_calls is_output_clear sc = count_calls is_output_clear s)
    as Cc by (unfold same_clears in *; subst sc; unfold count_calls in *;
              simpl; congruence).
  assert (epoch (self sc) = epoch (self s) /\
          config (self sc) = config (self s)) as [Ee Ec].
  { destruct (bookkeeping_if _ _ _ _ Bss) as (_ & _ & S3 & S4 & _).
    destruct (bookkeeping_fields _ _ Bv) as (_ & _ & V3 & V4 & _).
    destruct (bookkeeping_fields _ _ Bt) as (_ & _ & T3 & T4 & _).
    subst sc. simpl. rewrite S3, S4.
    destruct (PyFloat.gt _ _); simpl; split; congruence. }
  rewrite fit_advance_clears, Cc, Ee, Ec. reflexivity.
Qed.

(** ** The early-stop counter along a run *)

(** X17.  From the second turn of a [fit] on, the early-stop counter at the
    top of a turn is at most the patience, since the turn before went on;
    and when the counter is non-negative to begin with it is non-negative
    at the top of every turn and it grows by at most one per turn. *)
Theorem early_stop_counter_bounds (s0 : St) :
  (forall (i : nat) (ep : Z) (s : St),
     fit_turns s0 !! S i = Some (ep, s) ->
     early_stop_epochs (self s) <= early_stop_patience (self s0)) /\
  (0 <= early_stop_epochs (self s0) ->
   forall (i : nat) (ep : Z) (s : St),
     fit_turns s0 !! i = Some (ep, s) ->
     0 <= early_stop_epochs (self s) <=
       early_stop_epochs (self s0) + Z.of_nat i).
Proof.
  assert (forall ep s se,
            fit_iteration ep s = (se, Ok Continue) ->
            early_stop_epochs (self se) <= early_stop_patience (self s) /\
            (early_stop_epochs (self se) = 0 \/
             early_stop_epochs (self se) = early_stop_epochs (self s) + 1))
    as Hstep.
  { intros ep s se Hit.
    destruct (fit_iteration_continue _ _ _ Hit)
      as (r & _ & _ & _ & Hk & Hc & _).
    split.
    - destruct (early_stop_patience (self s) <? early_stop_epochs (self se))
        eqn:E; [discriminate|]. now apply Z.ltb_ge.
    - rewrite Hk. destruct (PyFloat.lt _ _); auto. }
  split.
  - intros i ep s Ht.
    destruct (fit_turns_pred _ _ _ _ Ht) as (ep' & s' & Ht' & Hit & _).
    destruct (fit_turns_fixed _ _ _ _ Ht') as [Fx _].
    destruct (Hstep _ _ _ Hit) as [Hle _].
    unfold fixed in Fx. replace (early_stop_patience (self s0))
      with (early_stop_patience (self s')) by congruence.
    exact Hle.
  - intros H0.
    apply (fit_turns_ind
             (fun i s => 0 <= early_stop_epochs (self s) <=
                         early_stop_epochs (self s0) + Z.of_nat i)).
    + lia.
    + intros i ep s se _ IH Hit.
      destruct (Hstep _ _ _ Hit) as [_ [E|E]]; lia.
Qed.

(** ** When the training phase fails *)

Lemma fit_warmup_frame (ep : Z) (s : St) :
  world (fit_warmup ep s).1 = world s /\
  bookkeeping (self (fit_warmup ep s).1) = bookkeeping (self s).
Proof.
  unfold fit_warmup. run. destruct (ep <? _); [|split; reflexivity].
  destruct (PyFloat.of_int (ep + 1)) as [a|]; [|split; reflexivity].
  destruct (PyFloat.of_int (SOLVER_WARMUP_EPOCHS _)) as [b|];
    [|split; reflexivity].
  destruct (PyFloat.div a b) as [q|]; split; reflexivity.
Qed.

Lemma train_one_epoch_silent : stable silent train_one_epoch.
Proof. open_methods. stable_walk silent_leaf. Qed.

(** What a training phase that raises has logged: nothing, or the
    learning rate of line 66. *)
Lemma fit_train_raise_log (ep : Z) (s st : St) (e : exn) :
  fit_train ep s = (st, Raise e) ->
  exists more,
    logs (world st) =
      (if bool_decide (more = []) then logs (world s)
       else <[log_path (self s) :=
                default [] (logs (world s) !! log_path (self s)) ++ more]>
              (logs (world s))) /\
    stdout (world st) = stdout (world s) ++ more /\
    (more = [] \/
     (VERBOSE (config (self s)) = true /\ exists rate, more = [MsgLR rate])).
Proof.
  unfold fit_train. run.
  destruct (fit_warmup_frame ep s) as [Ww Bw].
  destruct (bookkeeping_fields _ _ Bw) as (_ & _ & _ & Cw & _).
  assert (log_path (self (fit_warmup ep s).1) = log_path (self s)) as Lw
    by (unfold bookkeeping in Bw; congruence).
  destruct (fit_warmup ep s) as [s1 [[]|e1]]; simpl in *.
  2:{ intros [= <- <-]. exists []. rewrite Ww, !app_nil_r.
      split; [reflexivity|]. split; [reflexivity | now left]. }
  unfold fit_log_lr. run. rewrite Cw.
  assert (forall s2 more,
            logs (world s2) =
              (if bool_decide (more = []) then logs (world s)
               else <[log_path (self s) :=
                        default [] (logs (world s) !! log_path (self s))
                        ++ more]> (logs (world s))) ->
            stdout (world s2) = stdout (world s) ++ more ->
            more = [] \/
            (VERBOSE (config (self s)) = true /\
             exists rate, more = [MsgLR rate]) ->
            (let (s', r) := train_one_epoch s2 in
             match r with
             | Ok a => (f ← get_self; log (MsgTrain (epoch f) (meter_avg a))) s'
             | Raise e0 => (s', Raise e0)
             end) = (st, Raise e) ->
            exists more,
              logs (world st) =
                (if bool_decide (more = []) then logs (world s)
                 else <[log_path (self s) :=
                          default [] (logs (world s) !! log_path (self s))
                          ++ more]> (logs (world s))) /\
              stdout (world st) = stdout (world s) ++ more /\
              (more = [] \/
               (VERBOSE (config (self s)) = true /\
                exists rate, more = [MsgLR rate]))) as Hrest.
  { intros s2 more HL HO HM.
    pose proof (train_one_epoch_silent s2) as [SL SO].
    destruct (train_one_epoch s2) as [s3 [sl|e3]]; simpl in SL, SO.
    - run. rewrite log_run. discriminate.
    - intros [= <- <-]. exists more. rewrite SL, SO. auto. }
  destruct (VERBOSE (config (self s))) eqn:Ev.
  - destruct (head (param_groups (optimizer (self s1)))) as [pg|]; simpl.
    + rewrite log_run. simpl. rewrite Cw, Ev, Lw, Ww.
      apply (Hrest _ [MsgLR (lr pg)]); simpl; eauto.
    + intros [= <- <-]. exists []. rewrite Ww, !app_nil_r.
      split; [reflexivity|]. split; [reflexivity | now left].
  - apply (Hrest s1 []); rewrite ?Ww, ?app_nil_r;
      first [reflexivity | now left].
Qed.

(** X18.  When the training phase of a turn of [fit] raises, [fit] raises
    the same exception from the state the training phase left: no
    checkpoint, model or predictions file has been written in the turn --
    the last checkpoint included -- and the epoch, the best score and
    threshold and the early-stop counter are those of the top of the turn.
    The log file has gained at most one line, the learning rate of line
    66, which is there only with [VERBOSE] on and was then printed too;
    the other log files are as they were.  No further turn is taken. *)
Theorem training_failure_ends_fit (s0 : St) (i : nat) (ep : Z) (s st : St)
    (e : exn) :
  fit_turns s0 !! i = Some (ep, s) ->
  fit_train ep s = (st, Raise e) ->
  fit s0 = (st, Raise e) /\
  fit_turns s0 !! S i = None /\
  writes (world st) = writes (world s) /\
  disk (world st) = disk (world s) /\
  (exists more : list LogMsg,
     default [] (logs (world st) !! log_path (self s)) =
       default [] (logs (world s) !! log_path (self s)) ++ more /\
     stdout (world st) = stdout (world s) ++ more /\
     (more = [] \/
      (VERBOSE (config (self s)) = true /\ exists rate, more = [MsgLR rate]))
     /\
     (more = [] -> logs (world st) = logs (world s))) /\
  (forall p, p <> log_path (self s) ->
             logs (world st) !! p = logs (world s) !! p) /\
  epoch (self st) = ep /\
  best_final_score (self st) = best_final_score (self s) /\
  best_score_threshold (self st) = best_score_threshold (self s) /\
  early_stop_epochs (self st) = early_stop_epochs (self s).
Proof.
  intros Ht Htr.
  assert (fit_iteration ep s = (st, Raise e)) as Hit
    by (rewrite fit_iteration_run, Htr; reflexivity).
  assert (fit_turns s0 !! S i = None) as Hn
    by (rewrite (fit_turns_S _ _ _ _ Ht), Hit; reflexivity).
  pose proof (fit_train_quiet ep s) as (B & W & D).
  rewrite Htr in B, W, D. simpl in B, W, D.
  destruct (bookkeeping_fields _ _ B) as (K1 & _ & K3 & _ & K5 & K6).
  destruct (fit_turns_fixed _ _ _ _ Ht) as [_ Hep].
  destruct (fit_train_raise_log _ _ _ _ Htr) as (more & HL & HO & HM).
  split.
  { rewrite fit_run, (lookup_last_here _ _ _ Ht Hn), Hit. reflexivity. }
  do 3 (split; [assumption|]). split; [|split].
  - exists more. split; [|split; [exact HO|split; [exact HM|]]].
    + rewrite HL. case_bool_decide as Em.
      * subst more. now rewrite app_nil_r.
      * now rewrite lookup_insert_eq.
    + intros ->. rewrite HL. reflexivity.
  - intros p Hp. rewrite HL. case_bool_decide; [reflexivity|].
    now apply lookup_insert_ne.
  - repeat split; congruence.
Qed.

(** ** Logging the learning rate *)

(** X19.  With [VERBOSE] on, line 64 reads the learning rate of the first
    parameter group.  When the optimizer has no parameter group the
    training phase of a turn raises before the training pass is entered:
    [IndexError] from line 64, unless the warm-up of lines 57-59 has raised
    already, which it does not for an epoch at or past [WARMUP_EPOCHS].
    The model, its mode included, the world and the bookkeeping are as
    they were: nothing was logged, no call was made. *)
Theorem lr_logging_needs_param_group (ep : Z) (s : St) :
  VERBOSE (config (self s)) = true ->
  param_groups (optimizer (self s)) = [] ->
  exists st e,
    fit_train ep s = (st, Raise e) /\
    (e = IndexError \/ e = OverflowError \/ e = ZeroDivisionError) /\
    (SOLVER_WARMUP_EPOCHS (config (self s)) <= ep -> e = IndexError) /\
    world st = world s /\
    model (self st) = model (self s) /\
    bookkeeping (self st) = bookkeeping (self s).
Proof.
  intros Hv Hp. destruct s as [f w]. simpl in *.
  unfold fit_train, fit_warmup, fit_log_lr. run. simpl.
  destruct (ep <? SOLVER_WARMUP_EPOCHS (config f)) eqn:Ew; simpl.
  - destruct (PyFloat.of_int (ep + 1)) as [a|]; simpl.
    2:{ eexists _, _. split; [reflexivity|]. repeat split; auto.
        intros Hle. apply Z.ltb_lt in Ew. lia. }
    destruct (PyFloat.of_int (SOLVER_WARMUP_EPOCHS (config f))) as [b|];
      simpl.
    2:{ eexists _, _. split; [reflexivity|]. repeat split; auto.
        intros Hle. apply Z.ltb_lt in Ew. lia. }
    destruct (PyFloat.div a b) as [q|]; simpl.
    2:{ eexists _, _. split; [reflexivity|]. repeat split; auto.
        intros Hle. apply Z.ltb_lt in Ew. lia. }
    rewrite Hv, Hp. simpl.
    eexists _, _. split; [reflexivity|]. repeat split; auto.
  - rewrite Hv, Hp. simpl.
    eexists _, _. split; [reflexivity|]. repeat split; auto.
Qed.

End FitterFacts.

(** * The claims on a concrete run *)

(** C7 on a fitter constructed with the CPU as its device: [validation]
    returns, the model has received the image on the CUDA device 0, which
    is neither the fitter's device nor the model's, whereas the training
    pass hands the model its images on the fitter's device. *)
Lemma validation_images_off_device :
  let s := Toy.flat in
  let sv := (validation s).1 in
  let on_cuda : @tensor (Toy.collaborators []) := mkTensor tt (cuda 0) uint8 in
  let on_cpu : @tensor (Toy.collaborators []) := mkTensor tt cpu float32 in
  device (self s) = cpu /\
  m_device (model (self s)) = cpu /\
  (validation s).2 = Ok (0.25%float, 0%float) /\
  calls (world sv) =
    calls (world s) ++ [CEmptyCache; CForwardEval [on_cuda]] /\
  ~ Forall (fun t => t_device t = device (self s)) [on_cuda] /\
  exists targets,
    calls (world (train_one_epoch s).1) =
    calls (world s) ++
    [CZeroGrad; CForwardTrain on_cpu targets; COptimizerStep; CSchedulerStep].
Proof.
  intros s sv on_cuda on_cpu. repeat split; try (vm_compute; reflexivity).
  - intros Hall. apply Forall_inv in Hall. vm_compute in Hall. discriminate.
  - eexists. vm_compute. reflexivity.
Qed.

(** The first four turns of the example run and their validation
    results. *)
Lemma example_turns :
  fit_turns Toy.s0 !! 0%nat = Some (0, Toy.s0) /\
  fit_turns Toy.s0 !! 1%nat = Some (1, Toy.s1) /\
  fit_turns Toy.s0 !! 2%nat = Some (2, Toy.s2) /\
  fit_turns Toy.s0 !! 3%nat = Some (3, Toy.s3).
Proof.
  split; [|split; [|split]]; vm_compute; reflexivity.
Qed.

Lemma some_pair_inv {A B} (a c : A) (b d : B) :
  Some (a, b) = Some (c, d) -> c = a /\ d = b.
Proof. intros E. injection E as -> ->. now split. Qed.

Lemma example_run (i : nat) (ep : Z) (s : @St (Toy.collaborators Toy.example_scores)) :
  fit_turns Toy.s0 !! i = Some (ep, s) -> (i < 4)%nat ->
  exists st sv threshold,
    fit_train ep s = (st, Ok tt) /\
    fit_validate st =
      (sv, Ok (threshold, nth i [0.1; 0.3; 0.2; 0.25]%float 0%float)).
Proof.
  destruct example_turns as (T0 & T1 & T2 & T3).
  intros Ht Hi.
  destruct i as [|[|[|[|i]]]]; [| | | |lia].
  - rewrite T0 in Ht. apply some_pair_inv in Ht as [-> ->].
    exists (fit_train 0 Toy.s0).1, (fit_validate (fit_train 0 Toy.s0).1).1,
      0.25%float.
    split; vm_compute; reflexivity.
  - rewrite T1 in Ht. apply some_pair_inv in Ht as [-> ->].
    exists (fit_train 1 Toy.s1).1, (fit_validate (fit_train 1 Toy.s1).1).1,
      0.25%float.
    split; vm_compute; reflexivity.
  - rewrite T2 in Ht. apply some_pair_inv in Ht as [-> ->].
    exists (fit_train 2 Toy.s2).1, (fit_validate (fit_train 2 Toy.s2).1).1,
      0.25%float.
    split; vm_compute; reflexivity.
  - rewrite T3 in Ht. apply some_pair_inv in Ht as [-> ->].
    exists (fit_train 3 Toy.s3).1, (fit_validate (fit_train 3 Toy.s3).1).1,
      0.25%float.
    split; vm_compute; reflexivity.
Qed.

Lemma example_first_turn :
  fit_train 0 Toy.s0 = (Toy.st0, Ok tt) /\
  fit_validate Toy.st0 = (Toy.sv0, Ok (0.25, 0.1)%float).
Proof. split; vm_compute; reflexivity. Qed.

Lemma example_fresh :
  best_final_score (self Toy.s0) = 0%float /\
  early_stop_epochs (self Toy.s0) = 0 /\
  early_stop_patience (self Toy.s0) = 1 /\
  epoch (self Toy.s0) + 4 <= SOLVER_MAX_EPOCHS (config (self Toy.s0)) /\
  SOLVER_CLEAR_OUTPUT (config (self Toy.s0)) <> 0.
Proof.
  split; [|split; [|split; [|split]]]; vm_compute;
    first [reflexivity | discriminate].
Qed.

Lemma early_stop_counter_and_break_witness :
  (exists ss sc se c,
     fit_select (0.25, 0.1)%float Toy.sv0 = (ss, Ok tt) /\
     early_stop 0.1%float ss = (sc, Ok tt) /\
     fit_advance sc = (se, c) /\
     fit_iteration 0 Toy.s0 = (se, c) /\
     (c = Ok Break <->
      early_stop_patience (self Toy.s0) < early_stop_epochs (self sc))) /\
  length (fit_turns Toy.s0) = 4%nat /\
  exists ep s se,
    fit_turns Toy.s0 !! 3%nat = Some (ep, s) /\
    fit_iteration ep s = (se, Ok Break) /\
    fit Toy.s0 = (se, Ok tt).
Proof.
  destruct example_turns as (T0 & _).
  destruct example_first_turn as (Htr & Hv).
  destruct example_fresh as (F1 & F2 & F3 & F4 & F5).
  split.
  - destruct (proj1 (proj2 (early_stop_counter_and_break
                              (H := Toy.collaborators Toy.example_scores)))
                Toy.s0 0%nat 0 Toy.s0 Toy.st0 Toy.sv0 (0.25, 0.1)%float
                T0 Htr Hv)
      as (ss & sc & se & c & H1 & H2 & H3 & H4 & _ & H6 & _).
    exists ss, sc, se, c.
    split; [exact H1|]. split; [exact H2|]. split; [exact H3|].
    split; [exact H4|exact H6].
  - exact (proj2 (proj2 (early_stop_counter_and_break
                           (H := Toy.collaborators Toy.example_scores)))
             Toy.s0 F1 F2 F3 F4 F5 example_run).
Defined.

Lemma best_artifacts_iff_improved_witness :
  exists se c new,
    fit_iteration 0 Toy.s0 = (se, c) /\
    writes (world se) = writes (world Toy.s0) ++ new /\
    new.*1 = ["out/last-checkpoint.bin"; "out/best-checkpoint.bin";
              "out/best-model.bin"; "out/all_predictions.csv"]%string /\
    best_final_score (self se) = 0.1%float /\
    best_score_threshold (self se) = 0.25%float.
Proof.
  destruct (best_artifacts_iff_improved
              (H := Toy.collaborators Toy.example_scores)
              Toy.s0 0%nat 0 Toy.s0 Toy.st0 Toy.sv0 (0.25, 0.1)%float)
    as (se & c & new & H1 & H2 & H3 & H4 & _ & H6 & H7);
    try (vm_compute; reflexivity).
  exists se, c, new. repeat split; try assumption.
  rewrite H3. vm_compute. reflexivity.
Defined.

Lemma last_checkpoint_every_turn_witness :
  exists sv r se c later,
    fit_validate Toy.st0 = (sv, Ok r) /\
    fit_iteration 0 Toy.s0 = (se, c) /\
    writes (world se) =
      writes (world Toy.s0) ++
      ("out/last-checkpoint.bin"%string,
       FCheckpoint (checkpoint_of (self Toy.st0))) :: later /\
    ck_epoch (checkpoint_of (self Toy.st0)) = 0.
Proof.
  destruct (last_checkpoint_every_turn
              (H := Toy.collaborators Toy.example_scores)
              Toy.s0 0%nat 0 Toy.s0 Toy.st0)
    as (sv & r & se & c & later & H1 & H2 & _ & _ & _ & _ & H7 & H8);
    try (vm_compute; reflexivity).
  exists sv, r, se, c, later. repeat split; assumption.
Defined.

Lemma best_final_score_monotone_witness :
  PyFloat.lt (best_final_score (self Toy.s3)) (best_final_score (self Toy.s1))
  = false.
Proof.
  destruct example_turns as (_ & T1 & _ & T3).
  exact (proj2 (proj1 (proj2 (proj2 (proj2
           (best_final_score_monotone
              (H := Toy.collaborators Toy.example_scores)))))
           Toy.s0 1%nat 3%nat 1 Toy.s1 3 Toy.s3
           (le_S 1 2 (le_S 1 1 (le_n 1))) T1 T3)).
Defined.

Lemma flat_run :
  init_result (H := Toy.collaborators []) (mkModel 0%nat TrainMode cpu) cpu
    (Toy.cfg 1) [Toy.a_batch] [Toy.a_batch] (Toy.empty_world []) =
    (world Toy.flat, Ok Toy.flat) /\
  forall (i : nat) (ep : Z) (s st sv : @St (Toy.collaborators []))
         (r : float * float),
    fit_turns Toy.flat !! i = Some (ep, s) ->
    fit_train ep s = (st, Ok tt) ->
    fit_validate st = (sv, Ok r) ->
    PyFloat.le r.2 0 = true.
Proof.
  split; [vm_compute; reflexivity|].
  intros i ep s st sv r _ _ Hv.
  destruct (fit_validate_spec st) as (sv' & r' & E & Hr & _).
  rewrite Hv in E. injection E as <- <-. rewrite Hr. simpl.
  destruct (Nat.pred _); reflexivity.
Qed.

Lemma no_improvement_from_zero_witness :
  best_final_score (self (fit Toy.flat).1) = 0%float /\
  best_score_threshold (self (fit Toy.flat).1) = 0.5%float.
Proof.
  destruct flat_run as (Hinit & Hrun).
  destruct (no_improvement_from_zero (H := Toy.collaborators [])
              (mkModel 0%nat TrainMode cpu) cpu (Toy.cfg 1) [Toy.a_batch]
              [Toy.a_batch] (Toy.empty_world []) (world Toy.flat) Toy.flat
              Hinit Hrun)
    as (_ & _ & _ & H4 & H5 & _).
  split; [exact H4 | exact H5].
Defined.


Lemma save_then_load_witness :
  exists s1 s2,
    save "out/last-checkpoint.bin" Toy.sv0 = (s1, Ok tt) /\
    load "out/last-checkpoint.bin" Toy.flat_like = (s2, Ok tt) /\
    epoch (self s2) = epoch (self Toy.sv0) + 1 /\
    best_final_score (self s2) = best_final_score (self Toy.sv0).
Proof.
  destruct (save_then_load (H := Toy.collaborators Toy.example_scores)
              "out/last-checkpoint.bin" Toy.sv0)
    as (s1 & H1 & H2 & _).
  destruct (H2 Toy.flat_like) as (s2 & L1 & _ & L3 & L4 & _).
  - replace s1 with (save "out/last-checkpoint.bin" Toy.sv0).1
      by (now rewrite H1).
    vm_compute. reflexivity.
  - exists s1, s2. repeat split; assumption.
Defined.

Lemma save_switches_to_eval_witness :
  exists s1,
    save "out/x.bin" Toy.st0 = (s1, Ok tt) /\
    m_mode (model (self s1)) <> m_mode (model (self Toy.st0)).
Proof.
  destruct (proj1 (save_switches_to_eval
                     (H := Toy.collaborators Toy.example_scores)
                     "out/x.bin" Toy.st0))
    as (s1 & H1 & _ & H3 & _).
  exists s1. split; [exact H1|]. apply H3. vm_compute. reflexivity.
Defined.

(** ** More of the code on concrete runs *)

Lemma example_improves :
  PyFloat.gt (0.25, 0.1)%float.2 (best_final_score (self Toy.s0)) = true.
Proof. vm_compute. reflexivity. Qed.

Lemma improving_turn_files_witness :
  exists (lastc bestc : Checkpoint) (snap : Snapshot) (preds : list Pred),
    let d := disk (world (fit_iteration 0 Toy.s0).1) in
    d !! (base_dir (self Toy.s0) +:+ "/last-checkpoint.bin") =
      Some (FCheckpoint lastc) /\
    d !! (base_dir (self Toy.s0) +:+ "/best-checkpoint.bin") =
      Some (FCheckpoint bestc) /\
    d !! (base_dir (self Toy.s0) +:+ "/best-model.bin") =
      Some (FSnapshot snap) /\
    d !! (base_dir (self Toy.s0) +:+ "/all_predictions.csv") =
      Some (FCsv preds) /\
    evaluate preds = (0.25, 0.1)%float /\
    ck_model_state_dict bestc = ck_model_state_dict lastc /\
    ck_best_final_score bestc = (0.25, 0.1)%float.2 /\
    ck_best_final_score lastc = best_final_score (self Toy.s0).
Proof.
  destruct example_turns as (T0 & _).
  destruct example_first_turn as (Htr & Hv).
  destruct (improving_turn_files
              (H := Toy.collaborators Toy.example_scores)
              Toy.s0 0%nat 0 Toy.s0 Toy.st0 Toy.sv0 (0.25, 0.1)%float
              T0 Htr Hv example_improves)
    as (lastc & bestc & snap & preds & D1 & D2 & D3 & D4 & E & _ & P & _ & _
        & _ & _ & B & _ & L & _).
  exists lastc, bestc, snap, preds.
  split; [exact D1|]. split; [exact D2|]. split; [exact D3|].
  split; [exact D4|]. split; [exact E|]. split; [exact P|].
  split; [exact B|exact L].
Defined.

Lemma resume_after_turn_witness :
  (exists s2,
     load (base_dir (self Toy.s0) +:+ "/last-checkpoint.bin")
       (fit_iteration 0 Toy.s0).1 = (s2, Ok tt) /\
     epoch (self s2) = 0 + 1 /\
     best_final_score (self s2) = best_final_score (self Toy.s0)) /\
  (exists s2,
     load (base_dir (self Toy.s0) +:+ "/best-checkpoint.bin")
       (fit_iteration 0 Toy.s0).1 = (s2, Ok tt) /\
     epoch (self s2) = 0 + 1 /\
     best_final_score (self s2) = (0.25, 0.1)%float.2) /\
  (exists s2,
     load (base_dir (self Toy.s0) +:+ "/best-model.bin")
       (fit_iteration 0 Toy.s0).1 = (s2, Raise KeyError)).
Proof.
  destruct example_turns as (T0 & _).
  destruct example_first_turn as (Htr & Hv).
  destruct (resume_after_turn
              (H := Toy.collaborators Toy.example_scores)
              Toy.s0 0%nat 0 Toy.s0 Toy.st0 Toy.sv0 (0.25, 0.1)%float
              (fit_iteration 0 Toy.s0).1 T0 Htr Hv eq_refl)
    as ((s2 & L1 & L2 & L3 & _) & Himp).
  destruct (Himp example_improves)
    as (_ & (s3 & B1 & B2 & B3 & _) & (s4 & M1 & _)).
  split; [|split].
  - exists s2. split; [exact L1|]. split; [exact L2|exact L3].
  - exists s3. split; [exact B1|]. split; [exact B2|exact B3].
  - exists s4. exact M1.
Defined.

Lemma example_fit : fit Toy.s0 = (Toy.sf, Ok tt).
Proof. vm_compute. reflexivity. Qed.

Lemma fit_after_fit_witness :
  (exists (i : nat) (ep : Z) (s : St),
     fit_turns Toy.s0 !! i = Some (ep, s) /\
     fit_iteration ep s = (Toy.sf, Ok Break) /\
     epoch (self Toy.sf) = ep /\
     early_stop_patience (self Toy.sf) < early_stop_epochs (self Toy.sf) /\
     fit_turns Toy.sf !! 0%nat = Some (ep, Toy.sf)) \/
  (SOLVER_MAX_EPOCHS (config (self Toy.sf)) <= epoch (self Toy.sf) /\
   fit Toy.sf = (Toy.sf, Ok tt)).
Proof.
  exact (fit_after_fit (H := Toy.collaborators Toy.example_scores)
           Toy.s0 Toy.sf example_fit).
Defined.

Lemma stuck_facts :
  SOLVER_CLEAR_OUTPUT (config (self Toy.stuck)) = 0 /\
  epoch (self Toy.stuck) < SOLVER_MAX_EPOCHS (config (self Toy.stuck)) /\
  0 <= early_stop_epochs (self Toy.stuck) < early_stop_patience (self Toy.stuck)
  /\ fit_train (epoch (self Toy.stuck)) Toy.stuck = (Toy.stuck_t, Ok tt).
Proof.
  split; [|split; [|split; [split|]]]; vm_compute;
    first [reflexivity | discriminate].
Qed.

Lemma clear_output_zero_witness :
  fit_turns Toy.stuck = [(epoch (self Toy.stuck), Toy.stuck)] /\
  epoch (self (fit Toy.stuck).1) = epoch (self Toy.stuck) /\
  (fit Toy.stuck).2 = Raise ZeroDivisionError.
Proof.
  destruct stuck_facts as (Hz & Hlt & Hk & Htr).
  destruct (clear_output_zero (H := Toy.collaborators Toy.example_scores)
              Toy.stuck Hz Hlt) as (T & E & _ & R).
  destruct (R Hk) as (_ & R2). destruct (R2 Toy.stuck_t Htr) as (Z & _).
  split; [exact T|]. split; [exact E|exact Z].
Defined.

Lemma neg_zero_turn :
  fit_turns Toy.z0 !! 0%nat = Some (0, Toy.z0) /\
  fit_train 0 Toy.z0 = (Toy.zt0, Ok tt) /\
  fit_validate Toy.zt0 = (Toy.zv0, Ok (0.25%float, PrimFloat.neg_zero)) /\
  PyFloat.eq (0.25%float, PrimFloat.neg_zero).2
    (best_final_score (self Toy.z0)) = true /\
  PrimFloat.neg_zero <> best_final_score (self Toy.z0).
Proof.
  split; [|split; [|split; [|split]]];
    [vm_compute; reflexivity ..|].
  intros E. apply (f_equal PrimFloat.classify) in E. vm_compute in E.
  discriminate.
Qed.

Lemma tie_or_nan_score_witness :
  best_final_score (self (fit_iteration 0 Toy.z0).1) =
    best_final_score (self Toy.z0) /\
  early_stop_epochs (self (fit_iteration 0 Toy.z0).1) = 0 /\
  writes (world (fit_iteration 0 Toy.z0).1) =
    writes (world Toy.z0) ++
    [(last_checkpoint (self Toy.z0), FCheckpoint (checkpoint_of (self Toy.zt0)))].
Proof.
  destruct neg_zero_turn as (T0 & Htr & Hv & Heq & _).
  destruct (tie_or_nan_score (H := Toy.collaborators Toy.neg_zero_scores)
              Toy.z0 0%nat 0 Toy.z0 Toy.zt0 Toy.zv0
              (0.25%float, PrimFloat.neg_zero) T0 Htr Hv (or_introl Heq))
    as (_ & _ & B & _ & K & W & _).
  split; [exact B|]. split; [exact K|exact W].
Defined.

Lemma broken_turn :
  fit_turns Toy.broken !! 0%nat = Some (0, Toy.broken) /\
  fit_train 0 Toy.broken = (Toy.broken_t, Raise RuntimeError).
Proof. split; vm_compute; reflexivity. Qed.

Lemma training_failure_ends_fit_witness :
  fit Toy.broken = (Toy.broken_t, Raise RuntimeError) /\
  writes (world Toy.broken_t) = writes (world Toy.broken) /\
  epoch (self Toy.broken_t) = 0.
Proof.
  destruct broken_turn as (T0 & Htr).
  destruct (training_failure_ends_fit
              (H := Toy.collaborators Toy.example_scores)
              Toy.broken 0%nat 0 Toy.broken Toy.broken_t RuntimeError T0 Htr)
    as (F & _ & W & _ & _ & _ & E & _).
  split; [exact F|]. split; [exact W|exact E].
Defined.

Lemma bare_facts :
  VERBOSE (config (self Toy.bare)) = true /\
  param_groups (optimizer (self Toy.bare)) = [] /\
  SOLVER_WARMUP_EPOCHS (config (self Toy.bare)) <= 7.
Proof. split; [|split]; vm_compute; first [reflexivity | discriminate]. Qed.

Lemma lr_logging_needs_param_group_witness :
  exists st, fit_train 7 Toy.bare = (st, Raise IndexError) /\
             world st = world Toy.bare.
Proof.
  destruct bare_facts as (Hv & Hp & Hw).
  destruct (lr_logging_needs_param_group
              (H := Toy.collaborators Toy.example_scores) 7 Toy.bare Hv Hp)
    as (st & e & Htr & _ & Hi & Hwd & _).
  exists st. rewrite <- (Hi Hw). split; [exact Htr|exact Hwd].
Defined.

Lemma example_validation :
  validation Toy.st0 = ((validation Toy.st0).1, Ok (0.25, 0.1)%float).
Proof. vm_compute. reflexivity. Qed.

Lemma validation_closed_form_witness :
  (0.25, 0.1)%float =
    evaluate (predictions_of (m_params (model (self Toy.st0)))
                (val_loader (self Toy.st0)) []) /\
  calls (world (validation Toy.st0).1) =
    calls (world Toy.st0) ++ validation_calls (val_loader (self Toy.st0)).
Proof.
  destruct (validation_closed_form
              (H := Toy.collaborators Toy.example_scores)
              Toy.st0 (validation Toy.st0).1 (0.25, 0.1)%float
              example_validation)
    as (R & _ & _ & C & _).
  split; [exact R | exact C].
Defined.

